(** * Embedding layers of the Time-Series-Library ([layers/Embed.py])

    A shallow embedding of the embedding modules of [layers/Embed.py] and
    the verification of their specification.

    Conventions of the embedding.
    - A tensor is a shape together with an indexing function; the
      elements outside the shape are irrelevant, and two tensors are
      compared with [teq3] (same shape, same elements inside the shape).
    - [float] elements are modelled by the real numbers [R]: rounding is
      idealised, [sin], [cos], [exp], [tanh] and [ln] are the real
      functions.  [long] elements are modelled by [Z].
    - Exceptions are values of [exn]; a computation that may raise has
      type [Res A].
    - Parameters that PyTorch initialises at random are passed to the
      constructors as indexing functions (the random draw); the
      constructor fixes their shape.
    - The stochastic mask of dropout is passed to [forward] as a [Mode].
    - The operations of torch and einops carry the shape checks of the
      libraries: on shapes a library rejects, the operation raises. *)

From Stdlib Require Import Reals Lra Lia List String ZArith Bool Arith.
Import ListNotations.

Set Implicit Arguments.

(** ** Exceptions *)

(** [ValueErrorOf msg value] is the [ValueError] whose message is [msg]
    followed by the number [value]. *)
Inductive exn : Type :=
| ValueError (msg : string)
| ValueErrorOf (msg : string) (value : R)
| KeyError (key : string)
| IndexError
| ZeroDivisionError
| TypeError
| RuntimeError.

Definition Res (A : Type) : Type := (exn + A)%type.

Definition ok {A : Type} (a : A) : Res A := inr a.
Definition raise {A : Type} (e : exn) : Res A := inl e.

Definition bind {A B : Type} (c : Res A) (k : A -> Res B) : Res B :=
  match c with
  | inl e => inl e
  | inr a => k a
  end.

Notation "x <- c ;; k" := (bind c (fun x => k))
  (at level 61, c at next level, right associativity).

(** ** Tensors *)

Record Tensor1 (A : Type) : Type := mkT1 { len1 : nat; get1 : nat -> A }.
Record Tensor2 (A : Type) : Type :=
  mkT2 { rows2 : nat; cols2 : nat; get2 : nat -> nat -> A }.
Record Tensor3 (A : Type) : Type :=
  mkT3 { dim0 : nat; dim1 : nat; dim2 : nat; get3 : nat -> nat -> nat -> A }.
Record Tensor4 (A : Type) : Type :=
  mkT4 { d4_0 : nat; d4_1 : nat; d4_2 : nat; d4_3 : nat;
         get4 : nat -> nat -> nat -> nat -> A }.

Definition shape2 {A} (x : Tensor2 A) : nat * nat := (rows2 x, cols2 x).
Definition shape3 {A} (x : Tensor3 A) : nat * nat * nat :=
  (dim0 x, dim1 x, dim2 x).

(** Equality of tensors: the same shape and the same elements inside it. *)
Definition teq3 {A} (x y : Tensor3 A) : Prop :=
  shape3 x = shape3 y /\
  forall b l d, b < dim0 x -> l < dim1 x -> d < dim2 x ->
                get3 x b l d = get3 y b l d.

(** [src] can be expanded to size [dst] along one dimension. *)
Definition expandable (src dst : nat) : bool := (src =? dst) || (src =? 1).

(** Index into a dimension of size [src] that was expanded. *)
Definition bidx (src i : nat) : nat := if src =? 1 then 0 else i.

(** Size of the broadcast of two dimensions; [None] when they do not agree. *)
Definition bdim (a b : nat) : option nat :=
  if a =? b then Some a
  else if a =? 1 then Some b
  else if b =? 1 then Some a
  else None.

Fixpoint Rsum (n : nat) (f : nat -> R) : R :=
  match n with
  | O => 0%R
  | S k => (Rsum k f + f k)%R
  end.

(** ** PositionalEmbedding *)

(** [torch.arange(0, n, 2).float()] *)
Definition arange_step2 (n : nat) : Tensor1 R :=
  mkT1 ((n + 1) / 2) (fun i => INR (2 * i)).

(** [torch.arange(0, n).float().unsqueeze(1)] *)
Definition arange_col (n : nat) : Tensor2 R :=
  mkT2 n 1 (fun p _ => INR p).

(** Python's [a / d] of a float by an int. *)
Definition py_div (a : R) (d : nat) : Res R :=
  if d =? 0 then raise ZeroDivisionError else ok (a / INR d)%R.

(** [(torch.arange(0, d_model, 2).float() * -(math.log(10000.0) / d_model)).exp()] *)
Definition div_term (d_model : nat) : Res (Tensor1 R) :=
  q <- py_div (ln 10000) d_model ;;
  ok (mkT1 (len1 (arange_step2 d_model))
           (fun i => exp (get1 (arange_step2 d_model) i * - q)%R)).

(** [position * div_term]: a [n, 1] column times a vector of length [k]
    broadcasts to [n, k]. *)
Definition mul_col_row (position : Tensor2 R) (dt : Tensor1 R) : Tensor2 R :=
  mkT2 (rows2 position) (len1 dt)
       (fun p i => (get2 position p 0 * get1 dt i)%R).

Definition map2d (f : R -> R) (x : Tensor2 R) : Tensor2 R :=
  mkT2 (rows2 x) (cols2 x) (fun i j => f (get2 x i j)).

Definition zeros2 (n m : nat) : Tensor2 R := mkT2 n m (fun _ _ => 0%R).

(** [dst[:, start::2] = src]: the columns [start, start+2, ...] of [dst]
    receive [src], expanded to the shape of the slice; a [src] that cannot
    be expanded to it is an error of the tensor engine. *)
Definition setitem_cols2 (dst : Tensor2 R) (start : nat) (src : Tensor2 R)
  : Res (Tensor2 R) :=
  let width := (cols2 dst + 1 - start) / 2 in
  if expandable (rows2 src) (rows2 dst) && expandable (cols2 src) width then
    ok (mkT2 (rows2 dst) (cols2 dst)
             (fun p c =>
                if (start <=? c) && ((c - start) mod 2 =? 0)
                then get2 src (bidx (rows2 src) p)
                              (bidx (cols2 src) ((c - start) / 2))
                else get2 dst p c))
  else raise RuntimeError.

Definition unsqueeze0 (x : Tensor2 R) : Tensor3 R :=
  mkT3 1 (rows2 x) (cols2 x) (fun _ p c => get2 x p c).

Record PositionalEmbedding : Type := mkPositionalEmbedding {
  pe : Tensor3 R
}.

Definition PositionalEmbedding_init (d_model max_len : nat)
  : Res PositionalEmbedding :=
  let pe := zeros2 max_len d_model in
  let position := arange_col max_len in
  dt <- div_term d_model ;;
  pe <- setitem_cols2 pe 0 (map2d sin (mul_col_row position dt)) ;;
  pe <- setitem_cols2 pe 1 (map2d cos (mul_col_row position dt)) ;;
  ok (mkPositionalEmbedding (unsqueeze0 pe)).

(** The default [max_len=5000]. *)
Definition default_max_len : nat := 5000.

(** [self.pe[:, : x.size(1)]] *)
Definition PositionalEmbedding_forward {A} (m : PositionalEmbedding)
  (x : Tensor3 A) : Tensor3 R :=
  mkT3 (dim0 (pe m)) (Nat.min (dim1 x) (dim1 (pe m))) (dim2 (pe m))
       (get3 (pe m)).

(** ** Generic tensor operations *)

Fixpoint all_upto (n : nat) (f : nat -> bool) : bool :=
  match n with
  | O => true
  | S k => all_upto k f && f k
  end.

(** [x.permute(0, 2, 1)], also [x.transpose(1, 2)] *)
Definition permute021 {A} (x : Tensor3 A) : Tensor3 A :=
  mkT3 (dim0 x) (dim2 x) (dim1 x) (fun b i j => get3 x b j i).

(** [torch.cat([x, y], dim=1)] *)
Definition cat1 (x y : Tensor3 R) : Res (Tensor3 R) :=
  if (dim0 x =? dim0 y) && (dim2 x =? dim2 y) then
    ok (mkT3 (dim0 x) (dim1 x + dim1 y) (dim2 x)
             (fun b l d => if l <? dim1 x then get3 x b l d
                           else get3 y b (l - dim1 x) d))
  else raise RuntimeError.

(** [torch.cat([x, y], dim=2)] *)
Definition cat2 (x y : Tensor3 R) : Res (Tensor3 R) :=
  if (dim0 x =? dim0 y) && (dim1 x =? dim1 y) then
    ok (mkT3 (dim0 x) (dim1 x) (dim2 x + dim2 y)
             (fun b l d => if d <? dim2 x then get3 x b l d
                           else get3 y b l (d - dim2 x)))
  else raise RuntimeError.

(** [x + y] with broadcasting. *)
Definition add3 (x y : Tensor3 R) : Res (Tensor3 R) :=
  match bdim (dim0 x) (dim0 y), bdim (dim1 x) (dim1 y),
        bdim (dim2 x) (dim2 y) with
  | Some n0, Some n1, Some n2 =>
      ok (mkT3 n0 n1 n2
            (fun b l d =>
               (get3 x (bidx (dim0 x) b) (bidx (dim1 x) l) (bidx (dim2 x) d)
                + get3 y (bidx (dim0 y) b) (bidx (dim1 y) l)
                         (bidx (dim2 y) d))%R))
  | _, _, _ => raise RuntimeError
  end.

(** [x + c] for a Python float [c]. *)
Definition add_scalar3 (x : Tensor3 R) (c : R) : Tensor3 R :=
  mkT3 (dim0 x) (dim1 x) (dim2 x) (fun b l d => (get3 x b l d + c)%R).

(** [torch.zeros_like(x)] *)
Definition zeros_like3 (x : Tensor3 R) : Tensor3 R :=
  mkT3 (dim0 x) (dim1 x) (dim2 x) (fun _ _ _ => 0%R).

(** [x[:, :, k]] *)
Definition select2 {A} (x : Tensor3 A) (k : nat) : Res (Tensor2 A) :=
  if k <? dim2 x then ok (mkT2 (dim0 x) (dim1 x) (fun b l => get3 x b l k))
  else raise IndexError.

(** Truncation toward zero, the conversion of a float to [long]. *)
Definition Rtrunc (r : R) : Z :=
  if Rle_dec 0 r then Int_part r else Z.opp (Int_part (- r)).

(** [x.long()] *)
Definition long3 (x : Tensor3 R) : Tensor3 Z :=
  mkT3 (dim0 x) (dim1 x) (dim2 x) (fun b l d => Rtrunc (get3 x b l d)).

(** einops [repeat(e, "b v -> b l v", l=l)] *)
Definition repeat_blv (e : Tensor2 R) (l : nat) : Tensor3 R :=
  mkT3 (rows2 e) l (cols2 e) (fun b _ v => get2 e b v).

(** einops [rearrange(e, "b (l d) -> b l d", l=l)] *)
Definition rearrange_bld (e : Tensor2 R) (l : nat) : Res (Tensor3 R) :=
  if l =? 0 then raise ZeroDivisionError
  else if cols2 e mod l =? 0 then
    let d := cols2 e / l in
    ok (mkT3 (rows2 e) l d (fun b i j => get2 e b (i * d + j)))
  else raise RuntimeError.

(** [F.pad(x, (0, pad))]: zero padding on the right of the last axis; a
    negative [pad] crops. *)
Definition pad_right3 (x : Tensor3 R) (pad : Z) : Res (Tensor3 R) :=
  if (Z.of_nat (dim2 x) + pad <? 0)%Z then raise RuntimeError
  else ok (mkT3 (dim0 x) (dim1 x) (Z.to_nat (Z.of_nat (dim2 x) + pad))
                (fun b l d => if d <? dim2 x then get3 x b l d else 0%R)).

(** ** nn.Linear *)

Record Linear : Type := mkLinear {
  in_features : nat;
  out_features : nat;
  lin_weight : Tensor2 R;          (* [out_features, in_features] *)
  lin_bias : option (Tensor1 R)    (* [out_features] *)
}.

(** The random initial values of a linear layer. *)
Record LinearDraw : Type := mkLinearDraw {
  draw_weight : nat -> nat -> R;
  draw_bias : nat -> R
}.

Definition Linear_init (n_in n_out : nat) (bias : bool) (r : LinearDraw)
  : Linear :=
  mkLinear n_in n_out (mkT2 n_out n_in (draw_weight r))
           (if bias then Some (mkT1 n_out (draw_bias r)) else None).

Definition bias_at (l : Linear) (o : nat) : R :=
  match lin_bias l with
  | Some b => get1 b o
  | None => 0%R
  end.

(** One output of the affine map applied to the row [row]. *)
Definition affine (l : Linear) (row : nat -> R) (o : nat) : R :=
  (Rsum (in_features l) (fun i => row i * get2 (lin_weight l) o i)
   + bias_at l o)%R.

Definition Linear_forward2 (l : Linear) (x : Tensor2 R) : Res (Tensor2 R) :=
  if cols2 x =? in_features l then
    ok (mkT2 (rows2 x) (out_features l)
             (fun b o => affine l (get2 x b) o))
  else raise RuntimeError.

Definition Linear_forward3 (l : Linear) (x : Tensor3 R) : Res (Tensor3 R) :=
  if dim2 x =? in_features l then
    ok (mkT3 (dim0 x) (dim1 x) (out_features l)
             (fun b t o => affine l (get3 x b t) o))
  else raise RuntimeError.

(** ** nn.Conv1d with [padding_mode="circular"] and no bias *)

Record Conv1d : Type := mkConv1d {
  in_channels : nat;
  out_channels : nat;
  kernel_size : nat;
  conv_padding : nat;
  conv_weight : Tensor3 R          (* [out_channels, in_channels, kernel_size] *)
}.

Definition Conv1d_init (c_in c_out k padding : nat)
  (r : nat -> nat -> nat -> R) : Conv1d :=
  mkConv1d c_in c_out k padding (mkT3 c_out c_in k r).

(** Circular padding of the last axis by [p] on both sides, as torch
    implements it since version 1.5; it wraps around at most once, a
    padding wider than the axis is an error. *)
Definition pad_circular (x : Tensor3 R) (p : nat) : Res (Tensor3 R) :=
  if p <=? dim2 x then
    ok (mkT3 (dim0 x) (dim1 x) (dim2 x + 2 * p)
             (fun b c t => get3 x b c ((t + dim2 x - p) mod dim2 x)))
  else raise RuntimeError.

(** The convolution (one group, stride 1, no bias) of an input
    [batch, channel, time], padded before.  The engine rejects a weight
    without output channels, an input with another number of channels than
    the weight, and an input shorter than the kernel.  For an input
    without channels the engine returns an output without channels. *)
Definition conv1d_valid (cv : Conv1d) (x : Tensor3 R) : Res (Tensor3 R) :=
  if out_channels cv <? 1 then raise RuntimeError
  else if negb (dim1 x =? in_channels cv) then raise RuntimeError
  else if dim2 x <? kernel_size cv then raise RuntimeError
  else
    ok (mkT3 (dim0 x) (if dim1 x =? 0 then 0 else out_channels cv)
             (dim2 x - kernel_size cv + 1)
             (fun b o t =>
                Rsum (in_channels cv) (fun c =>
                  Rsum (kernel_size cv) (fun k =>
                    (get3 (conv_weight cv) o c k * get3 x b c (t + k))%R)))).

Definition Conv1d_forward (cv : Conv1d) (x : Tensor3 R) : Res (Tensor3 R) :=
  xp <- pad_circular x (conv_padding cv) ;;
  conv1d_valid cv xp.

(** ** TokenEmbedding *)

(** The release numbers of [torch.__version__]; the comparison with the
    string "1.5.0" is the comparison with [[1; 5; 0]]. *)
Definition Version : Type := list nat.

(** [v >= w] on release numbers; missing numbers count as zero. *)
Fixpoint version_ge (v w : Version) : bool :=
  match v, w with
  | _, [] => true
  | [], b :: w' => (b =? 0) && version_ge [] w'
  | a :: v', b :: w' =>
      if b <? a then true
      else if a <? b then false
      else version_ge v' w'
  end.

Record TokenEmbedding : Type := mkTokenEmbedding {
  tokenConv : Conv1d
}.

Definition TokenEmbedding_init (torch_version : Version) (c_in d_model : nat)
  (r : nat -> nat -> nat -> R) : TokenEmbedding :=
  let padding := if version_ge torch_version [1; 5; 0] then 1 else 2 in
  mkTokenEmbedding (Conv1d_init c_in d_model 3 padding r).

Definition TokenEmbedding_forward (m : TokenEmbedding) (x : Tensor3 R)
  : Res (Tensor3 R) :=
  y <- Conv1d_forward (tokenConv m) (permute021 x) ;;
  ok (permute021 y).

(** ** nn.Embedding and FixedEmbedding *)

Record Embedding : Type := mkEmbedding {
  emb_weight : Tensor2 R           (* [num_embeddings, embedding_dim] *)
}.

Definition Embedding_init (n d : nat) (r : nat -> nat -> R) : Embedding :=
  mkEmbedding (mkT2 n d r).

Definition index_ok (n : nat) (z : Z) : bool :=
  (0 <=? z)%Z && (z <? Z.of_nat n)%Z.

(** The lookup of a [batch, time] tensor of indices; an index outside the
    table is an [IndexError]. *)
Definition Embedding_forward (e : Embedding) (idx : Tensor2 Z)
  : Res (Tensor3 R) :=
  if all_upto (rows2 idx) (fun b =>
       all_upto (cols2 idx) (fun l =>
         index_ok (rows2 (emb_weight e)) (get2 idx b l)))
  then ok (mkT3 (rows2 idx) (cols2 idx) (cols2 (emb_weight e))
                (fun b l d => get2 (emb_weight e) (Z.to_nat (get2 idx b l)) d))
  else raise IndexError.

Record FixedEmbedding : Type := mkFixedEmbedding {
  emb : Embedding
}.

Definition FixedEmbedding_init (c_in d_model : nat) : Res FixedEmbedding :=
  let w := zeros2 c_in d_model in
  let position := arange_col c_in in
  dt <- div_term d_model ;;
  w <- setitem_cols2 w 0 (map2d sin (mul_col_row position dt)) ;;
  w <- setitem_cols2 w 1 (map2d cos (mul_col_row position dt)) ;;
  ok (mkFixedEmbedding (mkEmbedding w)).

Definition FixedEmbedding_forward (m : FixedEmbedding) (idx : Tensor2 Z)
  : Res (Tensor3 R) :=
  Embedding_forward (emb m) idx.

(** ** TemporalEmbedding *)

(** What [Embed] builds: a [FixedEmbedding] or an [nn.Embedding]. *)
Inductive Embed : Type :=
| EmbedFixed (m : FixedEmbedding)
| EmbedLearned (m : Embedding).

Definition Embed_init (embed_type : string) (n d_model : nat)
  (r : nat -> nat -> R) : Res Embed :=
  if String.eqb embed_type "fixed" then
    m <- FixedEmbedding_init n d_model ;; ok (EmbedFixed m)
  else ok (EmbedLearned (Embedding_init n d_model r)).

Definition Embed_forward (e : Embed) (idx : Tensor2 Z) : Res (Tensor3 R) :=
  match e with
  | EmbedFixed m => FixedEmbedding_forward m idx
  | EmbedLearned m => Embedding_forward m idx
  end.

Definition Embed_table (e : Embed) : Tensor2 R :=
  match e with
  | EmbedFixed m => emb_weight (emb m)
  | EmbedLearned m => emb_weight m
  end.

Definition minute_size : nat := 4.
Definition hour_size : nat := 24.
Definition weekday_size : nat := 7.
Definition day_size : nat := 32.
Definition month_size : nat := 13.

Record TemporalEmbedding : Type := mkTemporalEmbedding {
  minute_embed : option Embed;     (* the attribute exists only for freq "t" *)
  hour_embed : Embed;
  weekday_embed : Embed;
  day_embed : Embed;
  month_embed : Embed
}.

(** The random initial tables of the learned variant. *)
Record TemporalDraw : Type := mkTemporalDraw {
  draw_minute : nat -> nat -> R;
  draw_hour : nat -> nat -> R;
  draw_weekday : nat -> nat -> R;
  draw_day : nat -> nat -> R;
  draw_month : nat -> nat -> R
}.

Definition TemporalEmbedding_init (d_model : nat) (embed_type freq : string)
  (r : TemporalDraw) : Res TemporalEmbedding :=
  mi <- (if String.eqb freq "t"
         then e <- Embed_init embed_type minute_size d_model (draw_minute r) ;;
              ok (Some e)
         else ok None) ;;
  h <- Embed_init embed_type hour_size d_model (draw_hour r) ;;
  w <- Embed_init embed_type weekday_size d_model (draw_weekday r) ;;
  d <- Embed_init embed_type day_size d_model (draw_day r) ;;
  mo <- Embed_init embed_type month_size d_model (draw_month r) ;;
  ok (mkTemporalEmbedding mi h w d mo).

(** A field lookup [self.f_embed(x[:, :, k])]. *)
Definition field_lookup (e : Embed) (x : Tensor3 Z) (k : nat)
  : Res (Tensor3 R) :=
  col <- select2 x k ;;
  Embed_forward e col.

Definition TemporalEmbedding_forward (m : TemporalEmbedding) (x : Tensor3 R)
  : Res (Tensor3 R) :=
  let x := long3 x in
  minute_x <- match minute_embed m with
              | Some e => t <- field_lookup e x 4 ;; ok (inr t)
              | None => ok (inl 0%R)
              end ;;
  hour_x <- field_lookup (hour_embed m) x 3 ;;
  weekday_x <- field_lookup (weekday_embed m) x 2 ;;
  day_x <- field_lookup (day_embed m) x 1 ;;
  month_x <- field_lookup (month_embed m) x 0 ;;
  s <- add3 hour_x weekday_x ;;
  s <- add3 s day_x ;;
  s <- add3 s month_x ;;
  match minute_x with
  | inr t => add3 s t
  | inl c => ok (add_scalar3 s c)
  end.

(** ** TimeFeatureEmbedding *)

Definition freq_map : list (string * nat) :=
  [("h", 4); ("t", 5); ("s", 6); ("m", 1); ("a", 1); ("w", 2); ("d", 3);
   ("b", 3)]%string.

(** [d[key]] on a dictionary. *)
Fixpoint dict_get (d : list (string * nat)) (key : string) : Res nat :=
  match d with
  | [] => raise (KeyError key)
  | (k, v) :: rest => if String.eqb k key then ok v else dict_get rest key
  end.

Record TimeFeatureEmbedding : Type := mkTimeFeatureEmbedding {
  embed : Linear
}.

Definition TimeFeatureEmbedding_init (d_model : nat)
  (embed_type freq : string) (r : LinearDraw) : Res TimeFeatureEmbedding :=
  d_inp <- dict_get freq_map freq ;;
  ok (mkTimeFeatureEmbedding (Linear_init d_inp d_model false r)).

Definition TimeFeatureEmbedding_forward (m : TimeFeatureEmbedding)
  (x : Tensor3 R) : Res (Tensor3 R) :=
  Linear_forward3 (embed m) x.

(** ** nn.Dropout *)

Record Dropout : Type := mkDropout {
  drop_p : R
}.

Definition Dropout_init (p : R) : Res Dropout :=
  if Rlt_dec p 0 then
    raise (ValueErrorOf
             "dropout probability has to be between 0 and 1, but got " p)
  else if Rlt_dec 1 p then
    raise (ValueErrorOf
             "dropout probability has to be between 0 and 1, but got " p)
  else ok (mkDropout p).

(** Evaluation mode, or training mode with the mask that was drawn. *)
Inductive Mode : Type :=
| Eval
| Train (keep : nat -> nat -> nat -> bool).

Definition Dropout_forward (m : Dropout) (mode : Mode) (x : Tensor3 R)
  : Tensor3 R :=
  match mode with
  | Eval => x
  | Train keep =>
      mkT3 (dim0 x) (dim1 x) (dim2 x)
           (fun b l d =>
              if Req_dec_T (drop_p m) 1 then 0%R
              else if keep b l d then (get3 x b l d / (1 - drop_p m))%R
              else 0%R)
  end.

(** ** The exogenous prompt projector *)

(** [Sequential(Linear, Tanh, Linear)] *)
Record Sequential : Type := mkSequential {
  fc1 : Linear;
  fc2 : Linear
}.

Definition tanh2 (x : Tensor2 R) : Tensor2 R := map2d tanh x.

Definition Sequential_forward (s : Sequential) (x : Tensor2 R)
  : Res (Tensor2 R) :=
  h <- Linear_forward2 (fc1 s) x ;;
  Linear_forward2 (fc2 s) (tanh2 h).

(** [s in l] on a list of strings. *)
Definition in_list (s : string) (l : list string) : bool :=
  existsb (String.eqb s) l.

(** The [match prompt_tuning_type] of both constructors. *)
Definition projector_init (prompt_tuning_type : string)
  (d_model num_virtual_tokens exo_prompt_dim hidden : nat)
  (r1 r2 : LinearDraw) : Res (option Sequential) :=
  if String.eqb prompt_tuning_type "two_layer_mlp" then
    ok (Some (mkSequential
                (Linear_init exo_prompt_dim hidden true r1)
                (Linear_init hidden (d_model * num_virtual_tokens) true r2)))
  else if String.eqb prompt_tuning_type "brute_concat" then ok None
  else raise (ValueError ("prompt_tuning_type " ++ prompt_tuning_type
                          ++ " is not supported.")).

(** [exo_prompt] changes rank in [forward]: it enters as [batch, prompt_dim]
    and becomes a rank-3 tensor under both policies. *)
Inductive Prompt : Type :=
| Prompt2 (e : Tensor2 R)
| Prompt3 (e : Tensor3 R).

(** The first [if]/[elif] of both [forward]s; [l] is [x.size(1)]. *)
Definition prepare_prompt (prompt_tuning_type : string)
  (projector : option Sequential) (num_virtual_tokens : nat)
  (exo_prompt : Tensor2 R) (l : nat) : Res Prompt :=
  if in_list prompt_tuning_type ["brute_concat"%string] then
    ok (Prompt3 (repeat_blv exo_prompt l))
  else if in_list prompt_tuning_type ["two_layer_mlp"%string] then
    match projector with
    | Some s =>
        e <- Sequential_forward s exo_prompt ;;
        e <- rearrange_bld e num_virtual_tokens ;;
        ok (Prompt3 e)
    | None => raise TypeError
    end
  else ok (Prompt2 exo_prompt).

(** [torch.cat] of tensors of different rank is an error. *)
Definition as_rank3 (e : Prompt) : Res (Tensor3 R) :=
  match e with
  | Prompt3 e => ok e
  | Prompt2 _ => raise RuntimeError
  end.

Definition zeros_like_prompt (e : Prompt) : Prompt :=
  match e with
  | Prompt3 e => Prompt3 (zeros_like3 e)
  | Prompt2 e => Prompt2 (mkT2 (rows2 e) (cols2 e) (fun _ _ => 0%R))
  end.

(** ** DataEmbeddingWithExoPromptTuning *)

Inductive TemporalModule : Type :=
| UseTemporal (m : TemporalEmbedding)
| UseTimeFeature (m : TimeFeatureEmbedding).

Definition TemporalModule_init (d_model : nat) (embed_type freq : string)
  (rt : TemporalDraw) (rf : LinearDraw) : Res TemporalModule :=
  if negb (String.eqb embed_type "timeF") then
    m <- TemporalEmbedding_init d_model embed_type freq rt ;;
    ok (UseTemporal m)
  else
    m <- TimeFeatureEmbedding_init d_model embed_type freq rf ;;
    ok (UseTimeFeature m).

Definition TemporalModule_forward (m : TemporalModule) (x : Tensor3 R)
  : Res (Tensor3 R) :=
  match m with
  | UseTemporal m => TemporalEmbedding_forward m x
  | UseTimeFeature m => TimeFeatureEmbedding_forward m x
  end.

Record DataEmbeddingWithExoPromptTuning : Type := mkExo {
  prompt_tuning_type : string;
  num_virtual_tokens : nat;
  exo_prompt_dim : nat;
  exo_prompt_projector : option Sequential;
  exo_prompt_projector_hidden_size : nat;
  value_embedding : TokenEmbedding;
  position_embedding : PositionalEmbedding;
  temporal_embedding : TemporalModule;
  dropout : Dropout
}.

(** The random initial values the constructor draws. *)
Record ExoDraw : Type := mkExoDraw {
  draw_fc1 : LinearDraw;
  draw_fc2 : LinearDraw;
  draw_conv : nat -> nat -> nat -> R;
  draw_temporal : TemporalDraw;
  draw_timeF : LinearDraw
}.

Definition DataEmbeddingWithExoPromptTuning_init (torch_version : Version)
  (c_in d_model : nat) (embed_type freq : string) (dropout_p : R)
  (ptt : string) (nvt exo_dim hidden : nat) (r : ExoDraw)
  : Res DataEmbeddingWithExoPromptTuning :=
  projector <- projector_init ptt d_model nvt exo_dim hidden
                 (draw_fc1 r) (draw_fc2 r) ;;
  let token_embedding_c_in :=
    if negb (in_list ptt ["brute_concat"%string]) then c_in
    else c_in + exo_dim in
  let ve := TokenEmbedding_init torch_version token_embedding_c_in d_model
              (draw_conv r) in
  pos <- PositionalEmbedding_init d_model default_max_len ;;
  temp <- TemporalModule_init d_model embed_type freq
            (draw_temporal r) (draw_timeF r) ;;
  dr <- Dropout_init dropout_p ;;
  ok (mkExo ptt nvt exo_dim projector hidden ve pos temp dr).

Definition DataEmbeddingWithExoPromptTuning_forward
  (m : DataEmbeddingWithExoPromptTuning) (mode : Mode)
  (x : Tensor3 R) (x_mark : option (Tensor3 R)) (exo_prompt : Tensor2 R)
  : Res (Tensor3 R) :=
  exo_prompt <- prepare_prompt (prompt_tuning_type m)
                  (exo_prompt_projector m) (num_virtual_tokens m)
                  exo_prompt (dim1 x) ;;
  x <- match x_mark with
       | None =>
           x <- (if in_list (prompt_tuning_type m) ["brute_concat"%string]
                 then
                   e <- as_rank3 exo_prompt ;;
                   x <- cat2 e x ;;
                   TokenEmbedding_forward (value_embedding m) x
                 else
                   x <- TokenEmbedding_forward (value_embedding m) x ;;
                   e <- as_rank3 exo_prompt ;;
                   cat1 e x) ;;
           add3 x (PositionalEmbedding_forward (position_embedding m) x)
       | Some x_mark =>
           x <- (if in_list (prompt_tuning_type m) ["brute_concat"%string]
                 then
                   e <- as_rank3 exo_prompt ;;
                   x <- cat2 e x ;;
                   TokenEmbedding_forward (value_embedding m) x
                 else
                   x <- TokenEmbedding_forward (value_embedding m) x ;;
                   e <- as_rank3 exo_prompt ;;
                   cat1 e x) ;;
           x <- add3 x (PositionalEmbedding_forward (position_embedding m) x) ;;
           temporal <- TemporalModule_forward (temporal_embedding m) x_mark ;;
           temporal <-
             (if negb (in_list (prompt_tuning_type m) ["brute_concat"%string])
              then
                temporal_filler <- as_rank3 (zeros_like_prompt exo_prompt) ;;
                cat1 temporal_filler temporal
              else ok temporal) ;;
           add3 x temporal
       end ;;
  ok (Dropout_forward (dropout m) mode x).

(** ** DataEmbedding_inverted_WithExoPromptTuning *)

Record DataEmbedding_inverted_WithExoPromptTuning : Type := mkInvExo {
  inv_prompt_tuning_type : string;
  inv_num_virtual_tokens : nat;
  inv_exo_prompt_dim : nat;
  inv_exo_prompt_projector : option Sequential;
  inv_exo_prompt_projector_hidden_size : nat;
  inv_value_embedding : Linear;
  inv_dropout : Dropout
}.

Record InvExoDraw : Type := mkInvExoDraw {
  inv_draw_fc1 : LinearDraw;
  inv_draw_fc2 : LinearDraw;
  inv_draw_value : LinearDraw
}.

Definition DataEmbedding_inverted_WithExoPromptTuning_init
  (c_in d_model : nat) (embed_type freq : string) (dropout_p : R)
  (ptt : string) (nvt exo_dim hidden : nat) (r : InvExoDraw)
  : Res DataEmbedding_inverted_WithExoPromptTuning :=
  projector <- projector_init ptt d_model nvt exo_dim hidden
                 (inv_draw_fc1 r) (inv_draw_fc2 r) ;;
  let token_embedding_c_in :=
    if negb (in_list ptt ["brute_concat"%string]) then c_in
    else c_in + exo_dim in
  let ve := Linear_init token_embedding_c_in d_model true (inv_draw_value r) in
  dr <- Dropout_init dropout_p ;;
  ok (mkInvExo ptt nvt exo_dim projector hidden ve dr).

Definition DataEmbedding_inverted_WithExoPromptTuning_forward
  (m : DataEmbedding_inverted_WithExoPromptTuning) (mode : Mode)
  (x : Tensor3 R) (x_mark : option (Tensor3 R)) (exo_prompt : Tensor2 R)
  : Res (Tensor3 R) :=
  let x := permute021 x in
  exo_prompt <- prepare_prompt (inv_prompt_tuning_type m)
                  (inv_exo_prompt_projector m) (inv_num_virtual_tokens m)
                  exo_prompt (dim1 x) ;;
  x <- match x_mark with
       | None =>
           if in_list (inv_prompt_tuning_type m) ["brute_concat"%string] then
             e <- as_rank3 exo_prompt ;;
             x <- cat2 x e ;;
             Linear_forward3 (inv_value_embedding m) x
           else
             x <- Linear_forward3 (inv_value_embedding m) x ;;
             e <- as_rank3 exo_prompt ;;
             cat1 x e
       | Some x_mark =>
           let x_mark_i := permute021 x_mark in
           if in_list (inv_prompt_tuning_type m) ["brute_concat"%string] then
             e <- as_rank3 exo_prompt ;;
             x <- cat2 x e ;;
             let pad_length := (Z.of_nat (dim2 x) - Z.of_nat (dim2 x_mark_i))%Z in
             x_mark_i <- pad_right3 x_mark_i pad_length ;;
             c <- cat1 x x_mark_i ;;
             Linear_forward3 (inv_value_embedding m) c
           else
             c <- cat1 x x_mark_i ;;
             x <- Linear_forward3 (inv_value_embedding m) c ;;
             e <- as_rank3 exo_prompt ;;
             cat1 x e
       end ;;
  ok (Dropout_forward (inv_dropout m) mode x).

(** ** DataEmbedding_inverted *)

Record DataEmbedding_inverted : Type := mkInverted {
  di_value_embedding : Linear;
  di_dropout : Dropout
}.

Definition DataEmbedding_inverted_init (c_in d_model : nat)
  (embed_type freq : string) (dropout_p : R) (r : LinearDraw)
  : Res DataEmbedding_inverted :=
  let ve := Linear_init c_in d_model true r in
  dr <- Dropout_init dropout_p ;;
  ok (mkInverted ve dr).

Definition DataEmbedding_inverted_forward (m : DataEmbedding_inverted)
  (mode : Mode) (x : Tensor3 R) (x_mark : option (Tensor3 R))
  : Res (Tensor3 R) :=
  let x := permute021 x in
  x <- match x_mark with
       | None => Linear_forward3 (di_value_embedding m) x
       | Some x_mark =>
           c <- cat1 x (permute021 x_mark) ;;
           Linear_forward3 (di_value_embedding m) c
       end ;;
  ok (Dropout_forward (di_dropout m) mode x).

(** ** PatchEmbedding *)

(** [nn.ReplicationPad1d((0, padding))]: the last element of the time axis
    is repeated [padding] times on the right; the non-batch dimensions of
    the input must not be empty. *)
Definition replication_pad_right (padding : nat) (x : Tensor3 R)
  : Res (Tensor3 R) :=
  if (dim1 x =? 0) || (dim2 x =? 0) then raise RuntimeError
  else ok (mkT3 (dim0 x) (dim1 x) (dim2 x + padding)
                (fun b v t => get3 x b v (Nat.min t (dim2 x - 1)))).

(** [x.unfold(dimension=-1, size=size, step=step)] *)
Definition unfold_last (x : Tensor3 R) (size step : nat) : Res (Tensor4 R) :=
  if dim2 x <? size then raise RuntimeError
  else if step =? 0 then raise RuntimeError
  else ok (mkT4 (dim0 x) (dim1 x) ((dim2 x - size) / step + 1) size
                (fun b v i j => get3 x b v (i * step + j))).

(** [torch.reshape(x, (x.shape[0] * x.shape[1], x.shape[2], x.shape[3]))] *)
Definition fold_batch (x : Tensor4 R) : Tensor3 R :=
  mkT3 (d4_0 x * d4_1 x) (d4_2 x) (d4_3 x)
       (fun r i j => get4 x (r / d4_1 x) (r mod d4_1 x) i j).

Record PatchEmbedding : Type := mkPatchEmbedding {
  patch_len : nat;
  stride : nat;
  padding_patch_layer : nat;       (* the right padding of ReplicationPad1d *)
  pt_value_embedding : Linear;
  pt_position_embedding : PositionalEmbedding;
  pt_dropout : Dropout
}.

Definition PatchEmbedding_init (d_model patch_len stride padding : nat)
  (dropout_p : R) (r : LinearDraw) : Res PatchEmbedding :=
  let ve := Linear_init patch_len d_model false r in
  pos <- PositionalEmbedding_init d_model default_max_len ;;
  dr <- Dropout_init dropout_p ;;
  ok (mkPatchEmbedding patch_len stride padding ve pos dr).

Definition PatchEmbedding_forward (m : PatchEmbedding) (mode : Mode)
  (x : Tensor3 R) : Res (Tensor3 R * nat) :=
  let n_vars := dim1 x in
  x <- replication_pad_right (padding_patch_layer m) x ;;
  x <- unfold_last x (patch_len m) (stride m) ;;
  let x := fold_batch x in
  v <- Linear_forward3 (pt_value_embedding m) x ;;
  x <- add3 v (PositionalEmbedding_forward (pt_position_embedding m) x) ;;
  ok (Dropout_forward (pt_dropout m) mode x, n_vars).

(** ** DataEmbedding *)

Record DataEmbedding : Type := mkDataEmbedding {
  de_value_embedding : TokenEmbedding;
  de_position_embedding : PositionalEmbedding;
  de_temporal_embedding : TemporalModule;
  de_dropout : Dropout
}.

(** The random initial values the constructors of [DataEmbedding] and
    [DataEmbedding_wo_pos] draw. *)
Record DataDraw : Type := mkDataDraw {
  data_draw_conv : nat -> nat -> nat -> R;
  data_draw_temporal : TemporalDraw;
  data_draw_timeF : LinearDraw
}.

Definition DataEmbedding_init (torch_version : Version) (c_in d_model : nat)
  (embed_type freq : string) (dropout_p : R) (r : DataDraw)
  : Res DataEmbedding :=
  let ve := TokenEmbedding_init torch_version c_in d_model
              (data_draw_conv r) in
  pos <- PositionalEmbedding_init d_model default_max_len ;;
  temp <- TemporalModule_init d_model embed_type freq
            (data_draw_temporal r) (data_draw_timeF r) ;;
  dr <- Dropout_init dropout_p ;;
  ok (mkDataEmbedding ve pos temp dr).

(** The operands of [+] are evaluated from left to right; the positional
    embedding is computed from the raw input [x]. *)
Definition DataEmbedding_forward (m : DataEmbedding) (mode : Mode)
  (x : Tensor3 R) (x_mark : option (Tensor3 R)) : Res (Tensor3 R) :=
  x <- match x_mark with
       | None =>
           v <- TokenEmbedding_forward (de_value_embedding m) x ;;
           add3 v (PositionalEmbedding_forward (de_position_embedding m) x)
       | Some x_mark =>
           v <- TokenEmbedding_forward (de_value_embedding m) x ;;
           t <- TemporalModule_forward (de_temporal_embedding m) x_mark ;;
           s <- add3 v t ;;
           add3 s (PositionalEmbedding_forward (de_position_embedding m) x)
       end ;;
  ok (Dropout_forward (de_dropout m) mode x).

(** ** DataEmbedding_wo_pos *)

Record DataEmbedding_wo_pos : Type := mkDataEmbedding_wo_pos {
  wp_value_embedding : TokenEmbedding;
  wp_position_embedding : PositionalEmbedding;
  wp_temporal_embedding : TemporalModule;
  wp_dropout : Dropout
}.

(** The constructor builds the positional embedding although [forward]
    does not use it. *)
Definition DataEmbedding_wo_pos_init (torch_version : Version)
  (c_in d_model : nat) (embed_type freq : string) (dropout_p : R)
  (r : DataDraw) : Res DataEmbedding_wo_pos :=
  let ve := TokenEmbedding_init torch_version c_in d_model
              (data_draw_conv r) in
  pos <- PositionalEmbedding_init d_model default_max_len ;;
  temp <- TemporalModule_init d_model embed_type freq
            (data_draw_temporal r) (data_draw_timeF r) ;;
  dr <- Dropout_init dropout_p ;;
  ok (mkDataEmbedding_wo_pos ve pos temp dr).

Definition DataEmbedding_wo_pos_forward (m : DataEmbedding_wo_pos)
  (mode : Mode) (x : Tensor3 R) (x_mark : option (Tensor3 R))
  : Res (Tensor3 R) :=
  x <- match x_mark with
       | None => TokenEmbedding_forward (wp_value_embedding m) x
       | Some x_mark =>
           v <- TokenEmbedding_forward (wp_value_embedding m) x ;;
           t <- TemporalModule_forward (wp_temporal_embedding m) x_mark ;;
           add3 v t
       end ;;
  ok (Dropout_forward (wp_dropout m) mode x).

(** ** Tables and inputs used to state the properties *)

(** The sinusoidal table as the code computes it: position [p], channel
    [c], with the frequency of the channel pair [c / 2]. *)
Definition sinusoid (d_model p c : nat) : R :=
  let angle := (INR p * exp (INR (2 * (c / 2)) * - (ln 10000 / INR d_model)))%R in
  if Nat.even c then sin angle else cos angle.

(** The frequency codes and the policies the specification lists. *)
Definition freq_codes : list string :=
  ["h"; "t"; "s"; "m"; "a"; "w"; "d"; "b"]%string.

Definition policies : list string :=
  ["two_layer_mlp"; "brute_concat"]%string.

(** The widths for which the sinusoidal table can be built: the slice
    [1::2] has [d_model / 2] columns and receives [(d_model + 1) / 2]. *)
Definition d_model_ok (d_model : nat) : bool :=
  negb (d_model =? 0) && (Nat.even d_model || (d_model =? 1)).

(** The message of the policy check. *)
Definition not_supported (ptt : string) : exn :=
  ValueError ("prompt_tuning_type " ++ ptt ++ " is not supported.").

(** Concrete draws for the examples: every initial parameter is [c]. *)
Definition const_linear_draw (c : R) : LinearDraw :=
  mkLinearDraw (fun _ _ => c) (fun _ => c).

Definition const_temporal_draw (c : R) : TemporalDraw :=
  mkTemporalDraw (fun _ _ => c) (fun _ _ => c) (fun _ _ => c)
                 (fun _ _ => c) (fun _ _ => c).

Definition const_exo_draw (c : R) : ExoDraw :=
  mkExoDraw (const_linear_draw c) (const_linear_draw c) (fun _ _ _ => c)
            (const_temporal_draw c) (const_linear_draw c).

Definition const_inv_exo_draw (c : R) : InvExoDraw :=
  mkInvExoDraw (const_linear_draw c) (const_linear_draw c)
               (const_linear_draw c).

(** One row of an embedding table, selected by an index. *)
Definition lookup (e : Embed) (z : Z) (d : nat) : R :=
  get2 (Embed_table e) (Z.to_nat z) d.

(** A calendar tensor for a frequency: the columns month, day, weekday,
    hour (and minute for the sub-hourly frequency "t") exist and hold,
    after truncation, indices of the month, day, weekday, hour and minute
    tables. *)
Definition calendar_tensor (freq : string) (x : Tensor3 R) : Prop :=
  (if String.eqb freq "t" then 5 else 4) <= dim2 x /\
  forall b l, b < dim0 x -> l < dim1 x ->
    index_ok month_size (Rtrunc (get3 x b l 0)) = true /\
    index_ok day_size (Rtrunc (get3 x b l 1)) = true /\
    index_ok weekday_size (Rtrunc (get3 x b l 2)) = true /\
    index_ok hour_size (Rtrunc (get3 x b l 3)) = true /\
    (String.eqb freq "t" = true ->
     index_ok minute_size (Rtrunc (get3 x b l 4)) = true).

(** Two calendar tensors agree on the columns 0..4 after truncation: the
    same batch and time sizes, the same columns present, the same
    truncated values in them. *)
Definition agree_on_columns (x x' : Tensor3 R) : Prop :=
  dim0 x = dim0 x' /\ dim1 x = dim1 x' /\
  forall k, k < 5 ->
    (k < dim2 x <-> k < dim2 x') /\
    forall b l, b < dim0 x -> l < dim1 x ->
      Rtrunc (get3 x b l k) = Rtrunc (get3 x' b l k).

(** Results related by [RA]: the same exception, or related values. *)
Definition res_rel {A : Type} (RA : A -> A -> Prop) (c c' : Res A) : Prop :=
  match c, c' with
  | inl e, inl e' => e = e'
  | inr y, inr y' => RA y y'
  | _, _ => False
  end.

(** Equal results: the same exception, or equal tensors. *)
Definition res_teq3 (c c' : Res (Tensor3 R)) : Prop :=
  res_rel (@teq3 R) c c'.

(** The calendar tensor with its fractional parts discarded. *)
Definition truncated (x : Tensor3 R) : Tensor3 R :=
  mkT3 (dim0 x) (dim1 x) (dim2 x) (fun b l k => IZR (Rtrunc (get3 x b l k))).

(** The bias-free width-3 convolution with wrap-around, at time [l] of a
    sequence of length [L] with [c_in] channels. *)
Definition circular_conv (w : nat -> nat -> nat -> R) (x : Tensor3 R)
  (c_in L b l o : nat) : R :=
  Rsum c_in (fun c =>
    Rsum 3 (fun k => (w o c k * get3 x b ((l + k + L - 1) mod L) c)%R)).

(** The projector of the policy [two_layer_mlp]. *)
Definition mlp_projector (d_model nvt exo_dim hidden : nat)
  (r1 r2 : LinearDraw) : Sequential :=
  mkSequential (Linear_init exo_dim hidden true r1)
               (Linear_init hidden (d_model * nvt) true r2).

(** Channel [j] of the virtual token [i] of sample [b]: the projector
    applied to the prompt of the sample, cut into tokens of [d_model]
    channels. *)
Definition virtual_token (s : Sequential) (exo_prompt : Tensor2 R)
  (d_model b i j : nat) : R :=
  affine (fc2 s) (fun k => tanh (affine (fc1 s) (get2 exo_prompt b) k))
         (i * d_model + j).

(** A calendar input the temporal sub-module accepts: time features of the
    width of the frequency for [embed_type = "timeF"], a calendar tensor
    otherwise. *)
Definition temporal_input (embed_type freq : string) (x_mark : Tensor3 R)
  : Prop :=
  if String.eqb embed_type "timeF"
  then dict_get freq_map freq = ok (dim2 x_mark)
  else calendar_tensor freq x_mark.

(** The temporal embedding of a calendar input, where it is defined. *)
Definition temporal_value (tm : TemporalModule) (x_mark : Tensor3 R)
  (b l d : nat) : R :=
  match TemporalModule_forward tm x_mark with
  | inr T => get3 T b l d
  | inl _ => 0%R
  end.

(** The input of the value embedding under [brute_concat]: at every time
    step, the prompt of the sample followed by the raw channels. *)
Definition prompt_then_input (exo_prompt : Tensor2 R) (x : Tensor3 R)
  : Tensor3 R :=
  mkT3 (dim0 x) (dim1 x) (cols2 exo_prompt + dim2 x)
       (fun b l j => if j <? cols2 exo_prompt then get2 exo_prompt b j
                     else get3 x b l (j - cols2 exo_prompt)).

(** The number of calendar features that become extra variates. *)
Definition mark_features (x_mark : option (Tensor3 R)) : nat :=
  match x_mark with
  | None => 0
  | Some xm => dim2 xm
  end.

(** Row [l] of the variate-major input of the inverted embeddings: the
    series of variate [l], then the series of the calendar features. *)
Definition variate_row (x : Tensor3 R) (x_mark : option (Tensor3 R))
  (b l t : nat) : R :=
  if l <? dim2 x then get3 x b t l
  else match x_mark with
       | Some xm => get3 xm b t (l - dim2 x)
       | None => 0%R
       end.

(** The same row under [brute_concat]: the series (of length [L]) followed
    by the prompt of the sample for a variate, by zeros for a calendar
    feature. *)
Definition variate_row_with_prompt (exo_prompt : Tensor2 R) (x : Tensor3 R)
  (x_mark : option (Tensor3 R)) (L b l j : nat) : R :=
  if j <? L then variate_row x x_mark b l j
  else if l <? dim2 x then get2 exo_prompt b (j - L)
  else 0%R.

(** What "the positional embedding is added on top of [combined]" means
    for an output [out]. *)
Definition adds_positional (d_model : nat) (combined out : Tensor3 R)
  : Prop :=
  shape3 out = shape3 combined /\
  forall b l d, b < dim0 out -> l < dim1 out -> d < dim2 out ->
    get3 out b l d = (get3 combined b l d + sinusoid d_model l d)%R.

(** The sequence rotated by [s] steps along the time axis: the element at
    time [l] is the element of [x] at time [l + s], counted modulo the
    length ([torch.roll(x, -s, 1)]). *)
Definition rotate (s : nat) (x : Tensor3 R) : Tensor3 R :=
  mkT3 (dim0 x) (dim1 x) (dim2 x)
       (fun b l c => get3 x b ((l + s) mod dim1 x) c).

(** The combination [a * x + y] of two tensors of the shape of [x]. *)
Definition axpy (a : R) (x y : Tensor3 R) : Tensor3 R :=
  mkT3 (dim0 x) (dim1 x) (dim2 x)
       (fun b l c => (a * get3 x b l c + get3 y b l c)%R).

Definition const_data_draw (c : R) : DataDraw :=
  mkDataDraw (fun _ _ _ => c) (const_temporal_draw c) (const_linear_draw c).

(** The number of tables a [TemporalEmbedding] sums for a frequency. *)
Definition temporal_fields (freq : string) : nat :=
  if String.eqb freq "t" then 5 else 4.


(** * Verification *)

Unset Implicit Arguments.

(** ** The error monad and the shape checks *)

Lemma bind_ok_inv (A B : Type) (c : Res A) (k : A -> Res B) (y : B) :
  bind c k = ok y -> exists a, c = ok a /\ k a = ok y.
Proof.
  destruct c as [e | a]; simpl; intros H.
  - discriminate H.
  - exists a. split; [reflexivity | exact H].
Qed.

Lemma ok_inj (A : Type) (a b : A) : ok a = ok b -> a = b.
Proof. intros H. injection H as ->. reflexivity. Qed.

Lemma bidx_lt (n i : nat) : i < n -> bidx n i = i.
Proof.
  unfold bidx. intros H.
  destruct (Nat.eqb_spec n 1) as [-> | _]; [lia | reflexivity].
Qed.

Lemma bidx_one (i : nat) : bidx 1 i = 0.
Proof. reflexivity. Qed.

Lemma bdim_same (n : nat) : bdim n n = Some n.
Proof. unfold bdim. now rewrite Nat.eqb_refl. Qed.

Lemma bdim_one_r (n : nat) : bdim n 1 = Some n.
Proof.
  unfold bdim.
  destruct (Nat.eqb_spec n 1) as [-> | Hn]; [reflexivity |].
  simpl. reflexivity.
Qed.

Lemma bdim_inv (a b n : nat) :
  bdim a b = Some n -> (a = b /\ n = a) \/ (a = 1 /\ n = b) \/ (b = 1 /\ n = a).
Proof.
  unfold bdim.
  destruct (Nat.eqb_spec a b); [intros [= <-]; auto |].
  destruct (Nat.eqb_spec a 1); [intros [= <-]; auto |].
  destruct (Nat.eqb_spec b 1); [intros [= <-]; auto | discriminate].
Qed.

Lemma Rsum_ext (n : nat) (f g : nat -> R) :
  (forall i, i < n -> f i = g i) -> Rsum n f = Rsum n g.
Proof.
  induction n as [| n IH]; simpl; intros H; [reflexivity |].
  rewrite IH by (intros; apply H; lia).
  rewrite H by lia. reflexivity.
Qed.

Lemma all_upto_true (n : nat) (f : nat -> bool) :
  all_upto n f = true <-> forall i, i < n -> f i = true.
Proof.
  induction n as [| n IH]; simpl.
  - split; [intros _ i Hi; lia | reflexivity].
  - rewrite andb_true_iff, IH. split.
    + intros [Hn Hl] i Hi.
      destruct (Nat.eq_dec i n) as [-> | Hne]; [exact Hl | apply Hn; lia].
    + intros H. split; [intros i Hi; apply H; lia | apply H; lia].
Qed.

Lemma all_upto_ext (n : nat) (f g : nat -> bool) :
  (forall i, i < n -> f i = g i) -> all_upto n f = all_upto n g.
Proof.
  induction n as [| n IH]; simpl; intros H; [reflexivity |].
  rewrite IH by (intros; apply H; lia).
  rewrite H by lia. reflexivity.
Qed.

(** ** PositionalEmbedding *)

Lemma odd_pred_mod (c : nat) : 1 <= c -> ((c - 1) mod 2 =? 0) = Nat.odd c.
Proof.
  intros Hc. replace c with (S (c - 1)) at 2 by lia.
  rewrite Nat.odd_succ.
  destruct (Nat.even (c - 1)) eqn:He.
  - apply Nat.even_spec in He. destruct He as [k Hk]. rewrite Hk.
    apply Nat.eqb_eq. rewrite Nat.mul_comm. apply Nat.Div0.mod_mul.
  - apply Nat.eqb_neq. intros Hm.
    assert (Nat.even (c - 1) = true); [| congruence].
    apply Nat.even_spec. exists ((c - 1) / 2).
    pose proof (Nat.div_mod_eq (c - 1) 2). lia.
Qed.

Lemma even_mod (c : nat) : (c mod 2 =? 0) = Nat.even c.
Proof.
  destruct (Nat.even c) eqn:He.
  - apply Nat.even_spec in He. destruct He as [k Hk]. rewrite Hk.
    apply Nat.eqb_eq. rewrite Nat.mul_comm. apply Nat.Div0.mod_mul.
  - apply Nat.eqb_neq. intros Hm.
    assert (Nat.even c = true); [| congruence].
    apply Nat.even_spec. exists (c / 2).
    pose proof (Nat.div_mod_eq c 2). lia.
Qed.

Lemma div_term_inv (d_model : nat) (dt : Tensor1 R) :
  div_term d_model = ok dt ->
  d_model <> 0 /\
  dt = mkT1 ((d_model + 1) / 2)
            (fun i => exp (INR (2 * i) * - (ln 10000 / INR d_model))%R).
Proof.
  unfold div_term, py_div.
  destruct (Nat.eqb_spec d_model 0) as [-> | Hd]; [discriminate |].
  intros H. injection H as <-. split; [exact Hd | reflexivity].
Qed.

Lemma setitem_cols2_inv (dst : Tensor2 R) (start : nat) (src y : Tensor2 R) :
  setitem_cols2 dst start src = ok y ->
  y = mkT2 (rows2 dst) (cols2 dst)
           (fun p c =>
              if (start <=? c) && ((c - start) mod 2 =? 0)
              then get2 src (bidx (rows2 src) p)
                            (bidx (cols2 src) ((c - start) / 2))
              else get2 dst p c).
Proof.
  unfold setitem_cols2.
  destruct (expandable (rows2 src) (rows2 dst) &&
            expandable (cols2 src) ((cols2 dst + 1 - start) / 2));
    [| discriminate].
  intros H. injection H as <-. reflexivity.
Qed.

Tactic Notation "bind_inv" hyp(H) "as" ident(a) ident(Ha) :=
  apply bind_ok_inv in H; destruct H as (a & Ha & H).

Lemma half_lt (c d : nat) : c < d -> c / 2 < (d + 1) / 2.
Proof.
  intros H.
  pose proof (Nat.div_mod_eq c 2). pose proof (Nat.div_mod_eq (d + 1) 2).
  pose proof (Nat.mod_upper_bound c 2). pose proof (Nat.mod_upper_bound (d + 1) 2).
  lia.
Qed.

Lemma odd_half (c : nat) : Nat.even c = false -> (c - 1) / 2 = c / 2.
Proof.
  intros He.
  assert (Ho : Nat.odd c = true) by (rewrite <- Nat.negb_even, He; reflexivity).
  apply Nat.odd_spec in Ho. destruct Ho as [k Hk].
  replace (c - 1) with (k * 2) by lia. rewrite Nat.div_mul by lia.
  replace c with (1 + k * 2) by lia.
  rewrite Nat.div_add by lia. reflexivity.
Qed.

Lemma PositionalEmbedding_init_inv (d_model max_len : nat)
  (m : PositionalEmbedding) :
  PositionalEmbedding_init d_model max_len = ok m ->
  d_model <> 0 /\
  shape3 (pe m) = (1, max_len, d_model) /\
  forall b p c, p < max_len -> c < d_model ->
                get3 (pe m) b p c = sinusoid d_model p c.
Proof.
  unfold PositionalEmbedding_init. intros H.
  bind_inv H as dt Hdt. apply div_term_inv in Hdt. destruct Hdt as [Hd ->].
  bind_inv H as w0 Hw0. apply setitem_cols2_inv in Hw0. subst w0.
  bind_inv H as w1 Hw1. apply setitem_cols2_inv in Hw1. subst w1.
  apply ok_inj in H. subst m.
  split; [exact Hd |]. split; [reflexivity |].
  intros b p c Hp Hc. pose proof (half_lt _ _ Hc) as Hk.
  unfold sinusoid, unsqueeze0, map2d, mul_col_row, arange_col, zeros2.
  cbn [pe get3 get2 rows2 cols2 len1 get1].
  destruct (Nat.leb_spec 1 c) as [H1 | H1].
  - rewrite odd_pred_mod by exact H1. rewrite <- Nat.negb_even.
    rewrite Nat.sub_0_r, even_mod.
    destruct (Nat.even c) eqn:He; cbn [negb andb Nat.leb].
    + rewrite !bidx_lt by assumption. reflexivity.
    + rewrite (odd_half _ He), !bidx_lt by assumption. reflexivity.
  - assert (c = 0) by lia. subst c. cbn [andb Nat.leb Nat.even].
    rewrite Nat.sub_0_r, even_mod. cbn [Nat.even].
    rewrite !bidx_lt by assumption. reflexivity.
Qed.

Lemma div_term_power (d_model i : nat) (p : R) :
  d_model <> 0 ->
  (p * exp (INR (2 * i) * - (ln 10000 / INR d_model)) =
   p / Rpower 10000 (INR (2 * i) / INR d_model))%R.
Proof.
  intros Hd. unfold Rpower, Rdiv at 2. rewrite <- exp_Ropp.
  f_equal. f_equal. field. apply not_0_INR. exact Hd.
Qed.

(** C3. A constructed [PositionalEmbedding], applied to an input whose
    size along dimension 1 is [L <= max_len], returns a tensor of shape
    [1, L, d_model]; at position [p < L], the even channel [2i] holds
    [sin (p / 10000^(2i/d_model))] and the odd channel [2i+1] holds
    [cos (p / 10000^(2i/d_model))]. *)
Theorem PositionalEmbedding_forward_spec (A : Type) (d_model max_len : nat)
  (m : PositionalEmbedding) (x : Tensor3 A) (L : nat) :
  PositionalEmbedding_init d_model max_len = ok m ->
  dim1 x = L ->
  L <= max_len ->
  shape3 (PositionalEmbedding_forward m x) = (1, L, d_model) /\
  forall p i, p < L ->
    (2 * i < d_model ->
     get3 (PositionalEmbedding_forward m x) 0 p (2 * i) =
     sin (INR p / Rpower 10000 (INR (2 * i) / INR d_model))) /\
    (2 * i + 1 < d_model ->
     get3 (PositionalEmbedding_forward m x) 0 p (2 * i + 1) =
     cos (INR p / Rpower 10000 (INR (2 * i) / INR d_model))).
Proof.
  intros Hinit HL Hle.
  destruct (PositionalEmbedding_init_inv _ _ _ Hinit) as (Hd & Hs & Hg).
  unfold shape3 in Hs. injection Hs as H0 H1 H2.
  split.
  - unfold PositionalEmbedding_forward, shape3. cbn [dim0 dim1 dim2].
    rewrite H0, H1, H2, HL. f_equal. f_equal. lia.
  - intros p i Hp. unfold PositionalEmbedding_forward. cbn [get3].
    split; intros Hc; rewrite Hg by lia; unfold sinusoid.
    + replace (2 * i / 2) with i by (rewrite Nat.mul_comm, Nat.div_mul; lia).
      replace (Nat.even (2 * i)) with true
        by (symmetry; apply Nat.even_spec; exists i; reflexivity).
      rewrite div_term_power by exact Hd. reflexivity.
    + replace ((2 * i + 1) / 2) with i
        by (rewrite Nat.add_comm, Nat.mul_comm, Nat.div_add; simpl; lia).
      replace (Nat.even (2 * i + 1)) with false.
      * rewrite div_term_power by exact Hd. reflexivity.
      * symmetry. rewrite <- Nat.negb_odd.
        replace (Nat.odd (2 * i + 1)) with true; [reflexivity |].
        symmetry. apply Nat.odd_spec. exists i. reflexivity.
Qed.

Lemma PositionalEmbedding_forward_spec_witness :
  exists m, PositionalEmbedding_init 2 3 = ok m /\
    shape3 (PositionalEmbedding_forward m (mkT3 1 2 1 (fun _ _ _ => 0%R)))
    = (1, 2, 2).
Proof.
  eexists. split; [reflexivity |].
  apply (PositionalEmbedding_forward_spec R 2 3 _
           (mkT3 1 2 1 (fun _ _ _ => 0%R)) 2);
    [reflexivity | reflexivity | lia].
Defined.

(** ** TokenEmbedding *)

Lemma Conv1d_forward_circular (cv : Conv1d) (x : Tensor3 R) :
  1 <= out_channels cv ->
  dim1 x = in_channels cv ->
  conv_padding cv <= dim2 x ->
  kernel_size cv <= dim2 x + 2 * conv_padding cv ->
  Conv1d_forward cv x =
  ok (mkT3 (dim0 x) (if in_channels cv =? 0 then 0 else out_channels cv)
           (dim2 x + 2 * conv_padding cv - kernel_size cv + 1)
           (fun b o t =>
              Rsum (in_channels cv) (fun c =>
                Rsum (kernel_size cv) (fun k =>
                  (get3 (conv_weight cv) o c k *
                   get3 x b c ((t + k + dim2 x - conv_padding cv) mod dim2 x))%R)))).
Proof.
  intros Ho Hc Hp Hk. unfold Conv1d_forward, pad_circular.
  destruct (Nat.leb_spec (conv_padding cv) (dim2 x)) as [_ | Hlt]; [| lia].
  cbn [bind ok]. unfold conv1d_valid. cbn [dim0 dim1 dim2 get3].
  destruct (Nat.ltb_spec (out_channels cv) 1) as [Hlt | _]; [lia |].
  rewrite Hc, Nat.eqb_refl. cbn [negb].
  destruct (Nat.ltb_spec (dim2 x + 2 * conv_padding cv) (kernel_size cv))
    as [Hlt | _]; [lia |].
  reflexivity.
Qed.

(** The output of the convolution has [d_model] channels, or none when
    the input has none. *)
Lemma TokenEmbedding_forward_channels (torch_version : Version)
  (c_in d_model : nat) (r : nat -> nat -> nat -> R) (x : Tensor3 R)
  (B L : nat) :
  version_ge torch_version [1; 5; 0] = true ->
  1 <= d_model ->
  shape3 x = (B, L, c_in) ->
  1 <= L ->
  exists y,
    TokenEmbedding_forward
      (TokenEmbedding_init torch_version c_in d_model r) x = ok y /\
    shape3 y = (B, L, if c_in =? 0 then 0 else d_model) /\
    forall b l o, b < B -> l < L -> o < d_model ->
      get3 y b l o = circular_conv r x c_in L b l o.
Proof.
  intros Hv Hd Hs HL. unfold shape3 in Hs. injection Hs as H0 H1 H2.
  unfold TokenEmbedding_forward, TokenEmbedding_init. rewrite Hv.
  cbn [tokenConv].
  rewrite Conv1d_forward_circular;
    cbn [Conv1d_init permute021 in_channels out_channels kernel_size
         conv_padding conv_weight dim0 dim1 dim2 get3]; try lia.
  cbn [bind ok]. eexists. split; [reflexivity |].
  unfold shape3. cbn [permute021 dim0 dim1 dim2 get3].
  split.
  - rewrite H0, H1. f_equal. f_equal. lia.
  - intros b l o Hb Hl Ho. rewrite ?H1, ?H2. reflexivity.
Qed.

Lemma TokenEmbedding_forward_ok (torch_version : Version)
  (c_in d_model : nat) (r : nat -> nat -> nat -> R) (x : Tensor3 R)
  (B L : nat) :
  version_ge torch_version [1; 5; 0] = true ->
  1 <= d_model ->
  shape3 x = (B, L, c_in) ->
  1 <= L ->
  1 <= c_in ->
  exists y,
    TokenEmbedding_forward
      (TokenEmbedding_init torch_version c_in d_model r) x = ok y /\
    shape3 y = (B, L, d_model) /\
    forall b l o, b < B -> l < L -> o < d_model ->
      get3 y b l o = circular_conv r x c_in L b l o.
Proof.
  intros Hv Hd Hs HL Hc.
  destruct (TokenEmbedding_forward_channels torch_version c_in d_model r x
              B L Hv Hd Hs HL) as (y & Hy & Hsy & Hg).
  exists y. split; [exact Hy |]. split; [| exact Hg].
  rewrite Hsy. destruct (Nat.eqb_spec c_in 0) as [E | _]; [lia |].
  reflexivity.
Qed.

Lemma TokenEmbedding_forward_no_channels (torch_version : Version)
  (d_model : nat) (r : nat -> nat -> nat -> R) (x : Tensor3 R)
  (B L : nat) :
  version_ge torch_version [1; 5; 0] = true ->
  1 <= d_model ->
  shape3 x = (B, L, 0) ->
  1 <= L ->
  exists y,
    TokenEmbedding_forward
      (TokenEmbedding_init torch_version 0 d_model r) x = ok y /\
    shape3 y = (B, L, 0).
Proof.
  intros Hv Hd Hs HL.
  destruct (TokenEmbedding_forward_channels torch_version 0 d_model r x
              B L Hv Hd Hs HL) as (y & Hy & Hsy & _).
  exists y. split; [exact Hy | exact Hsy].
Qed.

Lemma TokenEmbedding_forward_empty (torch_version : Version)
  (c_in d_model : nat) (r : nat -> nat -> nat -> R) (x : Tensor3 R) :
  dim1 x = 0 ->
  TokenEmbedding_forward
    (TokenEmbedding_init torch_version c_in d_model r) x
  = raise RuntimeError.
Proof.
  intros H0. unfold TokenEmbedding_forward, TokenEmbedding_init.
  cbn [tokenConv]. unfold Conv1d_forward, pad_circular.
  cbn [Conv1d_init conv_padding permute021 dim2]. rewrite H0.
  destruct (version_ge torch_version [1; 5; 0]); reflexivity.
Qed.

(** C7, amended. Under a torch whose version is at least 1.5.0 (the circular
    padding that [Conv1d_forward] models) and for [d_model >= 1], for every
    input of shape [B, L, c_in] with [1 <= L] and [1 <= c_in],
    [TokenEmbedding.forward] returns a tensor of shape [B, L, d_model]; its
    element at time [l] is the bias-free width-3 convolution of the times
    [l-1, l, l+1] taken modulo [L].  For [c_in = 0] and [1 <= L] it returns
    a tensor of shape [B, L, 0].  For [L = 0] it raises. *)
Theorem TokenEmbedding_forward_preserves_length (torch_version : Version)
  (c_in d_model : nat) (r : nat -> nat -> nat -> R) (x : Tensor3 R)
  (B L : nat) :
  version_ge torch_version [1; 5; 0] = true ->
  1 <= d_model ->
  shape3 x = (B, L, c_in) ->
  (1 <= L -> 1 <= c_in ->
   exists y,
     TokenEmbedding_forward
       (TokenEmbedding_init torch_version c_in d_model r) x = ok y /\
     shape3 y = (B, L, d_model) /\
     forall b l o, b < B -> l < L -> o < d_model ->
       get3 y b l o =
       Rsum c_in (fun c =>
         Rsum 3 (fun k =>
           (r o c k * get3 x b ((l + k + L - 1) mod L) c)%R))) /\
  (1 <= L -> c_in = 0 ->
   exists y,
     TokenEmbedding_forward
       (TokenEmbedding_init torch_version c_in d_model r) x = ok y /\
     shape3 y = (B, L, 0)) /\
  (L = 0 ->
   TokenEmbedding_forward
     (TokenEmbedding_init torch_version c_in d_model r) x
   = raise RuntimeError).
Proof.
  intros Hv Hd Hs. split; [| split].
  - intros HL Hc.
    exact (TokenEmbedding_forward_ok torch_version c_in d_model r x B L
             Hv Hd Hs HL Hc).
  - intros HL Hc. subst c_in.
    exact (TokenEmbedding_forward_no_channels torch_version d_model r x B L
             Hv Hd Hs HL).
  - intros ->. apply TokenEmbedding_forward_empty.
    unfold shape3 in Hs. congruence.
Qed.

Lemma TokenEmbedding_forward_preserves_length_witness :
  exists y,
    TokenEmbedding_forward
      (TokenEmbedding_init [2; 1; 0] 1 2 (fun _ _ _ => 1%R))
      (mkT3 1 2 1 (fun _ l _ => INR l)) = ok y /\
    shape3 y = (1, 2, 2).
Proof.
  destruct (proj1 (TokenEmbedding_forward_preserves_length [2; 1; 0] 1 2
                     (fun _ _ _ => 1%R) (mkT3 1 2 1 (fun _ l _ => INR l))
                     1 2 eq_refl ltac:(lia) eq_refl))
    as (y & Hy & Hs & _); [lia | lia |].
  exists y. split; assumption.
Defined.

(** C7 fails as stated: an input of shape [1, 0, 1] (an empty time axis)
    cannot be padded circularly, and [forward] raises. *)
Lemma TokenEmbedding_forward_empty_sequence :
  let m := TokenEmbedding_init [2; 1; 0] 1 2 (fun _ _ _ => 1%R) in
  let x := mkT3 1 0 1 (fun _ _ _ => 0%R) in
  shape3 x = (1, 0, 1) /\
  TokenEmbedding_forward m x = raise RuntimeError /\
  ~ (exists y, TokenEmbedding_forward m x = ok y /\ shape3 y = (1, 0, 2)).
Proof.
  cbv zeta. split; [reflexivity |].
  assert (H : TokenEmbedding_forward
                (TokenEmbedding_init [2; 1; 0] 1 2 (fun _ _ _ => 1%R))
                (mkT3 1 0 1 (fun _ _ _ => 0%R)) = raise RuntimeError)
    by reflexivity.
  split; [exact H |].
  intros (y & Hy & _). rewrite H in Hy. discriminate Hy.
Qed.

(** ** Construction *)

Lemma d_model_ok_inv (d : nat) :
  d_model_ok d = true -> d <> 0 /\ ((d + 1) / 2 = d / 2 \/ (d + 1) / 2 = 1).
Proof.
  unfold d_model_ok. rewrite andb_true_iff, orb_true_iff, negb_true_iff.
  intros [H0 [He | H1]].
  - apply Nat.eqb_neq in H0. split; [exact H0 | left].
    apply Nat.even_spec in He. destruct He as [k ->].
    rewrite (Nat.mul_comm 2 k), Nat.div_mul by lia.
    rewrite Nat.add_comm, Nat.div_add by lia. reflexivity.
  - apply Nat.eqb_eq in H1. subst d. split; [lia | right; reflexivity].
Qed.

Lemma expandable_refl (n : nat) : expandable n n = true.
Proof. unfold expandable. now rewrite Nat.eqb_refl. Qed.

Lemma setitem_cols2_ok (dst : Tensor2 R) (start : nat) (src : Tensor2 R) :
  expandable (rows2 src) (rows2 dst) = true ->
  expandable (cols2 src) ((cols2 dst + 1 - start) / 2) = true ->
  exists y, setitem_cols2 dst start src = ok y /\
            rows2 y = rows2 dst /\ cols2 y = cols2 dst.
Proof.
  intros H1 H2. unfold setitem_cols2. rewrite H1, H2. cbn [andb].
  eexists. split; [reflexivity |]. split; reflexivity.
Qed.

Lemma expandable_half (d : nat) :
  d_model_ok d = true -> expandable ((d + 1) / 2) ((d + 1 - 1) / 2) = true.
Proof.
  intros H. destruct (d_model_ok_inv _ H) as [_ [He | H1]].
  - replace (d + 1 - 1) with d by lia. rewrite He. apply expandable_refl.
  - rewrite H1. unfold expandable. cbn [Nat.eqb]. apply orb_true_r.
Qed.

Lemma div_term_ok (d : nat) :
  d <> 0 -> exists dt, div_term d = ok dt /\ len1 dt = (d + 1) / 2.
Proof.
  intros Hd. unfold div_term, py_div.
  destruct (Nat.eqb_spec d 0) as [-> | _]; [contradiction |].
  cbn [bind ok]. eexists. split; reflexivity.
Qed.

Lemma PositionalEmbedding_init_ok (d_model max_len : nat) :
  d_model_ok d_model = true ->
  exists m, PositionalEmbedding_init d_model max_len = ok m.
Proof.
  intros H. destruct (d_model_ok_inv _ H) as [Hd _].
  unfold PositionalEmbedding_init.
  destruct (div_term_ok _ Hd) as (dt & -> & Hlen). cbn [bind ok].
  edestruct (setitem_cols2_ok (zeros2 max_len d_model) 0
               (map2d sin (mul_col_row (arange_col max_len) dt)))
    as (w0 & -> & Hr0 & Hc0).
  { apply expandable_refl. }
  { cbn [map2d mul_col_row cols2 zeros2]. rewrite Hlen, Nat.sub_0_r.
    apply expandable_refl. }
  cbn [bind ok].
  edestruct (setitem_cols2_ok w0 1
               (map2d cos (mul_col_row (arange_col max_len) dt)))
    as (w1 & -> & _ & _).
  { cbn [map2d mul_col_row arange_col rows2]. rewrite Hr0.
    apply expandable_refl. }
  { cbn [map2d mul_col_row cols2]. rewrite Hlen, Hc0.
    apply expandable_half. exact H. }
  cbn [bind ok]. eexists. reflexivity.
Qed.

Lemma FixedEmbedding_init_ok (c_in d_model : nat) :
  d_model_ok d_model = true ->
  exists m, FixedEmbedding_init c_in d_model = ok m /\
            shape2 (emb_weight (emb m)) = (c_in, d_model).
Proof.
  intros H. destruct (d_model_ok_inv _ H) as [Hd _].
  unfold FixedEmbedding_init.
  destruct (div_term_ok _ Hd) as (dt & -> & Hlen). cbn [bind ok].
  edestruct (setitem_cols2_ok (zeros2 c_in d_model) 0
               (map2d sin (mul_col_row (arange_col c_in) dt)))
    as (w0 & -> & Hr0 & Hc0).
  { apply expandable_refl. }
  { cbn [map2d mul_col_row cols2 zeros2]. rewrite Hlen, Nat.sub_0_r.
    apply expandable_refl. }
  cbn [bind ok].
  edestruct (setitem_cols2_ok w0 1
               (map2d cos (mul_col_row (arange_col c_in) dt)))
    as (w1 & -> & Hr1 & Hc1).
  { cbn [map2d mul_col_row arange_col rows2]. rewrite Hr0.
    apply expandable_refl. }
  { cbn [map2d mul_col_row cols2]. rewrite Hlen, Hc0.
    apply expandable_half. exact H. }
  cbn [bind ok]. eexists. split; [reflexivity |].
  unfold shape2. cbn [emb emb_weight]. rewrite Hr1, Hc1, Hr0, Hc0.
  reflexivity.
Qed.

Lemma Embed_init_ok (embed_type : string) (n d_model : nat)
  (r : nat -> nat -> R) :
  d_model_ok d_model = true ->
  exists e, Embed_init embed_type n d_model r = ok e /\
            shape2 (Embed_table e) = (n, d_model).
Proof.
  intros H. unfold Embed_init.
  destruct (String.eqb embed_type "fixed").
  - destruct (FixedEmbedding_init_ok n _ H) as (m & -> & Hs). cbn [bind ok].
    eexists. split; [reflexivity | exact Hs].
  - eexists. split; reflexivity.
Qed.

Lemma dict_get_freq_map (freq : string) :
  dict_get freq_map freq =
  if in_list freq freq_codes
  then dict_get freq_map freq
  else raise (KeyError freq).
Proof.
  unfold freq_map, freq_codes, in_list, dict_get, existsb.
  rewrite !(String.eqb_sym freq).
  repeat match goal with
         | |- context [String.eqb ?k freq] => destruct (String.eqb k freq)
         end; reflexivity.
Qed.

Lemma dict_get_freq_map_ok (freq : string) :
  in_list freq freq_codes = true -> exists n, dict_get freq_map freq = ok n.
Proof.
  unfold freq_map, freq_codes, in_list, dict_get, existsb.
  rewrite !(String.eqb_sym freq).
  repeat match goal with
         | |- context [String.eqb ?k freq] => destruct (String.eqb k freq)
         end; intros H; try discriminate H; eexists; reflexivity.
Qed.

Lemma TimeFeatureEmbedding_init_ok (d_model : nat) (embed_type freq : string)
  (r : LinearDraw) :
  in_list freq freq_codes = true ->
  exists m, TimeFeatureEmbedding_init d_model embed_type freq r = ok m /\
            out_features (embed m) = d_model.
Proof.
  intros H. unfold TimeFeatureEmbedding_init.
  destruct (dict_get_freq_map_ok _ H) as (n & ->). cbn [bind ok].
  eexists. split; reflexivity.
Qed.

Lemma TimeFeatureEmbedding_init_bad (d_model : nat) (embed_type freq : string)
  (r : LinearDraw) :
  in_list freq freq_codes = false ->
  TimeFeatureEmbedding_init d_model embed_type freq r = raise (KeyError freq).
Proof.
  intros H. unfold TimeFeatureEmbedding_init.
  rewrite dict_get_freq_map, H. reflexivity.
Qed.

Lemma projector_init_bad (ptt : string) (d nvt p h : nat) (r1 r2 : LinearDraw) :
  in_list ptt policies = false ->
  projector_init ptt d nvt p h r1 r2 = raise (not_supported ptt).
Proof.
  unfold in_list, policies, existsb, projector_init.
  destruct (String.eqb ptt "two_layer_mlp"); [discriminate |].
  destruct (String.eqb ptt "brute_concat"); [discriminate |].
  reflexivity.
Qed.

Lemma projector_init_ok (ptt : string) (d nvt p h : nat) (r1 r2 : LinearDraw) :
  in_list ptt policies = true ->
  exists s, projector_init ptt d nvt p h r1 r2 = ok s.
Proof.
  unfold in_list, policies, existsb, projector_init.
  destruct (String.eqb ptt "two_layer_mlp"); [eexists; reflexivity |].
  destruct (String.eqb ptt "brute_concat"); [eexists; reflexivity |].
  discriminate.
Qed.

Lemma Dropout_init_ok (p : R) :
  (0 <= p <= 1)%R -> Dropout_init p = ok (mkDropout p).
Proof.
  intros [H0 H1]. unfold Dropout_init.
  destruct (Rlt_dec p 0) as [H | _]; [lra |].
  destruct (Rlt_dec 1 p) as [H | _]; [lra |].
  reflexivity.
Qed.

Lemma Dropout_init_inv (p : R) (d : Dropout) :
  Dropout_init p = ok d -> d = mkDropout p /\ (0 <= p <= 1)%R.
Proof.
  unfold Dropout_init.
  destruct (Rlt_dec p 0) as [H | H0]; [discriminate |].
  destruct (Rlt_dec 1 p) as [H | H1]; [discriminate |].
  intros H. apply ok_inj in H. subst d. split; [reflexivity | lra].
Qed.

Lemma TemporalEmbedding_init_ok (d_model : nat) (embed_type freq : string)
  (r : TemporalDraw) :
  d_model_ok d_model = true ->
  exists m, TemporalEmbedding_init d_model embed_type freq r = ok m.
Proof.
  intros H. unfold TemporalEmbedding_init.
  destruct (String.eqb freq "t").
  - destruct (Embed_init_ok embed_type minute_size _ (draw_minute r) H)
      as (e0 & -> & _). cbn [bind ok].
    destruct (Embed_init_ok embed_type hour_size _ (draw_hour r) H)
      as (e1 & -> & _). cbn [bind ok].
    destruct (Embed_init_ok embed_type weekday_size _ (draw_weekday r) H)
      as (e2 & -> & _). cbn [bind ok].
    destruct (Embed_init_ok embed_type day_size _ (draw_day r) H)
      as (e3 & -> & _). cbn [bind ok].
    destruct (Embed_init_ok embed_type month_size _ (draw_month r) H)
      as (e4 & -> & _). cbn [bind ok].
    eexists. reflexivity.
  - cbn [bind ok].
    destruct (Embed_init_ok embed_type hour_size _ (draw_hour r) H)
      as (e1 & -> & _). cbn [bind ok].
    destruct (Embed_init_ok embed_type weekday_size _ (draw_weekday r) H)
      as (e2 & -> & _). cbn [bind ok].
    destruct (Embed_init_ok embed_type day_size _ (draw_day r) H)
      as (e3 & -> & _). cbn [bind ok].
    destruct (Embed_init_ok embed_type month_size _ (draw_month r) H)
      as (e4 & -> & _). cbn [bind ok].
    eexists. reflexivity.
Qed.

Lemma TemporalModule_init_ok (d_model : nat) (embed_type freq : string)
  (rt : TemporalDraw) (rf : LinearDraw) :
  d_model_ok d_model = true ->
  (String.eqb embed_type "timeF" = true -> in_list freq freq_codes = true) ->
  exists m, TemporalModule_init d_model embed_type freq rt rf = ok m.
Proof.
  intros Hd Hf. unfold TemporalModule_init.
  destruct (String.eqb embed_type "timeF"); cbn [negb].
  - destruct (TimeFeatureEmbedding_init_ok d_model "timeF" freq rf
                (Hf eq_refl)) as (m & Hm & _).
    unfold TimeFeatureEmbedding_init in *.
    destruct (dict_get freq_map freq); [discriminate Hm |].
    cbn [bind ok]. eexists. reflexivity.
  - destruct (TemporalEmbedding_init_ok _ embed_type freq rt Hd) as (m & ->).
    cbn [bind ok]. eexists. reflexivity.
Qed.

Lemma setitem_cols2_guard (dst : Tensor2 R) (start : nat)
  (src y : Tensor2 R) :
  setitem_cols2 dst start src = ok y ->
  expandable (cols2 src) ((cols2 dst + 1 - start) / 2) = true.
Proof.
  unfold setitem_cols2.
  destruct (expandable (rows2 src) (rows2 dst)); [| discriminate].
  destruct (expandable (cols2 src) ((cols2 dst + 1 - start) / 2));
    [reflexivity | discriminate].
Qed.

Lemma expandable_half_inv (d : nat) :
  d <> 0 -> expandable ((d + 1) / 2) ((d + 1 - 1) / 2) = true ->
  d_model_ok d = true.
Proof.
  intros Hd H. unfold d_model_ok.
  destruct (Nat.eqb_spec d 0) as [-> | _]; [contradiction |]. cbn [negb andb].
  destruct (Nat.even d) eqn:He; [reflexivity |]. cbn [orb].
  assert (Ho : Nat.odd d = true) by (rewrite <- Nat.negb_even, He; reflexivity).
  apply Nat.odd_spec in Ho. destruct Ho as [k Hk].
  assert (H1 : (d + 1) / 2 = k + 1).
  { replace (d + 1) with ((k + 1) * 2) by lia. apply Nat.div_mul. lia. }
  assert (H2 : (d + 1 - 1) / 2 = k).
  { replace (d + 1 - 1) with (1 + k * 2) by lia.
    rewrite Nat.div_add by lia. reflexivity. }
  rewrite H1, H2 in H. unfold expandable in H.
  apply orb_true_iff in H. destruct H as [H | H]; apply Nat.eqb_eq in H.
  - lia.
  - apply Nat.eqb_eq. lia.
Qed.

Lemma PositionalEmbedding_init_d_model_ok (d_model max_len : nat)
  (m : PositionalEmbedding) :
  PositionalEmbedding_init d_model max_len = ok m ->
  d_model_ok d_model = true.
Proof.
  unfold PositionalEmbedding_init. intros H.
  bind_inv H as dt Hdt. apply div_term_inv in Hdt. destruct Hdt as [Hd ->].
  bind_inv H as w0 Hw0. apply setitem_cols2_inv in Hw0. subst w0.
  bind_inv H as w1 Hw1. apply setitem_cols2_guard in Hw1.
  apply expandable_half_inv; assumption.
Qed.

Lemma TemporalModule_init_freq (d_model : nat) (embed_type freq : string)
  (rt : TemporalDraw) (rf : LinearDraw) (tm : TemporalModule) :
  TemporalModule_init d_model embed_type freq rt rf = ok tm ->
  String.eqb embed_type "timeF" = true -> in_list freq freq_codes = true.
Proof.
  unfold TemporalModule_init. intros H Ht. rewrite Ht in H. cbn [negb] in H.
  bind_inv H as m Hm.
  destruct (in_list freq freq_codes) eqn:Hin; [reflexivity |].
  rewrite (TimeFeatureEmbedding_init_bad _ _ _ _ Hin) in Hm. discriminate Hm.
Qed.

(** C6, amended. A frequency code outside the listed set makes
    [TimeFeatureEmbedding] raise at construction, and a policy outside the
    listed set makes both exo-prompt-tuning constructors raise the
    [ValueError] of the policy check before anything else is built.  Inside
    the sets, [TimeFeatureEmbedding] is built; the inverted exo embedding is
    built exactly when the dropout probability lies in [0, 1]; the exo
    embedding is built exactly when furthermore the sinusoidal table of
    width [d_model] can be filled and, for [embed_type = "timeF"], the
    frequency code is a listed one. *)
Theorem construction_validation :
  (forall d_model embed_type freq r,
      in_list freq freq_codes = false ->
      TimeFeatureEmbedding_init d_model embed_type freq r
      = raise (KeyError freq)) /\
  (forall d_model embed_type freq r,
      in_list freq freq_codes = true ->
      exists m, TimeFeatureEmbedding_init d_model embed_type freq r = ok m) /\
  (forall tv c_in d_model embed_type freq p ptt nvt exo_dim hidden r,
      in_list ptt policies = false ->
      DataEmbeddingWithExoPromptTuning_init tv c_in d_model embed_type freq p
        ptt nvt exo_dim hidden r = raise (not_supported ptt)) /\
  (forall c_in d_model embed_type freq p ptt nvt exo_dim hidden r,
      in_list ptt policies = false ->
      DataEmbedding_inverted_WithExoPromptTuning_init c_in d_model embed_type
        freq p ptt nvt exo_dim hidden r = raise (not_supported ptt)) /\
  (forall c_in d_model embed_type freq p ptt nvt exo_dim hidden r,
      in_list ptt policies = true ->
      ((exists m, DataEmbedding_inverted_WithExoPromptTuning_init c_in d_model
                    embed_type freq p ptt nvt exo_dim hidden r = ok m)
       <-> (0 <= p <= 1)%R)) /\
  (forall tv c_in d_model embed_type freq p ptt nvt exo_dim hidden r,
      in_list ptt policies = true ->
      ((exists m, DataEmbeddingWithExoPromptTuning_init tv c_in d_model
                    embed_type freq p ptt nvt exo_dim hidden r = ok m)
       <-> ((0 <= p <= 1)%R /\
            d_model_ok d_model = true /\
            (String.eqb embed_type "timeF" = true ->
             in_list freq freq_codes = true)))).
Proof.
  repeat apply conj.
  - intros; apply TimeFeatureEmbedding_init_bad; assumption.
  - intros d_model embed_type freq r H.
    destruct (TimeFeatureEmbedding_init_ok d_model embed_type freq r H)
      as (m & Hm & _). exists m. exact Hm.
  - intros tv c_in d_model embed_type freq p ptt nvt exo_dim hidden r H.
    unfold DataEmbeddingWithExoPromptTuning_init.
    rewrite projector_init_bad by exact H. reflexivity.
  - intros c_in d_model embed_type freq p ptt nvt exo_dim hidden r H.
    unfold DataEmbedding_inverted_WithExoPromptTuning_init.
    rewrite projector_init_bad by exact H. reflexivity.
  - intros c_in d_model embed_type freq p ptt nvt exo_dim hidden r H.
    unfold DataEmbedding_inverted_WithExoPromptTuning_init. split.
    + intros (m & Hm). bind_inv Hm as s Hs. bind_inv Hm as dr Hdr.
      apply Dropout_init_inv in Hdr. apply Hdr.
    + intros Hp.
      destruct (projector_init_ok ptt d_model nvt exo_dim hidden
                  (inv_draw_fc1 r) (inv_draw_fc2 r) H) as (s & ->).
      cbn [bind ok]. rewrite Dropout_init_ok by exact Hp. cbn [bind ok].
      eexists. reflexivity.
  - intros tv c_in d_model embed_type freq p ptt nvt exo_dim hidden r H.
    unfold DataEmbeddingWithExoPromptTuning_init. split.
    + intros (m & Hm). bind_inv Hm as s Hs. bind_inv Hm as pos Hpos.
      bind_inv Hm as tm Htm. bind_inv Hm as dr Hdr.
      apply Dropout_init_inv in Hdr.
      split; [apply Hdr |]. split.
      * exact (PositionalEmbedding_init_d_model_ok _ _ _ Hpos).
      * exact (TemporalModule_init_freq _ _ _ _ _ _ Htm).
    + intros (Hp & Hd & Hf).
      destruct (projector_init_ok ptt d_model nvt exo_dim hidden
                  (draw_fc1 r) (draw_fc2 r) H) as (s & ->).
      cbn [bind ok].
      destruct (PositionalEmbedding_init_ok _ default_max_len Hd) as (pos & ->).
      cbn [bind ok].
      destruct (TemporalModule_init_ok _ embed_type freq (draw_temporal r)
                  (draw_timeF r) Hd Hf) as (tm & ->).
      cbn [bind ok]. rewrite Dropout_init_ok by exact Hp. cbn [bind ok].
      eexists. reflexivity.
Qed.

(** C6 fails as stated: with the policy [two_layer_mlp], which is inside the
    set, the constructor still raises for [d_model = 3], when the
    positional table cannot be filled. *)
Lemma construction_fails_inside_sets :
  in_list "two_layer_mlp" policies = true /\
  DataEmbeddingWithExoPromptTuning_init [2; 1; 0] 7 3 "fixed" "h" (1 / 10)
    "two_layer_mlp" 10 254 512 (const_exo_draw 0) = raise RuntimeError /\
  ~ (exists m,
        DataEmbeddingWithExoPromptTuning_init [2; 1; 0] 7 3 "fixed" "h"
          (1 / 10) "two_layer_mlp" 10 254 512 (const_exo_draw 0) = ok m).
Proof.
  assert (H : DataEmbeddingWithExoPromptTuning_init [2; 1; 0] 7 3 "fixed" "h"
                (1 / 10) "two_layer_mlp" 10 254 512 (const_exo_draw 0)
              = raise RuntimeError) by reflexivity.
  split; [reflexivity |]. split; [exact H |].
  intros (m & Hm). rewrite H in Hm. discriminate Hm.
Qed.

Lemma construction_validation_witness :
  TimeFeatureEmbedding_init 4 "timeF" "x" (const_linear_draw 0)
  = raise (KeyError "x") /\
  DataEmbedding_inverted_WithExoPromptTuning_init 7 4 "fixed" "h" (1 / 10)
    "prefix" 10 254 512 (const_inv_exo_draw 0)
  = raise (not_supported "prefix") /\
  (exists m,
      DataEmbeddingWithExoPromptTuning_init [2; 1; 0] 7 4 "timeF" "h"
        (1 / 10) "brute_concat" 10 254 512 (const_exo_draw 0) = ok m).
Proof.
  destruct construction_validation as (Hbad & _ & _ & Hinv & _ & Hok).
  split; [apply Hbad; reflexivity |].
  split; [apply Hinv; reflexivity |].
  apply Hok; [reflexivity |].
  split; [lra |]. split; reflexivity.
Defined.

(** ** DataEmbedding_inverted *)

(** C10. Two [DataEmbedding_inverted] instances built from the same [c_in],
    [d_model], dropout and initial value-embedding parameters, whatever
    their [embed_type] and [freq], are the same module and give equal
    outputs on every input [(x, x_mark)]. *)
Theorem DataEmbedding_inverted_ignores_embed_type_and_freq
  (c_in d_model : nat) (embed_type1 freq1 embed_type2 freq2 : string)
  (p : R) (r : LinearDraw) (m1 m2 : DataEmbedding_inverted) :
  DataEmbedding_inverted_init c_in d_model embed_type1 freq1 p r = ok m1 ->
  DataEmbedding_inverted_init c_in d_model embed_type2 freq2 p r = ok m2 ->
  m1 = m2 /\
  forall mode x x_mark,
    DataEmbedding_inverted_forward m1 mode x x_mark =
    DataEmbedding_inverted_forward m2 mode x x_mark.
Proof.
  unfold DataEmbedding_inverted_init. intros H1 H2.
  rewrite H1 in H2. apply ok_inj in H2. subst m2.
  split; [reflexivity | intros; reflexivity].
Qed.

Lemma DataEmbedding_inverted_ignores_embed_type_and_freq_witness :
  let m := mkInverted (Linear_init 2 2 true (const_linear_draw 1))
                      (mkDropout (1 / 10)) in
  let x := mkT3 1 2 1 (fun _ l _ => INR l) in
  DataEmbedding_inverted_init 2 2 "fixed" "h" (1 / 10) (const_linear_draw 1)
  = ok m /\
  DataEmbedding_inverted_init 2 2 "timeF" "x" (1 / 10) (const_linear_draw 1)
  = ok m /\
  DataEmbedding_inverted_forward m Eval x None =
  DataEmbedding_inverted_forward m Eval x None.
Proof.
  cbv zeta.
  assert (H : forall et fq,
             DataEmbedding_inverted_init 2 2 et fq (1 / 10)
               (const_linear_draw 1)
             = ok (mkInverted (Linear_init 2 2 true (const_linear_draw 1))
                              (mkDropout (1 / 10)))).
  { intros et fq. unfold DataEmbedding_inverted_init.
    rewrite Dropout_init_ok by lra. reflexivity. }
  split; [apply H |]. split; [apply H |].
  apply (DataEmbedding_inverted_ignores_embed_type_and_freq
           2 2 "fixed" "h" "timeF" "x" (1 / 10) (const_linear_draw 1)
           _ _ (H _ _) (H _ _)).
Defined.

(** ** Broadcast additions *)

Lemma add3_same (x y : Tensor3 R) :
  shape3 x = shape3 y ->
  exists z, add3 x y = ok z /\ shape3 z = shape3 x /\
    forall b l d, b < dim0 x -> l < dim1 x -> d < dim2 x ->
      get3 z b l d = (get3 x b l d + get3 y b l d)%R.
Proof.
  unfold shape3. intros H. injection H as H0 H1 H2.
  unfold add3. rewrite <- H0, <- H1, <- H2, !bdim_same.
  eexists. split; [reflexivity |]. split; [reflexivity |].
  intros b l d Hb Hl Hd. cbn [get3]. rewrite !bidx_lt by assumption.
  reflexivity.
Qed.

Lemma add3_row (x y : Tensor3 R) :
  dim0 y = 1 -> dim1 y = dim1 x -> dim2 y = dim2 x ->
  exists z, add3 x y = ok z /\ shape3 z = shape3 x /\
    forall b l d, b < dim0 x -> l < dim1 x -> d < dim2 x ->
      get3 z b l d = (get3 x b l d + get3 y 0 l d)%R.
Proof.
  intros H0 H1 H2. unfold add3. rewrite H0, H1, H2, bdim_one_r, !bdim_same.
  eexists. split; [reflexivity |]. split; [reflexivity |].
  intros b l d Hb Hl Hd. cbn [get3]. rewrite bidx_one, !bidx_lt by assumption.
  reflexivity.
Qed.

(** ** TemporalEmbedding *)

Lemma Embed_forward_table (e : Embed) (idx : Tensor2 Z) :
  Embed_forward e idx =
  Embedding_forward (mkEmbedding (Embed_table e)) idx.
Proof. destruct e as [[[w]] | [w]]; reflexivity. Qed.

Lemma field_lookup_ok (e : Embed) (x : Tensor3 R) (k : nat) :
  k < dim2 x ->
  (forall b l, b < dim0 x -> l < dim1 x ->
     index_ok (rows2 (Embed_table e)) (Rtrunc (get3 x b l k)) = true) ->
  field_lookup e (long3 x) k =
  ok (mkT3 (dim0 x) (dim1 x) (cols2 (Embed_table e))
           (fun b l d => lookup e (Rtrunc (get3 x b l k)) d)).
Proof.
  intros Hk Hidx. unfold field_lookup, select2, long3. cbn [dim0 dim1 dim2 get3].
  destruct (Nat.ltb_spec k (dim2 x)) as [_ | Hge]; [| lia].
  cbn [bind ok]. rewrite Embed_forward_table. unfold Embedding_forward.
  cbn [rows2 cols2 get2 emb_weight].
  replace (all_upto (dim0 x) _) with true; [reflexivity |].
  symmetry. apply all_upto_true. intros b Hb.
  apply all_upto_true. intros l Hl. apply Hidx; assumption.
Qed.

Lemma FixedEmbedding_init_inv (c_in d_model : nat) (m : FixedEmbedding) :
  FixedEmbedding_init c_in d_model = ok m ->
  shape2 (emb_weight (emb m)) = (c_in, d_model).
Proof.
  unfold FixedEmbedding_init. intros H.
  bind_inv H as dt Hdt.
  bind_inv H as w0 Hw0. apply setitem_cols2_inv in Hw0. subst w0.
  bind_inv H as w1 Hw1. apply setitem_cols2_inv in Hw1. subst w1.
  apply ok_inj in H. subst m. reflexivity.
Qed.

Lemma Embed_init_inv (embed_type : string) (n d_model : nat)
  (r : nat -> nat -> R) (e : Embed) :
  Embed_init embed_type n d_model r = ok e ->
  shape2 (Embed_table e) = (n, d_model).
Proof.
  unfold Embed_init. destruct (String.eqb embed_type "fixed"); intros H.
  - bind_inv H as m Hm. apply ok_inj in H. subst e.
    apply FixedEmbedding_init_inv. exact Hm.
  - apply ok_inj in H. subst e. reflexivity.
Qed.

Lemma TemporalEmbedding_init_inv (d_model : nat) (embed_type freq : string)
  (r : TemporalDraw) (m : TemporalEmbedding) :
  TemporalEmbedding_init d_model embed_type freq r = ok m ->
  shape2 (Embed_table (hour_embed m)) = (hour_size, d_model) /\
  shape2 (Embed_table (weekday_embed m)) = (weekday_size, d_model) /\
  shape2 (Embed_table (day_embed m)) = (day_size, d_model) /\
  shape2 (Embed_table (month_embed m)) = (month_size, d_model) /\
  match minute_embed m with
  | Some e => String.eqb freq "t" = true /\
              shape2 (Embed_table e) = (minute_size, d_model)
  | None => String.eqb freq "t" = false
  end.
Proof.
  unfold TemporalEmbedding_init. intros H.
  bind_inv H as mi Hmi. bind_inv H as h Hh. bind_inv H as w Hw.
  bind_inv H as d Hd. bind_inv H as mo Hmo.
  apply ok_inj in H. subst m. cbn [hour_embed weekday_embed day_embed
                                   month_embed minute_embed].
  apply Embed_init_inv in Hh, Hw, Hd, Hmo.
  repeat (split; [assumption |]).
  destruct (String.eqb freq "t").
  - bind_inv Hmi as e He. apply ok_inj in Hmi. subst mi.
    apply Embed_init_inv in He. split; [reflexivity | exact He].
  - apply ok_inj in Hmi. subst mi. reflexivity.
Qed.

Ltac add3_step Hs Hg :=
  match goal with
  | |- context [add3 ?a ?b] =>
      let z := fresh "s" in
      let Hz := fresh "Hz" in
      destruct (add3_same a b) as (z & Hz & Hs & Hg);
      [ | rewrite Hz; cbn [bind ok] ]
  end.

Lemma TemporalEmbedding_forward_ok (d_model : nat)
  (embed_type freq : string) (r : TemporalDraw) (m : TemporalEmbedding)
  (x : Tensor3 R) :
  TemporalEmbedding_init d_model embed_type freq r = ok m ->
  calendar_tensor freq x ->
  exists y,
    TemporalEmbedding_forward m x = ok y /\
    shape3 y = (dim0 x, dim1 x, d_model) /\
    forall b l d, b < dim0 x -> l < dim1 x -> d < d_model ->
      let four :=
        (lookup (month_embed m) (Rtrunc (get3 x b l 0)) d
         + lookup (day_embed m) (Rtrunc (get3 x b l 1)) d
         + lookup (weekday_embed m) (Rtrunc (get3 x b l 2)) d
         + lookup (hour_embed m) (Rtrunc (get3 x b l 3)) d)%R in
      (String.eqb freq "t" = true ->
       exists e, minute_embed m = Some e /\
         get3 y b l d = (four + lookup e (Rtrunc (get3 x b l 4)) d)%R) /\
      (String.eqb freq "t" = false ->
       minute_embed m = None /\ get3 y b l d = four).
Proof.
  intros Hinit [Hcols Hval].
  destruct (TemporalEmbedding_init_inv _ _ _ _ _ Hinit)
    as (Hh & Hw & Hd & Hmo & Hmi).
  unfold shape2 in Hh, Hw, Hd, Hmo.
  injection Hh as Hh0 Hh1. injection Hw as Hw0 Hw1.
  injection Hd as Hd0 Hd1. injection Hmo as Hmo0 Hmo1.
  unfold TemporalEmbedding_forward.
  destruct (minute_embed m) as [e |] eqn:Eminute.
  - destruct Hmi as [Hf He]. unfold shape2 in He. injection He as He0 He1.
    rewrite Hf in Hcols.
    rewrite (field_lookup_ok e x 4);
      [| lia | intros b l Hb Hl; rewrite He0; apply (Hval b l Hb Hl), Hf].
    cbn [bind ok].
    rewrite (field_lookup_ok (hour_embed m) x 3);
      [| lia | intros b l Hb Hl; rewrite Hh0; apply (Hval b l Hb Hl)].
    rewrite (field_lookup_ok (weekday_embed m) x 2);
      [| lia | intros b l Hb Hl; rewrite Hw0; apply (Hval b l Hb Hl)].
    rewrite (field_lookup_ok (day_embed m) x 1);
      [| lia | intros b l Hb Hl; rewrite Hd0; apply (Hval b l Hb Hl)].
    rewrite (field_lookup_ok (month_embed m) x 0);
      [| lia | intros b l Hb Hl; rewrite Hmo0; apply (Hval b l Hb Hl)].
    cbn [bind ok].
    add3_step Hs1 Hg1.
    { unfold shape3; cbn [dim0 dim1 dim2]; congruence. }
    add3_step Hs2 Hg2.
    { rewrite Hs1. unfold shape3; cbn [dim0 dim1 dim2]; congruence. }
    add3_step Hs3 Hg3.
    { rewrite Hs2, Hs1. unfold shape3; cbn [dim0 dim1 dim2]; congruence. }
    add3_step Hs4 Hg4.
    { rewrite Hs3, Hs2, Hs1. unfold shape3; cbn [dim0 dim1 dim2]; congruence. }
    exists s2. split; [reflexivity |].
    rewrite Hs4, Hs3, Hs2, Hs1. unfold shape3 in *. cbn [dim0 dim1 dim2] in *.
    injection Hs1 as A0 A1 A2. injection Hs2 as B0 B1 B2.
    injection Hs3 as C0 C1 C2. injection Hs4 as D0 D1 D2.
    split; [congruence |].
    intros b l d Hb Hl Hdd. cbv zeta. split.
    + intros _. exists e. split; [reflexivity |].
      rewrite Hg4, Hg3, Hg2, Hg1 by (cbn [dim0 dim1 dim2]; lia).
      cbn [get3]. ring.
    + intros Hf'. congruence.
  - rewrite Hmi in Hcols. cbn [bind ok].
    rewrite (field_lookup_ok (hour_embed m) x 3);
      [| lia | intros b l Hb Hl; rewrite Hh0; apply (Hval b l Hb Hl)].
    rewrite (field_lookup_ok (weekday_embed m) x 2);
      [| lia | intros b l Hb Hl; rewrite Hw0; apply (Hval b l Hb Hl)].
    rewrite (field_lookup_ok (day_embed m) x 1);
      [| lia | intros b l Hb Hl; rewrite Hd0; apply (Hval b l Hb Hl)].
    rewrite (field_lookup_ok (month_embed m) x 0);
      [| lia | intros b l Hb Hl; rewrite Hmo0; apply (Hval b l Hb Hl)].
    cbn [bind ok].
    add3_step Hs1 Hg1.
    { unfold shape3; cbn [dim0 dim1 dim2]; congruence. }
    add3_step Hs2 Hg2.
    { rewrite Hs1. unfold shape3; cbn [dim0 dim1 dim2]; congruence. }
    add3_step Hs3 Hg3.
    { rewrite Hs2, Hs1. unfold shape3; cbn [dim0 dim1 dim2]; congruence. }
    eexists. split; [reflexivity |].
    unfold shape3 in *. cbn [dim0 dim1 dim2 add_scalar3] in *.
    injection Hs1 as A0 A1 A2. injection Hs2 as B0 B1 B2.
    injection Hs3 as C0 C1 C2.
    split; [congruence |].
    intros b l d Hb Hl Hdd. cbv zeta. split.
    + intros Hf'. congruence.
    + intros _. split; [reflexivity |]. unfold add_scalar3. cbn [get3].
      rewrite Hg3, Hg2, Hg1 by (cbn [dim0 dim1 dim2]; lia).
      cbn [get3]. ring.
Qed.

Lemma field_lookup_inv (e : Embed) (x : Tensor3 R) (k : nat)
  (t : Tensor3 R) :
  field_lookup e (long3 x) k = ok t ->
  k < dim2 x /\
  forall b l, b < dim0 x -> l < dim1 x ->
    index_ok (rows2 (Embed_table e)) (Rtrunc (get3 x b l k)) = true.
Proof.
  unfold field_lookup, select2, long3. cbn [dim0 dim1 dim2 get3].
  destruct (Nat.ltb_spec k (dim2 x)) as [Hk | _]; [| discriminate].
  cbn [bind ok]. rewrite Embed_forward_table. unfold Embedding_forward.
  cbn [rows2 cols2 get2 emb_weight].
  destruct (all_upto (dim0 x) _) eqn:Hall; [| discriminate].
  intros _. split; [exact Hk |]. intros b l Hb Hl.
  rewrite all_upto_true in Hall. specialize (Hall b Hb). cbv beta in Hall.
  rewrite all_upto_true in Hall. exact (Hall l Hl).
Qed.

Lemma TemporalEmbedding_forward_inv (d_model : nat)
  (embed_type freq : string) (r : TemporalDraw) (m : TemporalEmbedding)
  (x y : Tensor3 R) :
  TemporalEmbedding_init d_model embed_type freq r = ok m ->
  TemporalEmbedding_forward m x = ok y ->
  calendar_tensor freq x.
Proof.
  intros Hinit H.
  destruct (TemporalEmbedding_init_inv _ _ _ _ _ Hinit)
    as (Hh & Hw & Hd & Hmo & Hmi).
  unfold shape2 in Hh, Hw, Hd, Hmo.
  injection Hh as Hh0 _. injection Hw as Hw0 _.
  injection Hd as Hd0 _. injection Hmo as Hmo0 _.
  unfold TemporalEmbedding_forward in H.
  bind_inv H as mi Hminute. bind_inv H as h Hhour. bind_inv H as w Hweek.
  bind_inv H as d Hday. bind_inv H as mo Hmonth.
  apply field_lookup_inv in Hhour, Hweek, Hday, Hmonth.
  rewrite Hh0 in Hhour. rewrite Hw0 in Hweek. rewrite Hd0 in Hday.
  rewrite Hmo0 in Hmonth.
  destruct Hhour as [Hk3 Hhour], Hweek as [_ Hweek], Hday as [_ Hday],
           Hmonth as [_ Hmonth].
  unfold calendar_tensor.
  destruct (minute_embed m) as [e |].
  - destruct Hmi as [-> He]. unfold shape2 in He. injection He as He0 _.
    bind_inv Hminute as t Ht. apply field_lookup_inv in Ht.
    rewrite He0 in Ht. destruct Ht as [Hk4 Ht].
    split; [lia |]. intros b l Hb Hl. repeat split; auto.
  - rewrite Hmi. split; [lia |]. intros b l Hb Hl.
    repeat split; auto. discriminate.
Qed.

(** C5. For a module built by the constructor, [TemporalEmbedding.forward]
    returns exactly on the calendar tensors of its frequency, and then
    returns the elementwise sum of the month, day, weekday and hour
    lookups, plus the minute lookup exactly when the frequency is "t";
    without a minute embedding nothing (zero) is added. *)
Theorem TemporalEmbedding_forward_sum (d_model : nat)
  (embed_type freq : string) (r : TemporalDraw) (m : TemporalEmbedding)
  (x : Tensor3 R) :
  TemporalEmbedding_init d_model embed_type freq r = ok m ->
  ((exists y, TemporalEmbedding_forward m x = ok y) ->
   calendar_tensor freq x) /\
  (calendar_tensor freq x ->
   exists y,
     TemporalEmbedding_forward m x = ok y /\
     shape3 y = (dim0 x, dim1 x, d_model) /\
     forall b l d, b < dim0 x -> l < dim1 x -> d < d_model ->
       let four :=
         (lookup (month_embed m) (Rtrunc (get3 x b l 0)) d
          + lookup (day_embed m) (Rtrunc (get3 x b l 1)) d
          + lookup (weekday_embed m) (Rtrunc (get3 x b l 2)) d
          + lookup (hour_embed m) (Rtrunc (get3 x b l 3)) d)%R in
       (String.eqb freq "t" = true ->
        exists e, minute_embed m = Some e /\
          get3 y b l d = (four + lookup e (Rtrunc (get3 x b l 4)) d)%R) /\
       (String.eqb freq "t" = false ->
        minute_embed m = None /\ get3 y b l d = four)).
Proof.
  intros Hinit. split.
  - intros (y & Hy).
    exact (TemporalEmbedding_forward_inv d_model embed_type freq r m x y
             Hinit Hy).
  - exact (TemporalEmbedding_forward_ok d_model embed_type freq r m x Hinit).
Qed.

Lemma Rtrunc_IZR (z : Z) : Rtrunc (IZR z) = z.
Proof.
  unfold Rtrunc. destruct (Rle_dec 0 (IZR z)) as [H | H].
  - symmetry. apply Int_part_spec. lra.
  - rewrite <- opp_IZR.
    rewrite <- (Int_part_spec (IZR (- z)) (- z)%Z) by lra. lia.
Qed.

Lemma Rtrunc_frac (z : Z) (f : R) :
  (0 <= z)%Z -> (0 <= f < 1)%R -> Rtrunc (IZR z + f) = z.
Proof.
  intros Hz Hf. unfold Rtrunc. apply IZR_le in Hz.
  destruct (Rle_dec 0 (IZR z + f)) as [H | H]; [| lra].
  symmetry. apply Int_part_spec. lra.
Qed.

(** A calendar tensor of one time step: month 1, day 2, weekday 3, hour 4. *)
Lemma TemporalEmbedding_forward_sum_witness :
  let x := mkT3 1 1 4 (fun _ _ k => IZR (Z.of_nat (k + 1))) in
  let learned n := EmbedLearned (Embedding_init n 2 (fun _ _ => 1%R)) in
  let m := mkTemporalEmbedding None (learned hour_size) (learned weekday_size)
             (learned day_size) (learned month_size) in
  TemporalEmbedding_init 2 "learned" "h" (const_temporal_draw 1) = ok m /\
  exists y, TemporalEmbedding_forward m x = ok y /\ shape3 y = (1, 1, 2).
Proof.
  cbv zeta. split; [reflexivity |].
  edestruct (proj2 (TemporalEmbedding_forward_sum 2 "learned" "h"
               (const_temporal_draw 1)
               (mkTemporalEmbedding None
                  (EmbedLearned (Embedding_init hour_size 2 (fun _ _ => 1%R)))
                  (EmbedLearned (Embedding_init weekday_size 2 (fun _ _ => 1%R)))
                  (EmbedLearned (Embedding_init day_size 2 (fun _ _ => 1%R)))
                  (EmbedLearned (Embedding_init month_size 2 (fun _ _ => 1%R))))
               (mkT3 1 1 4 (fun _ _ k => IZR (Z.of_nat (k + 1))))
               eq_refl))
    as (y & Hy & Hs & _).
  - split; [cbn; lia |]. intros b l _ _. cbn [get3].
    rewrite !Rtrunc_IZR. repeat split; try reflexivity. discriminate.
  - exists y. split; [exact Hy | exact Hs].
Defined.

(** ** Results that depend on the input through some columns only *)

Lemma bind_cong (A B : Type) (RA : A -> A -> Prop) (RB : B -> B -> Prop)
  (c c' : Res A) (k k' : A -> Res B) :
  res_rel RA c c' ->
  (forall a a', RA a a' -> res_rel RB (k a) (k' a')) ->
  res_rel RB (bind c k) (bind c' k').
Proof.
  destruct c as [e | a], c' as [e' | a']; cbn; intros H Hk;
    try contradiction; [exact H | apply Hk; exact H].
Qed.

Lemma bidx_bdim_l (a b n i : nat) :
  bdim a b = Some n -> i < n -> bidx a i < a.
Proof.
  intros H Hi. unfold bidx.
  destruct (Nat.eqb_spec a 1) as [-> | Ha]; [lia |].
  apply bdim_inv in H. lia.
Qed.

Lemma bidx_bdim_r (a b n i : nat) :
  bdim a b = Some n -> i < n -> bidx b i < b.
Proof.
  intros H Hi. unfold bidx.
  destruct (Nat.eqb_spec b 1) as [-> | Hb]; [lia |].
  apply bdim_inv in H. lia.
Qed.

Create HintDb broadcast.
#[local] Hint Resolve bidx_bdim_l bidx_bdim_r : broadcast.

Lemma add3_cong (a a' b b' : Tensor3 R) :
  teq3 a a' -> teq3 b b' -> res_teq3 (add3 a b) (add3 a' b').
Proof.
  intros [Hsa Ha] [Hsb Hb]. unfold shape3 in Hsa, Hsb.
  injection Hsa as A0 A1 A2. injection Hsb as B0 B1 B2.
  unfold res_teq3, add3. rewrite <- A0, <- A1, <- A2, <- B0, <- B1, <- B2.
  destruct (bdim (dim0 a) (dim0 b)) as [n0 |] eqn:E0; [| reflexivity].
  destruct (bdim (dim1 a) (dim1 b)) as [n1 |] eqn:E1; [| reflexivity].
  destruct (bdim (dim2 a) (dim2 b)) as [n2 |] eqn:E2; [| reflexivity].
  cbn. split; [reflexivity |]. cbn [dim0 dim1 dim2 get3].
  intros i j k Hi Hj Hk.
  rewrite Ha, Hb; eauto with broadcast.
Qed.

Lemma add_scalar3_cong (a a' : Tensor3 R) (c : R) :
  teq3 a a' -> teq3 (add_scalar3 a c) (add_scalar3 a' c).
Proof.
  intros [Hs Ha]. split; [exact Hs |].
  cbn [add_scalar3 dim0 dim1 dim2 get3]. intros i j k Hi Hj Hk.
  rewrite Ha by assumption. reflexivity.
Qed.

Lemma field_lookup_cong (e : Embed) (x x' : Tensor3 R) (k : nat) :
  k < 5 -> agree_on_columns x x' ->
  res_teq3 (field_lookup e (long3 x) k) (field_lookup e (long3 x') k).
Proof.
  intros Hk (H0 & H1 & Hcol). destruct (Hcol k Hk) as [Hdim Hval].
  unfold res_teq3, field_lookup, select2, long3. cbn [dim0 dim1 dim2 get3].
  destruct (Nat.ltb_spec k (dim2 x)) as [Hlt | Hge];
    destruct (Nat.ltb_spec k (dim2 x')) as [Hlt' | Hge'];
    try (exfalso; lia); [| reflexivity].
  cbn [bind ok]. rewrite !Embed_forward_table. unfold Embedding_forward.
  cbn [rows2 cols2 get2 emb_weight]. rewrite <- H0, <- H1.
  replace (all_upto (dim0 x) (fun b => all_upto (dim1 x) (fun l =>
             index_ok (rows2 (Embed_table e)) (Rtrunc (get3 x' b l k)))))
    with (all_upto (dim0 x) (fun b => all_upto (dim1 x) (fun l =>
             index_ok (rows2 (Embed_table e)) (Rtrunc (get3 x b l k))))).
  - destruct (all_upto (dim0 x) _); [| reflexivity].
    cbn. split; [reflexivity |]. cbn [dim0 dim1 dim2 get3].
    intros b l d Hb Hl Hd. rewrite Hval by assumption. reflexivity.
  - apply all_upto_ext. intros b Hb. apply all_upto_ext. intros l Hl.
    rewrite Hval by assumption. reflexivity.
Qed.

Lemma TemporalEmbedding_forward_cong (m : TemporalEmbedding)
  (x x' : Tensor3 R) :
  agree_on_columns x x' ->
  res_teq3 (TemporalEmbedding_forward m x) (TemporalEmbedding_forward m x').
Proof.
  intros Hag. unfold res_teq3, TemporalEmbedding_forward.
  apply bind_cong with
    (RA := fun u u' : R + Tensor3 R =>
             match u, u' with
             | inl c, inl c' => c = c'
             | inr t, inr t' => teq3 t t'
             | _, _ => False
             end).
  { destruct (minute_embed m) as [e |]; [| reflexivity].
    apply bind_cong with (RA := @teq3 R).
    - apply field_lookup_cong; [lia | exact Hag].
    - intros t t' Ht. exact Ht. }
  intros mi mi' Hmi.
  apply bind_cong with (RA := @teq3 R);
    [apply field_lookup_cong; [lia | exact Hag] | intros h h' Hh].
  apply bind_cong with (RA := @teq3 R);
    [apply field_lookup_cong; [lia | exact Hag] | intros w w' Hw].
  apply bind_cong with (RA := @teq3 R);
    [apply field_lookup_cong; [lia | exact Hag] | intros d d' Hd].
  apply bind_cong with (RA := @teq3 R);
    [apply field_lookup_cong; [lia | exact Hag] | intros mo mo' Hmo].
  apply bind_cong with (RA := @teq3 R);
    [apply add3_cong; assumption | intros s1 s1' Hs1].
  apply bind_cong with (RA := @teq3 R);
    [apply add3_cong; assumption | intros s2 s2' Hs2].
  apply bind_cong with (RA := @teq3 R);
    [apply add3_cong; assumption | intros s3 s3' Hs3].
  destruct mi as [c | t], mi' as [c' | t']; try contradiction.
  - subst c'. apply add_scalar3_cong. exact Hs3.
  - apply add3_cong; assumption.
Qed.

Lemma agree_truncated (x : Tensor3 R) : agree_on_columns x (truncated x).
Proof.
  split; [reflexivity |]. split; [reflexivity |].
  intros k Hk. split; [reflexivity |].
  intros b l Hb Hl. cbn [truncated get3]. rewrite Rtrunc_IZR. reflexivity.
Qed.

(** C8. [TemporalEmbedding.forward] sees its input only through the
    truncation to integers of the columns 0 (month), 1 (day), 2 (weekday),
    3 (hour) and 4 (minute): the input and the input with its fractional
    parts discarded give equal results, two inputs that agree on these
    columns after truncation give equal results, and on a calendar tensor
    the output is the sum of the table rows selected by these columns. *)
Theorem TemporalEmbedding_forward_reads_truncated_columns (d_model : nat)
  (embed_type freq : string) (r : TemporalDraw) (m : TemporalEmbedding)
  (x : Tensor3 R) :
  TemporalEmbedding_init d_model embed_type freq r = ok m ->
  res_teq3 (TemporalEmbedding_forward m x)
           (TemporalEmbedding_forward m (truncated x)) /\
  (forall x', agree_on_columns x x' ->
     res_teq3 (TemporalEmbedding_forward m x)
              (TemporalEmbedding_forward m x')) /\
  (calendar_tensor freq x ->
   exists y, TemporalEmbedding_forward m x = ok y /\
     forall b l d, b < dim0 x -> l < dim1 x -> d < d_model ->
       get3 y b l d =
       (lookup (month_embed m) (Rtrunc (get3 x b l 0)) d
        + lookup (day_embed m) (Rtrunc (get3 x b l 1)) d
        + lookup (weekday_embed m) (Rtrunc (get3 x b l 2)) d
        + lookup (hour_embed m) (Rtrunc (get3 x b l 3)) d
        + match minute_embed m with
          | Some e => lookup e (Rtrunc (get3 x b l 4)) d
          | None => 0
          end)%R).
Proof.
  intros Hinit. split; [| split].
  - apply TemporalEmbedding_forward_cong, agree_truncated.
  - intros x' Hag. apply TemporalEmbedding_forward_cong. exact Hag.
  - intros Hcal.
    destruct (TemporalEmbedding_forward_ok d_model embed_type freq r m x
                Hinit Hcal) as (y & Hy & _ & Hg).
    exists y. split; [exact Hy |].
    intros b l d Hb Hl Hd. destruct (Hg b l d Hb Hl Hd) as [Ht Hf].
    destruct (String.eqb freq "t").
    + destruct (Ht eq_refl) as (e & -> & ->). reflexivity.
    + destruct (Hf eq_refl) as (-> & ->). ring.
Qed.

(** One time step; the second input carries fractional parts. *)
Lemma TemporalEmbedding_forward_reads_truncated_columns_witness :
  let learned n := EmbedLearned (Embedding_init n 2 (fun _ _ => 1%R)) in
  let m := mkTemporalEmbedding None (learned hour_size) (learned weekday_size)
             (learned day_size) (learned month_size) in
  let x := mkT3 1 1 4 (fun _ _ k => (IZR (Z.of_nat (k + 1)) + 1 / 2)%R) in
  TemporalEmbedding_init 2 "learned" "h" (const_temporal_draw 1) = ok m /\
  res_teq3 (TemporalEmbedding_forward m x)
           (TemporalEmbedding_forward m (truncated x)).
Proof.
  cbv zeta. split; [reflexivity |].
  refine (proj1 (TemporalEmbedding_forward_reads_truncated_columns
                   2 "learned" "h" (const_temporal_draw 1) _ _ _)).
  reflexivity.
Defined.

(** ** PatchEmbedding *)

Lemma Dropout_forward_shape (m : Dropout) (mode : Mode) (x : Tensor3 R) :
  shape3 (Dropout_forward m mode x) = shape3 x.
Proof. destruct mode; reflexivity. Qed.

Lemma Linear_forward3_ok (l : Linear) (x : Tensor3 R) :
  dim2 x = in_features l ->
  Linear_forward3 l x =
  ok (mkT3 (dim0 x) (dim1 x) (out_features l)
           (fun b t o => affine l (get3 x b t) o)).
Proof.
  intros H. unfold Linear_forward3. rewrite H, Nat.eqb_refl. reflexivity.
Qed.

Lemma PatchEmbedding_init_inv (d_model len step pad : nat)
  (p : R) (r : LinearDraw) (m : PatchEmbedding) :
  PatchEmbedding_init d_model len step pad p r = ok m ->
  exists pos,
    PositionalEmbedding_init d_model default_max_len = ok pos /\
    m = mkPatchEmbedding len step pad
          (Linear_init len d_model false r) pos (mkDropout p).
Proof.
  unfold PatchEmbedding_init. intros H.
  bind_inv H as pos Hpos. bind_inv H as dr Hdr.
  apply Dropout_init_inv in Hdr. destruct Hdr as [-> _].
  apply ok_inj in H. subst m. exists pos. split; [exact Hpos | reflexivity].
Qed.

Lemma PatchEmbedding_forward_ok (d_model len step pad : nat)
  (p : R) (r : LinearDraw) (m : PatchEmbedding) (mode : Mode)
  (x : Tensor3 R) (B V T : nat) :
  PatchEmbedding_init d_model len step pad p r = ok m ->
  shape3 x = (B, V, T) ->
  1 <= V -> 1 <= T -> 1 <= step ->
  len <= T + pad ->
  (T + pad - len) / step + 1 <= default_max_len ->
  let n_patches := (T + pad - len) / step + 1 in
  exists pre,
    PatchEmbedding_forward m mode x
    = ok (Dropout_forward (pt_dropout m) mode pre, V) /\
    shape3 (Dropout_forward (pt_dropout m) mode pre)
    = (B * V, n_patches, d_model) /\
    shape3 pre = (B * V, n_patches, d_model) /\
    forall q i d, q < B * V -> i < n_patches -> d < d_model ->
      get3 pre q i d =
      (Rsum len (fun j =>
         get3 x (q / V) (q mod V) (Nat.min (i * step + j) (T - 1))
         * draw_weight r d j)
       + sinusoid d_model i d)%R.
Proof.
  intros Hinit Hs HV HT Hst Hlen Hn. cbv zeta.
  destruct (PatchEmbedding_init_inv _ _ _ _ _ _ _ Hinit) as (pos & Hpos & ->).
  destruct (PositionalEmbedding_init_inv _ _ _ Hpos) as (_ & Hps & Hpg).
  unfold shape3 in Hs, Hps. injection Hs as H0 H1 H2.
  injection Hps as P0 P1 P2.
  unfold PatchEmbedding_forward.
  cbn [padding_patch_layer patch_len stride pt_value_embedding
       pt_position_embedding pt_dropout].
  unfold replication_pad_right. rewrite H1, H2.
  destruct (Nat.eqb_spec V 0) as [-> | _]; [lia |].
  destruct (Nat.eqb_spec T 0) as [-> | _]; [lia |].
  cbn [orb bind ok]. unfold unfold_last. cbn [dim0 dim1 dim2 get3].
  destruct (Nat.ltb_spec (T + pad) len) as [Hlt | _]; [lia |].
  destruct (Nat.eqb_spec step 0) as [-> | _]; [lia |].
  cbn [bind ok]. unfold fold_batch. cbn [d4_0 d4_1 d4_2 d4_3 get4].
  rewrite Linear_forward3_ok by reflexivity.
  cbn [bind ok dim0 dim1 dim2 Linear_init out_features].
  match goal with
  | |- context [add3 ?a ?b] =>
      destruct (add3_row a b) as (z & Hz & Hzs & Hzg)
  end.
  { exact P0. }
  { cbn [PositionalEmbedding_forward dim1]. rewrite P1. lia. }
  { cbn [PositionalEmbedding_forward dim2]. exact P2. }
  rewrite Hz. cbn [bind ok]. exists z.
  split; [reflexivity |].
  rewrite Dropout_forward_shape, Hzs. unfold shape3. cbn [dim0 dim1 dim2].
  rewrite H0. split; [reflexivity |]. split; [reflexivity |].
  intros q i d Hq Hi Hd.
  rewrite Hzg by (cbn [dim0 dim1 dim2]; lia).
  cbn [get3 PositionalEmbedding_forward]. rewrite Hpg by (unfold default_max_len in *; lia).
  unfold affine, bias_at. cbn [Linear_init in_features lin_weight lin_bias get2].
  rewrite Rplus_0_r. reflexivity.
Qed.

Lemma add3_inv (x y z : Tensor3 R) :
  add3 x y = ok z ->
  bdim (dim0 x) (dim0 y) = Some (dim0 z) /\
  bdim (dim1 x) (dim1 y) = Some (dim1 z) /\
  bdim (dim2 x) (dim2 y) = Some (dim2 z).
Proof.
  unfold add3.
  destruct (bdim (dim0 x) (dim0 y)); [| discriminate].
  destruct (bdim (dim1 x) (dim1 y)); [| discriminate].
  destruct (bdim (dim2 x) (dim2 y)); [| discriminate].
  intros H. apply ok_inj in H. subst z. repeat split; reflexivity.
Qed.

Lemma PatchEmbedding_forward_inv (d_model len step pad : nat)
  (p : R) (r : LinearDraw) (m : PatchEmbedding) (mode : Mode)
  (x : Tensor3 R) (B V T : nat) (out : Tensor3 R * nat) :
  PatchEmbedding_init d_model len step pad p r = ok m ->
  shape3 x = (B, V, T) ->
  PatchEmbedding_forward m mode x = ok out ->
  1 <= V /\ 1 <= T /\ 1 <= step /\ len <= T + pad /\
  (T + pad - len) / step + 1 <= default_max_len.
Proof.
  intros Hinit Hs H.
  destruct (PatchEmbedding_init_inv _ _ _ _ _ _ _ Hinit) as (pos & Hpos & ->).
  destruct (PositionalEmbedding_init_inv _ _ _ Hpos) as (_ & Hps & _).
  unfold shape3 in Hs, Hps. injection Hs as H0 H1 H2.
  injection Hps as P0 P1 P2.
  unfold PatchEmbedding_forward in H.
  cbn [padding_patch_layer patch_len stride pt_value_embedding
       pt_position_embedding pt_dropout] in H.
  bind_inv H as x1 Hx1. unfold replication_pad_right in Hx1.
  rewrite H1, H2 in Hx1.
  destruct (Nat.eqb_spec V 0) as [-> | HV]; [discriminate |].
  destruct (Nat.eqb_spec T 0) as [-> | HT]; [discriminate |].
  cbn [orb] in Hx1. apply ok_inj in Hx1. subst x1.
  bind_inv H as x2 Hx2. unfold unfold_last in Hx2.
  cbn [dim0 dim1 dim2 get3] in Hx2.
  destruct (Nat.ltb_spec (T + pad) len) as [Hlt | Hlen]; [discriminate |].
  destruct (Nat.eqb_spec step 0) as [-> | Hst]; [discriminate |].
  apply ok_inj in Hx2. subst x2.
  bind_inv H as v Hv. unfold Linear_forward3 in Hv.
  destruct (dim2 _ =? in_features _); [| discriminate].
  apply ok_inj in Hv. subst v.
  bind_inv H as z Hz. apply add3_inv in Hz. destruct Hz as (_ & Hz1 & _).
  cbn [fold_batch PositionalEmbedding_forward dim1 d4_2] in Hz1.
  rewrite P1 in Hz1. apply bdim_inv in Hz1.
  repeat (split; [lia |]).
  unfold default_max_len in *. lia.
Qed.

(** C4, amended. For an input of shape [B, V, T], [PatchEmbedding.forward]
    returns exactly when [V >= 1], [T >= 1], [stride >= 1],
    [patch_len <= T + padding] and there are at most 5000 patches; it then
    returns [n_vars = V] and a tensor of shape [(B * V), n_patches, d_model],
    the dropout of: the shared linear map applied to the window of length
    [patch_len] at offset [i * stride] of row [(q / V, q mod V)] of the
    input padded on the right by replication, plus the positional embedding
    of position [i]. *)
Theorem PatchEmbedding_forward_spec (d_model len step pad : nat)
  (p : R) (r : LinearDraw) (m : PatchEmbedding) (mode : Mode)
  (x : Tensor3 R) (B V T : nat) :
  PatchEmbedding_init d_model len step pad p r = ok m ->
  shape3 x = (B, V, T) ->
  let n_patches := (T + pad - len) / step + 1 in
  ((exists out, PatchEmbedding_forward m mode x = ok out) ->
   1 <= V /\ 1 <= T /\ 1 <= step /\ len <= T + pad /\
   n_patches <= default_max_len) /\
  (1 <= V -> 1 <= T -> 1 <= step -> len <= T + pad ->
   n_patches <= default_max_len ->
   exists pre,
     PatchEmbedding_forward m mode x
     = ok (Dropout_forward (pt_dropout m) mode pre, V) /\
     shape3 (Dropout_forward (pt_dropout m) mode pre)
     = (B * V, n_patches, d_model) /\
     shape3 pre = (B * V, n_patches, d_model) /\
     forall q i d, q < B * V -> i < n_patches -> d < d_model ->
       get3 pre q i d =
       (Rsum len (fun j =>
          get3 x (q / V) (q mod V) (Nat.min (i * step + j) (T - 1))
          * draw_weight r d j)
        + sinusoid d_model i d)%R).
Proof.
  intros Hinit Hs. cbv zeta. split.
  - intros (out & Hout).
    exact (PatchEmbedding_forward_inv d_model len step pad p r m mode x
             B V T out Hinit Hs Hout).
  - intros HV HT Hst Hlen Hn.
    exact (PatchEmbedding_forward_ok d_model len step pad p r m mode x
             B V T Hinit Hs HV HT Hst Hlen Hn).
Qed.

Lemma PatchEmbedding_init_ok (d_model len step pad : nat) (p : R)
  (r : LinearDraw) :
  d_model_ok d_model = true -> (0 <= p <= 1)%R ->
  exists m, PatchEmbedding_init d_model len step pad p r = ok m.
Proof.
  intros Hd Hp. unfold PatchEmbedding_init.
  destruct (PositionalEmbedding_init_ok d_model default_max_len Hd)
    as (pos & ->).
  cbn [bind ok]. rewrite Dropout_init_ok by exact Hp. cbn [bind ok].
  eexists. reflexivity.
Qed.

Lemma PatchEmbedding_forward_spec_witness :
  let x := mkT3 1 1 2 (fun _ _ t => INR t) in
  exists m y,
    PatchEmbedding_init 2 2 1 1 (1 / 10) (const_linear_draw 1) = ok m /\
    PatchEmbedding_forward m Eval x = ok (y, 1) /\
    shape3 y = (1, 2, 2).
Proof.
  cbv zeta.
  destruct (PatchEmbedding_init_ok 2 2 1 1 (1 / 10) (const_linear_draw 1)
              eq_refl) as (m & Hm); [lra |].
  destruct (proj2 (PatchEmbedding_forward_spec 2 2 1 1 (1 / 10)
                     (const_linear_draw 1) m Eval
                     (mkT3 1 1 2 (fun _ _ t => INR t)) 1 1 2 Hm eq_refl))
    as (pre & Hf & Hs & _);
    [lia | lia | lia | lia | unfold default_max_len; cbn; lia |].
  exists m. eexists. split; [exact Hm |]. split; [exact Hf | exact Hs].
Defined.

(** C4 fails as stated: with [patch_len = 16], [stride = 8] and
    [padding = 8], an input of shape [1, 1, 4] padded to length 12 is
    shorter than a patch, no window can be cut and [forward] raises. *)
Lemma PatchEmbedding_forward_short_input :
  let x := mkT3 1 1 4 (fun _ _ t => INR t) in
  exists m,
    PatchEmbedding_init 2 16 8 8 (1 / 10) (const_linear_draw 1) = ok m /\
    shape3 x = (1, 1, 4) /\
    PatchEmbedding_forward m Eval x = raise RuntimeError /\
    ~ (exists y n, PatchEmbedding_forward m Eval x = ok (y, n)).
Proof.
  cbv zeta.
  destruct (PatchEmbedding_init_ok 2 16 8 8 (1 / 10) (const_linear_draw 1)
              eq_refl) as (m & Hm); [lra |].
  exists m. split; [exact Hm |]. split; [reflexivity |].
  destruct (PatchEmbedding_init_inv _ _ _ _ _ _ _ Hm) as (pos & _ & ->).
  assert (H : PatchEmbedding_forward
                (mkPatchEmbedding 16 8 8
                   (Linear_init 16 2 false (const_linear_draw 1)) pos
                   (mkDropout (1 / 10)))
                Eval (mkT3 1 1 4 (fun _ _ t => INR t)) = raise RuntimeError)
    by reflexivity.
  split; [exact H |].
  intros (y & n & Hy). rewrite H in Hy. discriminate Hy.
Qed.

(** ** The temporal sub-module of the composed embeddings *)

Lemma TemporalModule_forward_ok (d_model : nat) (embed_type freq : string)
  (rt : TemporalDraw) (rf : LinearDraw) (tm : TemporalModule)
  (x_mark : Tensor3 R) :
  TemporalModule_init d_model embed_type freq rt rf = ok tm ->
  temporal_input embed_type freq x_mark ->
  exists T, TemporalModule_forward tm x_mark = ok T /\
            shape3 T = (dim0 x_mark, dim1 x_mark, d_model).
Proof.
  unfold TemporalModule_init, temporal_input.
  destruct (String.eqb embed_type "timeF"); cbn [negb]; intros H Hin.
  - bind_inv H as m Hm. apply ok_inj in H. subst tm.
    unfold TimeFeatureEmbedding_init in Hm. bind_inv Hm as n Hn.
    apply ok_inj in Hm. subst m. rewrite Hin in Hn. apply ok_inj in Hn.
    subst n. cbn [TemporalModule_forward].
    unfold TimeFeatureEmbedding_forward. cbn [embed].
    rewrite Linear_forward3_ok by reflexivity.
    eexists. split; reflexivity.
  - bind_inv H as m Hm. apply ok_inj in H. subst tm.
    cbn [TemporalModule_forward].
    destruct (TemporalEmbedding_forward_ok d_model embed_type freq rt m
                x_mark Hm Hin) as (y & Hy & Hs & _).
    exists y. split; assumption.
Qed.

(** ** The prompt projector *)

Lemma Linear_forward2_ok (l : Linear) (x : Tensor2 R) :
  cols2 x = in_features l ->
  Linear_forward2 l x =
  ok (mkT2 (rows2 x) (out_features l) (fun b o => affine l (get2 x b) o)).
Proof.
  intros H. unfold Linear_forward2. rewrite H, Nat.eqb_refl. reflexivity.
Qed.

Lemma prepare_prompt_mlp (d_model nvt exo_dim hidden : nat)
  (r1 r2 : LinearDraw) (exo_prompt : Tensor2 R) (l : nat) :
  cols2 exo_prompt = exo_dim -> 1 <= nvt ->
  prepare_prompt "two_layer_mlp"
    (Some (mlp_projector d_model nvt exo_dim hidden r1 r2)) nvt exo_prompt l
  = ok (Prompt3
          (mkT3 (rows2 exo_prompt) nvt d_model
             (virtual_token (mlp_projector d_model nvt exo_dim hidden r1 r2)
                exo_prompt d_model))).
Proof.
  intros Hc Hn. unfold prepare_prompt. cbn [in_list existsb String.eqb].
  change (in_list "two_layer_mlp" ["brute_concat"%string]) with false.
  change (in_list "two_layer_mlp" ["two_layer_mlp"%string]) with true.
  cbv iota. unfold Sequential_forward, mlp_projector. cbn [fc1 fc2].
  rewrite Linear_forward2_ok by exact Hc. cbn [bind ok].
  rewrite Linear_forward2_ok by reflexivity. cbn [bind ok].
  unfold rearrange_bld. cbn [rows2 cols2 get2 Linear_init out_features].
  destruct (Nat.eqb_spec nvt 0) as [-> | _]; [lia |].
  rewrite Nat.Div0.mod_mul, Nat.eqb_refl, Nat.div_mul by lia.
  cbn [bind ok]. reflexivity.
Qed.

Lemma prepare_prompt_brute (s : option Sequential) (nvt : nat)
  (exo_prompt : Tensor2 R) (l : nat) :
  prepare_prompt "brute_concat" s nvt exo_prompt l
  = ok (Prompt3 (repeat_blv exo_prompt l)).
Proof. reflexivity. Qed.

(** ** DataEmbeddingWithExoPromptTuning *)

Lemma cat1_ok (x y : Tensor3 R) :
  dim0 x = dim0 y -> dim2 x = dim2 y ->
  cat1 x y =
  ok (mkT3 (dim0 x) (dim1 x + dim1 y) (dim2 x)
           (fun b l d => if l <? dim1 x then get3 x b l d
                         else get3 y b (l - dim1 x) d)).
Proof.
  intros H0 H2. unfold cat1. rewrite H0, H2, !Nat.eqb_refl. reflexivity.
Qed.

Lemma cat2_ok (x y : Tensor3 R) :
  dim0 x = dim0 y -> dim1 x = dim1 y ->
  cat2 x y =
  ok (mkT3 (dim0 x) (dim1 x) (dim2 x + dim2 y)
           (fun b l d => if d <? dim2 x then get3 x b l d
                         else get3 y b l (d - dim2 x))).
Proof.
  intros H0 H1. unfold cat2. rewrite H0, H1, !Nat.eqb_refl. reflexivity.
Qed.

Lemma Exo_init_inv (tv : Version) (c_in d_model : nat)
  (embed_type freq : string) (p : R) (ptt : string)
  (nvt exo_dim hidden : nat) (r : ExoDraw)
  (m : DataEmbeddingWithExoPromptTuning) :
  DataEmbeddingWithExoPromptTuning_init tv c_in d_model embed_type freq p ptt
    nvt exo_dim hidden r = ok m ->
  exists proj pos tm,
    projector_init ptt d_model nvt exo_dim hidden (draw_fc1 r) (draw_fc2 r)
    = ok proj /\
    PositionalEmbedding_init d_model default_max_len = ok pos /\
    TemporalModule_init d_model embed_type freq (draw_temporal r)
      (draw_timeF r) = ok tm /\
    m = mkExo ptt nvt exo_dim proj hidden
          (TokenEmbedding_init tv
             (if negb (in_list ptt ["brute_concat"%string]) then c_in
              else c_in + exo_dim) d_model (draw_conv r))
          pos tm (mkDropout p).
Proof.
  unfold DataEmbeddingWithExoPromptTuning_init. intros H.
  bind_inv H as proj Hproj. bind_inv H as pos Hpos. bind_inv H as tm Htm.
  bind_inv H as dr Hdr. apply Dropout_init_inv in Hdr. destruct Hdr as [-> _].
  apply ok_inj in H. subst m. exists proj, pos, tm.
  repeat (split; [assumption |]). reflexivity.
Qed.

Lemma temporal_value_ok (tm : TemporalModule) (x_mark T : Tensor3 R)
  (b l d : nat) :
  TemporalModule_forward tm x_mark = ok T ->
  temporal_value tm x_mark b l d = get3 T b l d.
Proof. unfold temporal_value. intros ->. reflexivity. Qed.

(** Well-shaped inputs of the plain variant: a series [B, L, c_in], a
    prompt [B, exo_dim] and, when present, a calendar input [B, L, _] that
    the temporal sub-module accepts. *)
Section PlainVariant.

Variables (tv : Version) (c_in d_model : nat) (embed_type freq : string).
Variables (p : R) (nvt exo_dim hidden : nat) (r : ExoDraw).
Variables (mode : Mode) (x : Tensor3 R) (x_mark : option (Tensor3 R)).
Variables (exo_prompt : Tensor2 R) (B L : nat).

Hypothesis torch_version_ok : version_ge tv [1; 5; 0] = true.
Hypothesis shape_x : shape3 x = (B, L, c_in).
Hypothesis shape_prompt : shape2 exo_prompt = (B, exo_dim).
Hypothesis length_pos : 1 <= L.
Hypothesis shape_mark :
  forall xm, x_mark = Some xm ->
    dim0 xm = B /\ dim1 xm = L /\ temporal_input embed_type freq xm.

Lemma Exo_forward_mlp (m : DataEmbeddingWithExoPromptTuning) :
  DataEmbeddingWithExoPromptTuning_init tv c_in d_model embed_type freq p
    "two_layer_mlp" nvt exo_dim hidden r = ok m ->
  1 <= nvt -> nvt + L <= default_max_len ->
  1 <= c_in ->
  exists pre,
    DataEmbeddingWithExoPromptTuning_forward m mode x x_mark exo_prompt
    = ok (Dropout_forward (dropout m) mode pre) /\
    shape3 pre = (B, nvt + L, d_model) /\
    forall b l d, b < B -> l < nvt + L -> d < d_model ->
      get3 pre b l d =
      ((if l <? nvt
        then virtual_token
               (mlp_projector d_model nvt exo_dim hidden
                  (draw_fc1 r) (draw_fc2 r)) exo_prompt d_model b l d
        else circular_conv (draw_conv r) x c_in L b (l - nvt) d)
       + sinusoid d_model l d
       + match x_mark with
         | None => 0
         | Some xm =>
             if l <? nvt then 0
             else temporal_value (temporal_embedding m) xm b (l - nvt) d
         end)%R.
Proof.
  intros Hinit Hn Hmax Hcin.
  pose proof torch_version_ok as Hv. pose proof shape_x as Hx.
  pose proof shape_prompt as Hexo. pose proof length_pos as HL.
  pose proof shape_mark as Hmark.
  destruct (Exo_init_inv _ _ _ _ _ _ _ _ _ _ _ _ Hinit)
    as (proj & pos & tm & Hproj & Hpos & Htm & ->).
  change (projector_init "two_layer_mlp" d_model nvt exo_dim hidden
            (draw_fc1 r) (draw_fc2 r))
    with (ok (Some (mlp_projector d_model nvt exo_dim hidden
                      (draw_fc1 r) (draw_fc2 r)))) in Hproj.
  apply ok_inj in Hproj. subst proj.
  destruct (PositionalEmbedding_init_inv _ _ _ Hpos) as (Hd0 & Hps & Hpg).
  unfold shape3 in Hps. injection Hps as P0 P1 P2.
  unfold shape2 in Hexo. injection Hexo as E0 E1.
  destruct (TokenEmbedding_forward_ok tv c_in d_model (draw_conv r) x B L
              Hv ltac:(lia) Hx HL Hcin) as (Tk & HTk & HsTk & HgTk).
  unfold shape3 in HsTk. injection HsTk as K0 K1 K2.
  unfold DataEmbeddingWithExoPromptTuning_forward.
  cbn [prompt_tuning_type num_virtual_tokens exo_prompt_projector
       value_embedding position_embedding temporal_embedding dropout].
  rewrite prepare_prompt_mlp by assumption. cbn [bind ok].
  change (in_list "two_layer_mlp" ["brute_concat"%string]) with false.
  cbn [negb]. cbv iota. rewrite HTk. cbn [bind ok as_rank3 zeros_like_prompt].
  rewrite cat1_ok by (cbn [dim0 dim2]; congruence).
  cbn [bind ok dim0 dim1 dim2].
  match goal with
  | |- context [add3 ?a (PositionalEmbedding_forward pos ?a)] =>
      destruct (add3_row a (PositionalEmbedding_forward pos a))
        as (z & Hz & Hzs & Hzg)
  end.
  { exact P0. }
  { cbn [PositionalEmbedding_forward dim1]. rewrite P1, K1. lia. }
  { cbn [PositionalEmbedding_forward dim2]. rewrite P2. reflexivity. }
  unfold shape3 in Hzs. cbn [dim0 dim1 dim2] in Hzs, Hzg.
  injection Hzs as Z0 Z1 Z2. rewrite E0, K1 in *.
  destruct x_mark as [xm |].
  - destruct (Hmark xm eq_refl) as (M0 & M1 & Hin).
    destruct (TemporalModule_forward_ok _ _ _ _ _ _ _ Htm Hin)
      as (T & HT & HsT).
    unfold shape3 in HsT. injection HsT as T0 T1 T2.
    rewrite Hz. cbn [bind ok]. rewrite HT. cbn [bind ok].
    rewrite cat1_ok by (cbn [zeros_like3 dim0 dim2]; congruence).
    cbn [bind ok zeros_like3 dim0 dim1 dim2 get3].
    match goal with
    | |- context [add3 z ?t] =>
        destruct (add3_same z t) as (y & Hy & Hys & Hyg)
    end.
    { unfold shape3. cbn [dim0 dim1 dim2]. congruence. }
    rewrite Hy. exists y. split; [reflexivity |].
    rewrite Hys. unfold shape3. split; [congruence |].
    intros b l d Hb Hl Hd.
    rewrite Hyg, Hzg by lia. cbn [get3 PositionalEmbedding_forward].
    rewrite Hpg by lia.
    rewrite (temporal_value_ok _ _ _ _ _ _ HT).
    destruct (Nat.ltb_spec l nvt) as [Hlt | Hge]; [reflexivity |].
    rewrite HgTk by lia. reflexivity.
  - rewrite Hz. cbn [bind ok]. exists z. split; [reflexivity |].
    unfold shape3. split; [congruence |].
    intros b l d Hb Hl Hd. rewrite Hzg by lia.
    cbn [get3 PositionalEmbedding_forward]. rewrite Hpg by lia.
    rewrite Rplus_0_r.
    destruct (Nat.ltb_spec l nvt) as [Hlt | Hge]; [reflexivity |].
    rewrite HgTk by lia. reflexivity.
Qed.

Lemma affine_ext (l : Linear) (row row' : nat -> R) (o : nat) :
  (forall i, i < in_features l -> row i = row' i) ->
  affine l row o = affine l row' o.
Proof.
  intros H. unfold affine. f_equal. apply Rsum_ext.
  intros i Hi. rewrite H by exact Hi. reflexivity.
Qed.

Lemma Exo_forward_brute (m : DataEmbeddingWithExoPromptTuning) :
  DataEmbeddingWithExoPromptTuning_init tv c_in d_model embed_type freq p
    "brute_concat" nvt exo_dim hidden r = ok m ->
  L <= default_max_len ->
  1 <= c_in + exo_dim ->
  in_channels (tokenConv (value_embedding m)) = c_in + exo_dim /\
  exists pre,
    DataEmbeddingWithExoPromptTuning_forward m mode x x_mark exo_prompt
    = ok (Dropout_forward (dropout m) mode pre) /\
    shape3 pre = (B, L, d_model) /\
    forall b l d, b < B -> l < L -> d < d_model ->
      get3 pre b l d =
      (circular_conv (draw_conv r) (prompt_then_input exo_prompt x)
         (c_in + exo_dim) L b l d
       + sinusoid d_model l d
       + match x_mark with
         | None => 0
         | Some xm => temporal_value (temporal_embedding m) xm b l d
         end)%R.
Proof.
  intros Hinit Hmax Hcin.
  pose proof torch_version_ok as Hv. pose proof shape_x as Hx.
  pose proof shape_prompt as Hexo. pose proof length_pos as HL.
  pose proof shape_mark as Hmark.
  destruct (Exo_init_inv _ _ _ _ _ _ _ _ _ _ _ _ Hinit)
    as (proj & pos & tm & Hproj & Hpos & Htm & ->).
  change (in_list "brute_concat" ["brute_concat"%string]) with true.
  cbn [negb]. cbv iota. split; [reflexivity |].
  destruct (PositionalEmbedding_init_inv _ _ _ Hpos) as (Hd0 & Hps & Hpg).
  unfold shape3 in Hps. injection Hps as P0 P1 P2.
  unfold shape2 in Hexo. injection Hexo as E0 E1.
  pose proof Hx as Hx'. unfold shape3 in Hx'. injection Hx' as X0 X1 X2.
  destruct (TokenEmbedding_forward_ok tv (c_in + exo_dim) d_model
              (draw_conv r) (prompt_then_input exo_prompt x) B L Hv
              ltac:(lia))
    as (Tk & HTk & HsTk & HgTk); [| exact HL | exact Hcin |].
  { unfold shape3, prompt_then_input. cbn [dim0 dim1 dim2].
    rewrite X0, X1, X2, E1. f_equal. apply Nat.add_comm. }
  unfold shape3 in HsTk. injection HsTk as K0 K1 K2.
  unfold DataEmbeddingWithExoPromptTuning_forward.
  cbn [prompt_tuning_type num_virtual_tokens exo_prompt_projector
       value_embedding position_embedding temporal_embedding dropout].
  rewrite prepare_prompt_brute. cbn [bind ok].
  change (in_list "brute_concat" ["brute_concat"%string]) with true.
  cbn [negb]. cbv iota. cbn [bind ok as_rank3].
  rewrite cat2_ok by (cbn [repeat_blv dim0 dim1]; congruence).
  cbn [bind ok repeat_blv dim0 dim1 dim2 get3].
  change (mkT3 (rows2 exo_prompt) (dim1 x) (cols2 exo_prompt + dim2 x)
            (fun b l d => if d <? cols2 exo_prompt then get2 exo_prompt b d
                          else get3 x b l (d - cols2 exo_prompt)))
    with (mkT3 (rows2 exo_prompt) (dim1 x) (cols2 exo_prompt + dim2 x)
            (get3 (prompt_then_input exo_prompt x))).
  rewrite E0, <- X0.
  change (mkT3 (dim0 x) (dim1 x) (cols2 exo_prompt + dim2 x)
            (get3 (prompt_then_input exo_prompt x)))
    with (prompt_then_input exo_prompt x).
  rewrite HTk. cbn [bind ok].
  destruct (add3_row Tk (PositionalEmbedding_forward pos Tk))
    as (z & Hz & Hzs & Hzg).
  { exact P0. }
  { cbn [PositionalEmbedding_forward dim1]. rewrite P1, K1. lia. }
  { cbn [PositionalEmbedding_forward dim2]. rewrite P2. congruence. }
  unfold shape3 in Hzs. injection Hzs as Z0 Z1 Z2.
  rewrite K0, K1, K2 in *.
  destruct x_mark as [xm |].
  - destruct (Hmark xm eq_refl) as (M0 & M1 & Hin).
    destruct (TemporalModule_forward_ok _ _ _ _ _ _ _ Htm Hin)
      as (T & HT & HsT).
    unfold shape3 in HsT. injection HsT as T0 T1 T2.
    rewrite Hz. cbn [bind ok]. rewrite HT. cbn [bind ok].
    destruct (add3_same z T) as (y & Hy & Hys & Hyg).
    { unfold shape3. congruence. }
    rewrite Hy. exists y. split; [reflexivity |].
    rewrite Hys. unfold shape3. split; [congruence |].
    intros b l d Hb Hl Hd.
    rewrite Hyg, Hzg by lia. cbn [get3 PositionalEmbedding_forward].
    rewrite Hpg, HgTk by lia.
    rewrite (temporal_value_ok _ _ _ _ _ _ HT). reflexivity.
  - rewrite Hz. cbn [bind ok]. exists z. split; [reflexivity |].
    unfold shape3. split; [congruence |].
    intros b l d Hb Hl Hd. rewrite Hzg by lia.
    cbn [get3 PositionalEmbedding_forward]. rewrite Hpg, HgTk by lia.
    rewrite Rplus_0_r. reflexivity.
Qed.

End PlainVariant.

(** ** DataEmbedding_inverted_WithExoPromptTuning *)

Lemma InvExo_init_inv (c_in d_model : nat) (embed_type freq : string)
  (p : R) (ptt : string) (nvt exo_dim hidden : nat) (r : InvExoDraw)
  (m : DataEmbedding_inverted_WithExoPromptTuning) :
  DataEmbedding_inverted_WithExoPromptTuning_init c_in d_model embed_type
    freq p ptt nvt exo_dim hidden r = ok m ->
  exists proj,
    projector_init ptt d_model nvt exo_dim hidden
      (inv_draw_fc1 r) (inv_draw_fc2 r) = ok proj /\
    m = mkInvExo ptt nvt exo_dim proj hidden
          (Linear_init
             (if negb (in_list ptt ["brute_concat"%string]) then c_in
              else c_in + exo_dim) d_model true (inv_draw_value r))
          (mkDropout p).
Proof.
  unfold DataEmbedding_inverted_WithExoPromptTuning_init. intros H.
  bind_inv H as proj Hproj. bind_inv H as dr Hdr.
  apply Dropout_init_inv in Hdr. destruct Hdr as [-> _].
  apply ok_inj in H. subst m. exists proj. split; [assumption | reflexivity].
Qed.

Lemma pad_right3_to (x : Tensor3 R) (n : nat) :
  pad_right3 x (Z.of_nat n - Z.of_nat (dim2 x)) =
  ok (mkT3 (dim0 x) (dim1 x) n
           (fun b l d => if d <? dim2 x then get3 x b l d else 0%R)).
Proof.
  unfold pad_right3.
  replace (Z.of_nat (dim2 x) + (Z.of_nat n - Z.of_nat (dim2 x)))%Z
    with (Z.of_nat n) by lia.
  destruct (Z.ltb_spec (Z.of_nat n) 0) as [H | _]; [lia |].
  rewrite Nat2Z.id. reflexivity.
Qed.

(** Well-shaped inputs of the inverted variant: a series [B, c_in, V] (the
    module projects the time axis, of length [c_in]), a prompt
    [B, exo_dim] and, when present, a calendar input [B, c_in, _]. *)
Section InvertedVariant.

Variables (c_in d_model : nat) (embed_type freq : string).
Variables (p : R) (nvt exo_dim hidden : nat) (r : InvExoDraw).
Variables (mode : Mode) (x : Tensor3 R) (x_mark : option (Tensor3 R)).
Variables (exo_prompt : Tensor2 R) (B V : nat).

Hypothesis shape_x : shape3 x = (B, c_in, V).
Hypothesis shape_prompt : shape2 exo_prompt = (B, exo_dim).
Hypothesis shape_mark :
  forall xm, x_mark = Some xm -> dim0 xm = B /\ dim1 xm = c_in.

Lemma InvExo_forward_mlp (m : DataEmbedding_inverted_WithExoPromptTuning) :
  DataEmbedding_inverted_WithExoPromptTuning_init c_in d_model embed_type
    freq p "two_layer_mlp" nvt exo_dim hidden r = ok m ->
  1 <= nvt ->
  let rows := V + mark_features x_mark in
  exists pre,
    DataEmbedding_inverted_WithExoPromptTuning_forward m mode x x_mark
      exo_prompt = ok (Dropout_forward (inv_dropout m) mode pre) /\
    shape3 pre = (B, rows + nvt, d_model) /\
    forall b l d, b < B -> l < rows + nvt -> d < d_model ->
      get3 pre b l d =
      if l <? rows
      then affine (inv_value_embedding m) (variate_row x x_mark b l) d
      else virtual_token
             (mlp_projector d_model nvt exo_dim hidden
                (inv_draw_fc1 r) (inv_draw_fc2 r))
             exo_prompt d_model b (l - rows) d.
Proof.
  intros Hinit Hn. cbv zeta.
  pose proof shape_x as Hx. pose proof shape_prompt as Hexo.
  pose proof shape_mark as Hmark.
  destruct (InvExo_init_inv _ _ _ _ _ _ _ _ _ _ _ Hinit)
    as (proj & Hproj & ->).
  change (projector_init "two_layer_mlp" d_model nvt exo_dim hidden
            (inv_draw_fc1 r) (inv_draw_fc2 r))
    with (ok (Some (mlp_projector d_model nvt exo_dim hidden
                      (inv_draw_fc1 r) (inv_draw_fc2 r)))) in Hproj.
  apply ok_inj in Hproj. subst proj.
  change (in_list "two_layer_mlp" ["brute_concat"%string]) with false.
  cbn [negb]. cbv iota.
  unfold shape3 in Hx. injection Hx as X0 X1 X2.
  unfold shape2 in Hexo. injection Hexo as E0 E1.
  unfold DataEmbedding_inverted_WithExoPromptTuning_forward.
  cbn [inv_prompt_tuning_type inv_num_virtual_tokens
       inv_exo_prompt_projector inv_value_embedding inv_dropout].
  rewrite prepare_prompt_mlp by assumption. cbn [bind ok].
  change (in_list "two_layer_mlp" ["brute_concat"%string]) with false.
  cbv iota.
  destruct x_mark as [xm |]; cbn [mark_features].
  - destruct (Hmark xm eq_refl) as (M0 & M1).
    rewrite cat1_ok by (cbn [permute021 dim0 dim2]; congruence).
    cbn [bind ok].
    rewrite Linear_forward3_ok
      by (cbn [permute021 dim0 dim1 dim2 Linear_init in_features];
          congruence).
    cbn [bind ok as_rank3].
    rewrite cat1_ok
      by (cbn [permute021 dim0 dim1 dim2 Linear_init out_features];
          congruence).
    cbn [permute021 dim0 dim1 dim2 get3 Linear_init out_features].
    eexists. split; [reflexivity |].
    unfold shape3. cbn [dim0 dim1 dim2]. rewrite X0, X2.
    split; [reflexivity |].
    intros b l d Hb Hl Hd. cbn [get3].
    destruct (Nat.ltb_spec l (V + dim2 xm)) as [Hlt | Hge]; [| reflexivity].
    apply affine_ext. intros i Hi. unfold variate_row. rewrite X2.
    reflexivity.
  - rewrite Linear_forward3_ok
      by (cbn [permute021 dim0 dim1 dim2 Linear_init in_features];
          congruence).
    cbn [bind ok as_rank3].
    rewrite cat1_ok
      by (cbn [permute021 dim0 dim1 dim2 Linear_init out_features];
          congruence).
    cbn [permute021 dim0 dim1 dim2 get3 Linear_init out_features].
    eexists. split; [reflexivity |].
    unfold shape3. cbn [dim0 dim1 dim2]. rewrite X0, X2, Nat.add_0_r.
    split; [reflexivity |].
    intros b l d Hb Hl Hd. cbn [get3].
    destruct (Nat.ltb_spec l V) as [Hlt | Hge]; [| reflexivity].
    apply affine_ext. intros i Hi. unfold variate_row. rewrite X2.
    destruct (Nat.ltb_spec l V) as [_ | Hge]; [reflexivity | lia].
Qed.

Lemma InvExo_forward_brute (m : DataEmbedding_inverted_WithExoPromptTuning) :
  DataEmbedding_inverted_WithExoPromptTuning_init c_in d_model embed_type
    freq p "brute_concat" nvt exo_dim hidden r = ok m ->
  in_features (inv_value_embedding m) = c_in + exo_dim /\
  exists pre,
    DataEmbedding_inverted_WithExoPromptTuning_forward m mode x x_mark
      exo_prompt = ok (Dropout_forward (inv_dropout m) mode pre) /\
    shape3 pre = (B, V + mark_features x_mark, d_model) /\
    forall b l d, b < B -> l < V + mark_features x_mark -> d < d_model ->
      get3 pre b l d =
      affine (inv_value_embedding m)
             (variate_row_with_prompt exo_prompt x x_mark c_in b l) d.
Proof.
  intros Hinit.
  pose proof shape_x as Hx. pose proof shape_prompt as Hexo.
  pose proof shape_mark as Hmark.
  destruct (InvExo_init_inv _ _ _ _ _ _ _ _ _ _ _ Hinit)
    as (proj & Hproj & ->).
  change (in_list "brute_concat" ["brute_concat"%string]) with true.
  cbn [negb]. cbv iota. split; [reflexivity |].
  unfold shape3 in Hx. injection Hx as X0 X1 X2.
  unfold shape2 in Hexo. injection Hexo as E0 E1.
  unfold DataEmbedding_inverted_WithExoPromptTuning_forward.
  cbn [inv_prompt_tuning_type inv_num_virtual_tokens
       inv_exo_prompt_projector inv_value_embedding inv_dropout].
  rewrite prepare_prompt_brute. cbn [bind ok].
  change (in_list "brute_concat" ["brute_concat"%string]) with true.
  cbv iota. cbn [bind ok as_rank3].
  rewrite cat2_ok by (cbn [permute021 repeat_blv dim0 dim1]; congruence).
  cbn [bind ok].
  destruct x_mark as [xm |]; cbn [mark_features].
  - destruct (Hmark xm eq_refl) as (M0 & M1).
    cbn [dim2]. rewrite pad_right3_to. cbn [bind ok].
    rewrite cat1_ok by (cbn [permute021 dim0 dim2]; congruence).
    cbn [bind ok].
    rewrite Linear_forward3_ok
      by (cbn [permute021 repeat_blv dim0 dim1 dim2 Linear_init in_features];
          congruence).
    cbn [permute021 repeat_blv dim0 dim1 dim2 get3 Linear_init out_features].
    eexists. split; [reflexivity |].
    unfold shape3. cbn [dim0 dim1 dim2]. rewrite X0, X2.
    split; [reflexivity |].
    intros b l d Hb Hl Hd. cbn [get3].
    apply affine_ext. intros j Hj.
    unfold variate_row_with_prompt, variate_row. rewrite X1, X2, M1.
    destruct (Nat.ltb_spec l V); destruct (Nat.ltb_spec j c_in); reflexivity.
  - rewrite Linear_forward3_ok
      by (cbn [permute021 repeat_blv dim0 dim1 dim2 Linear_init in_features];
          congruence).
    cbn [permute021 repeat_blv dim0 dim1 dim2 get3 Linear_init out_features].
    eexists. split; [reflexivity |].
    unfold shape3. cbn [dim0 dim1 dim2]. rewrite X0, X2, Nat.add_0_r.
    split; [reflexivity |].
    intros b l d Hb Hl Hd. cbn [get3].
    apply affine_ext. intros j Hj.
    unfold variate_row_with_prompt, variate_row. rewrite X1, X2.
    destruct (Nat.ltb_spec l V) as [_ | Hge]; [| lia].
    destruct (Nat.ltb_spec j c_in); reflexivity.
Qed.

End InvertedVariant.

(** ** The two prompt policies *)

(** C1, amended. Under [two_layer_mlp], on well-shaped inputs:
    [DataEmbeddingWithExoPromptTuning.forward], for a series with at least
    one channel, concatenates the virtual tokens and the embedded sequence
    along the sequence axis, adds the positional embedding to the combined
    sequence and, for a calendar input, adds the temporal embedding of the
    real span padded with zeros over the [num_virtual_tokens] virtual
    positions.
    [DataEmbedding_inverted_WithExoPromptTuning.forward] concatenates the
    projected variate rows (the calendar features being extra rows) and
    the virtual tokens along the sequence axis, and adds neither a
    positional nor a temporal embedding. *)
Theorem two_layer_mlp_forward :
  (forall tv c_in d_model embed_type freq p nvt exo_dim hidden r m mode
          x x_mark exo_prompt B L,
      DataEmbeddingWithExoPromptTuning_init tv c_in d_model embed_type freq p
        "two_layer_mlp" nvt exo_dim hidden r = ok m ->
      version_ge tv [1; 5; 0] = true ->
      shape3 x = (B, L, c_in) ->
      shape2 exo_prompt = (B, exo_dim) ->
      1 <= L -> 1 <= nvt -> nvt + L <= default_max_len ->
      1 <= c_in ->
      (forall xm, x_mark = Some xm ->
         dim0 xm = B /\ dim1 xm = L /\ temporal_input embed_type freq xm) ->
      exists pre,
        DataEmbeddingWithExoPromptTuning_forward m mode x x_mark exo_prompt
        = ok (Dropout_forward (dropout m) mode pre) /\
        shape3 pre = (B, nvt + L, d_model) /\
        forall b l d, b < B -> l < nvt + L -> d < d_model ->
          get3 pre b l d =
          ((if l <? nvt
            then virtual_token
                   (mlp_projector d_model nvt exo_dim hidden
                      (draw_fc1 r) (draw_fc2 r)) exo_prompt d_model b l d
            else circular_conv (draw_conv r) x c_in L b (l - nvt) d)
           + sinusoid d_model l d
           + match x_mark with
             | None => 0
             | Some xm =>
                 if l <? nvt then 0
                 else temporal_value (temporal_embedding m) xm b (l - nvt) d
             end)%R) /\
  (forall c_in d_model embed_type freq p nvt exo_dim hidden r m mode
          x x_mark exo_prompt B V,
      DataEmbedding_inverted_WithExoPromptTuning_init c_in d_model embed_type
        freq p "two_layer_mlp" nvt exo_dim hidden r = ok m ->
      shape3 x = (B, c_in, V) ->
      shape2 exo_prompt = (B, exo_dim) ->
      1 <= nvt ->
      (forall xm, x_mark = Some xm -> dim0 xm = B /\ dim1 xm = c_in) ->
      let rows := V + mark_features x_mark in
      exists pre,
        DataEmbedding_inverted_WithExoPromptTuning_forward m mode x x_mark
          exo_prompt = ok (Dropout_forward (inv_dropout m) mode pre) /\
        shape3 pre = (B, rows + nvt, d_model) /\
        forall b l d, b < B -> l < rows + nvt -> d < d_model ->
          get3 pre b l d =
          if l <? rows
          then affine (inv_value_embedding m) (variate_row x x_mark b l) d
          else virtual_token
                 (mlp_projector d_model nvt exo_dim hidden
                    (inv_draw_fc1 r) (inv_draw_fc2 r))
                 exo_prompt d_model b (l - rows) d).
Proof.
  split.
  - intros. eapply Exo_forward_mlp; eassumption.
  - intros. eapply InvExo_forward_mlp; eassumption.
Qed.

(** C2. Under [brute_concat], on well-shaped inputs (for the plain
    module, at least one channel reaches the convolution:
    [1 <= c_in + exo_prompt_dim]): the value embedding
    takes [c_in + exo_prompt_dim] input channels; in
    [DataEmbeddingWithExoPromptTuning.forward] the prompt of the sample is
    repeated at every time step and concatenated with the raw channels
    before the convolution; in the inverted variant it is repeated for
    every variate and concatenated with the series of the variate before
    the linear projection. *)
Theorem brute_concat_forward :
  (forall tv c_in d_model embed_type freq p nvt exo_dim hidden r m mode
          x x_mark exo_prompt B L,
      DataEmbeddingWithExoPromptTuning_init tv c_in d_model embed_type freq p
        "brute_concat" nvt exo_dim hidden r = ok m ->
      version_ge tv [1; 5; 0] = true ->
      shape3 x = (B, L, c_in) ->
      shape2 exo_prompt = (B, exo_dim) ->
      1 <= L -> L <= default_max_len ->
      1 <= c_in + exo_dim ->
      (forall xm, x_mark = Some xm ->
         dim0 xm = B /\ dim1 xm = L /\ temporal_input embed_type freq xm) ->
      in_channels (tokenConv (value_embedding m)) = c_in + exo_dim /\
      exists pre,
        DataEmbeddingWithExoPromptTuning_forward m mode x x_mark exo_prompt
        = ok (Dropout_forward (dropout m) mode pre) /\
        shape3 pre = (B, L, d_model) /\
        forall b l d, b < B -> l < L -> d < d_model ->
          get3 pre b l d =
          (circular_conv (draw_conv r) (prompt_then_input exo_prompt x)
             (c_in + exo_dim) L b l d
           + sinusoid d_model l d
           + match x_mark with
             | None => 0
             | Some xm => temporal_value (temporal_embedding m) xm b l d
             end)%R) /\
  (forall c_in d_model embed_type freq p nvt exo_dim hidden r m mode
          x x_mark exo_prompt B V,
      DataEmbedding_inverted_WithExoPromptTuning_init c_in d_model embed_type
        freq p "brute_concat" nvt exo_dim hidden r = ok m ->
      shape3 x = (B, c_in, V) ->
      shape2 exo_prompt = (B, exo_dim) ->
      (forall xm, x_mark = Some xm -> dim0 xm = B /\ dim1 xm = c_in) ->
      in_features (inv_value_embedding m) = c_in + exo_dim /\
      exists pre,
        DataEmbedding_inverted_WithExoPromptTuning_forward m mode x x_mark
          exo_prompt = ok (Dropout_forward (inv_dropout m) mode pre) /\
        shape3 pre = (B, V + mark_features x_mark, d_model) /\
        forall b l d, b < B -> l < V + mark_features x_mark -> d < d_model ->
          get3 pre b l d =
          affine (inv_value_embedding m)
                 (variate_row_with_prompt exo_prompt x x_mark c_in b l) d).
Proof.
  split.
  - intros. eapply Exo_forward_brute; eassumption.
  - intros. eapply InvExo_forward_brute; eassumption.
Qed.

(** C9. Under [two_layer_mlp], on well-shaped inputs (for the plain
    module, a series with at least one channel):
    [DataEmbeddingWithExoPromptTuning.forward] puts the virtual tokens at
    the positions [0 .. num_virtual_tokens - 1], before the embedded real
    sequence; [DataEmbedding_inverted_WithExoPromptTuning.forward] puts them
    at the last [num_virtual_tokens] positions, after the embedded rows. *)
Theorem virtual_token_placement :
  (forall tv c_in d_model embed_type freq p nvt exo_dim hidden r m mode
          x x_mark exo_prompt B L,
      DataEmbeddingWithExoPromptTuning_init tv c_in d_model embed_type freq p
        "two_layer_mlp" nvt exo_dim hidden r = ok m ->
      version_ge tv [1; 5; 0] = true ->
      shape3 x = (B, L, c_in) ->
      shape2 exo_prompt = (B, exo_dim) ->
      1 <= L -> 1 <= nvt -> nvt + L <= default_max_len ->
      1 <= c_in ->
      (forall xm, x_mark = Some xm ->
         dim0 xm = B /\ dim1 xm = L /\ temporal_input embed_type freq xm) ->
      exists pre,
        DataEmbeddingWithExoPromptTuning_forward m mode x x_mark exo_prompt
        = ok (Dropout_forward (dropout m) mode pre) /\
        dim1 pre = nvt + L /\
        (forall b l d, b < B -> l < nvt -> d < d_model ->
           get3 pre b l d =
           (virtual_token
              (mlp_projector d_model nvt exo_dim hidden
                 (draw_fc1 r) (draw_fc2 r)) exo_prompt d_model b l d
            + sinusoid d_model l d)%R) /\
        (forall b l d, b < B -> l < L -> d < d_model ->
           get3 pre b (nvt + l) d =
           (circular_conv (draw_conv r) x c_in L b l d
            + sinusoid d_model (nvt + l) d
            + match x_mark with
              | None => 0
              | Some xm => temporal_value (temporal_embedding m) xm b l d
              end)%R)) /\
  (forall c_in d_model embed_type freq p nvt exo_dim hidden r m mode
          x x_mark exo_prompt B V,
      DataEmbedding_inverted_WithExoPromptTuning_init c_in d_model embed_type
        freq p "two_layer_mlp" nvt exo_dim hidden r = ok m ->
      shape3 x = (B, c_in, V) ->
      shape2 exo_prompt = (B, exo_dim) ->
      1 <= nvt ->
      (forall xm, x_mark = Some xm -> dim0 xm = B /\ dim1 xm = c_in) ->
      let rows := V + mark_features x_mark in
      exists pre,
        DataEmbedding_inverted_WithExoPromptTuning_forward m mode x x_mark
          exo_prompt = ok (Dropout_forward (inv_dropout m) mode pre) /\
        dim1 pre = rows + nvt /\
        (forall b l d, b < B -> l < rows -> d < d_model ->
           get3 pre b l d =
           affine (inv_value_embedding m) (variate_row x x_mark b l) d) /\
        (forall b l d, b < B -> l < nvt -> d < d_model ->
           get3 pre b (rows + l) d =
           virtual_token
             (mlp_projector d_model nvt exo_dim hidden
                (inv_draw_fc1 r) (inv_draw_fc2 r))
             exo_prompt d_model b l d)).
Proof.
  split.
  - intros tv c_in d_model embed_type freq p nvt exo_dim hidden r m mode
           x x_mark exo_prompt B L Hinit Hv Hx Hexo HL Hn Hmax Hcin Hmark.
    destruct (Exo_forward_mlp tv c_in d_model embed_type freq p nvt exo_dim
                hidden r mode x x_mark exo_prompt B L
                Hv Hx Hexo HL Hmark m Hinit Hn Hmax Hcin)
      as (pre & Hf & Hs & Hg).
    exists pre. split; [exact Hf |].
    unfold shape3 in Hs. injection Hs as S0 S1 S2.
    split; [exact S1 |]. split.
    + intros b l d Hb Hl Hd. rewrite Hg by lia.
      destruct (Nat.ltb_spec l nvt) as [_ | Hge]; [| lia].
      destruct x_mark; ring.
    + intros b l d Hb Hl Hd. rewrite Hg by lia.
      destruct (Nat.ltb_spec (nvt + l) nvt) as [Hlt | _]; [lia |].
      replace (nvt + l - nvt) with l by lia. reflexivity.
  - intros c_in d_model embed_type freq p nvt exo_dim hidden r m mode
           x x_mark exo_prompt B V Hinit Hx Hexo Hn Hmark. cbv zeta.
    destruct (InvExo_forward_mlp c_in d_model embed_type freq p nvt exo_dim
                hidden r mode x x_mark exo_prompt B V
                Hx Hexo Hmark m Hinit Hn) as (pre & Hf & Hs & Hg).
    cbv zeta in Hs, Hg.
    exists pre. split; [exact Hf |].
    unfold shape3 in Hs. injection Hs as S0 S1 S2.
    split; [exact S1 |]. split.
    + intros b l d Hb Hl Hd. rewrite Hg by lia.
      destruct (Nat.ltb_spec l (V + mark_features x_mark)) as [_ | Hge];
        [reflexivity | lia].
    + intros b l d Hb Hl Hd. rewrite Hg by lia.
      destruct (Nat.ltb_spec (V + mark_features x_mark + l)
                  (V + mark_features x_mark)) as [Hlt | _]; [lia |].
      replace (V + mark_features x_mark + l - (V + mark_features x_mark))
        with l by lia.
      reflexivity.
Qed.

Lemma Exo_init_ok (tv : Version) (c_in d_model : nat)
  (embed_type freq : string) (p : R) (ptt : string)
  (nvt exo_dim hidden : nat) (r : ExoDraw) :
  in_list ptt policies = true ->
  (0 <= p <= 1)%R ->
  d_model_ok d_model = true ->
  (String.eqb embed_type "timeF" = true -> in_list freq freq_codes = true) ->
  exists m, DataEmbeddingWithExoPromptTuning_init tv c_in d_model embed_type
              freq p ptt nvt exo_dim hidden r = ok m.
Proof.
  intros H Hp Hd Hf. unfold DataEmbeddingWithExoPromptTuning_init.
  destruct (projector_init_ok ptt d_model nvt exo_dim hidden
              (draw_fc1 r) (draw_fc2 r) H) as (s & ->).
  cbn [bind ok].
  destruct (PositionalEmbedding_init_ok _ default_max_len Hd) as (pos & ->).
  cbn [bind ok].
  destruct (TemporalModule_init_ok _ embed_type freq (draw_temporal r)
              (draw_timeF r) Hd Hf) as (tm & ->).
  cbn [bind ok]. rewrite Dropout_init_ok by exact Hp. cbn [bind ok].
  eexists. reflexivity.
Qed.

Lemma InvExo_init_ok (c_in d_model : nat) (embed_type freq : string)
  (p : R) (ptt : string) (nvt exo_dim hidden : nat) (r : InvExoDraw) :
  in_list ptt policies = true ->
  (0 <= p <= 1)%R ->
  exists m, DataEmbedding_inverted_WithExoPromptTuning_init c_in d_model
              embed_type freq p ptt nvt exo_dim hidden r = ok m.
Proof.
  intros H Hp. unfold DataEmbedding_inverted_WithExoPromptTuning_init.
  destruct (projector_init_ok ptt d_model nvt exo_dim hidden
              (inv_draw_fc1 r) (inv_draw_fc2 r) H) as (s & ->).
  cbn [bind ok]. rewrite Dropout_init_ok by exact Hp. cbn [bind ok].
  eexists. reflexivity.
Qed.

(** A sequence of two time steps of one channel, with time features of the
    hourly frequency, and a prompt of one number. *)
Lemma two_layer_mlp_forward_witness :
  let x := mkT3 1 2 1 (fun _ l _ => INR l) in
  let x_mark := Some (mkT3 1 2 4 (fun _ _ _ => 0%R)) in
  let exo_prompt := mkT2 1 1 (fun _ _ => 1%R) in
  exists m y,
    DataEmbeddingWithExoPromptTuning_init [2; 1; 0] 1 2 "timeF" "h" (1 / 10)
      "two_layer_mlp" 1 1 1 (const_exo_draw 1) = ok m /\
    DataEmbeddingWithExoPromptTuning_forward m Eval x x_mark exo_prompt
    = ok y /\
    shape3 y = (1, 3, 2).
Proof.
  cbv zeta.
  destruct (Exo_init_ok [2; 1; 0] 1 2 "timeF" "h" (1 / 10) "two_layer_mlp"
              1 1 1 (const_exo_draw 1) eq_refl) as (m & Hm);
    [lra | reflexivity | reflexivity |].
  destruct (proj1 two_layer_mlp_forward [2; 1; 0] 1 2 "timeF"%string "h"%string
              (1 / 10)%R
              1 1 1 (const_exo_draw 1) m Eval
              (mkT3 1 2 1 (fun _ l _ => INR l))
              (Some (mkT3 1 2 4 (fun _ _ _ => 0%R)))
              (mkT2 1 1 (fun _ _ => 1%R)) 1 2 Hm)
    as (pre & Hf & Hs & _);
    [reflexivity | reflexivity | reflexivity | lia | lia
    | unfold default_max_len; lia | lia | |].
  - intros xm Hxm. injection Hxm as <-.
    split; [reflexivity |]. split; reflexivity.
  - exists m, pre. split; [exact Hm |]. split; [exact Hf | exact Hs].
Defined.

Lemma brute_concat_forward_witness :
  let x := mkT3 1 2 1 (fun _ l _ => INR l) in
  let x_mark := Some (mkT3 1 2 4 (fun _ _ _ => 0%R)) in
  let exo_prompt := mkT2 1 3 (fun _ _ => 1%R) in
  exists m y,
    DataEmbedding_inverted_WithExoPromptTuning_init 2 2 "fixed" "h" (1 / 10)
      "brute_concat" 10 3 512 (const_inv_exo_draw 1) = ok m /\
    in_features (inv_value_embedding m) = 5 /\
    DataEmbedding_inverted_WithExoPromptTuning_forward m Eval x x_mark
      exo_prompt = ok y /\
    shape3 y = (1, 5, 2).
Proof.
  cbv zeta.
  destruct (InvExo_init_ok 2 2 "fixed" "h" (1 / 10) "brute_concat"
              10 3 512 (const_inv_exo_draw 1) eq_refl) as (m & Hm); [lra |].
  destruct (proj2 brute_concat_forward 2 2 "fixed"%string "h"%string (1 / 10)%R
              10 3 512 (const_inv_exo_draw 1) m Eval
              (mkT3 1 2 1 (fun _ l _ => INR l))
              (Some (mkT3 1 2 4 (fun _ _ _ => 0%R)))
              (mkT2 1 3 (fun _ _ => 1%R)) 1 1 Hm)
    as (Hw & pre & Hf & Hs & _); [reflexivity | reflexivity | |].
  - intros xm Hxm. injection Hxm as <-. split; reflexivity.
  - exists m, pre. split; [exact Hm |]. split; [exact Hw |].
    split; [exact Hf | exact Hs].
Defined.

Lemma virtual_token_placement_witness :
  let x := mkT3 1 2 1 (fun _ l _ => INR l) in
  let exo_prompt := mkT2 1 1 (fun _ _ => 1%R) in
  exists m y,
    DataEmbeddingWithExoPromptTuning_init [2; 1; 0] 1 2 "fixed" "h" (1 / 10)
      "two_layer_mlp" 1 1 1 (const_exo_draw 1) = ok m /\
    DataEmbeddingWithExoPromptTuning_forward m Eval x None exo_prompt
    = ok y /\
    dim1 y = 3.
Proof.
  cbv zeta.
  destruct (Exo_init_ok [2; 1; 0] 1 2 "fixed" "h" (1 / 10) "two_layer_mlp"
              1 1 1 (const_exo_draw 1) eq_refl) as (m & Hm);
    [lra | reflexivity | discriminate |].
  destruct (proj1 virtual_token_placement [2; 1; 0] 1 2 "fixed"%string "h"%string
              (1 / 10)%R
              1 1 1 (const_exo_draw 1) m Eval
              (mkT3 1 2 1 (fun _ l _ => INR l)) None
              (mkT2 1 1 (fun _ _ => 1%R)) 1 2 Hm)
    as (pre & Hf & Hs & _);
    [reflexivity | reflexivity | reflexivity | lia | lia
    | unfold default_max_len; lia | lia | |].
  - intros xm Hxm. discriminate Hxm.
  - exists m, pre. split; [exact Hm |]. split; [exact Hf | exact Hs].
Defined.

(** C1 fails as stated for the inverted variant: its output is the
    concatenation itself, to which no positional embedding is added. *)
Lemma inverted_two_layer_mlp_adds_no_positional :
  let m := mkInvExo "two_layer_mlp" 1 1
             (Some (mlp_projector 2 1 1 1 (const_linear_draw 1)
                      (const_linear_draw 1)))
             1 (Linear_init 1 2 true (const_linear_draw 1))
             (mkDropout (1 / 10)) in
  let x := mkT3 1 1 1 (fun _ _ _ => 1%R) in
  let exo_prompt := mkT2 1 1 (fun _ _ => 1%R) in
  DataEmbedding_inverted_WithExoPromptTuning_init 1 2 "fixed" "h" (1 / 10)
    "two_layer_mlp" 1 1 1 (const_inv_exo_draw 1) = ok m /\
  exists real virtual combined out,
    Linear_forward3 (inv_value_embedding m) (permute021 x) = ok real /\
    prepare_prompt (inv_prompt_tuning_type m) (inv_exo_prompt_projector m)
      (inv_num_virtual_tokens m) exo_prompt 1 = ok (Prompt3 virtual) /\
    cat1 real virtual = ok combined /\
    DataEmbedding_inverted_WithExoPromptTuning_forward m Eval x None
      exo_prompt = ok out /\
    out = combined /\
    ~ adds_positional 2 combined out.
Proof.
  cbv zeta. split.
  { unfold DataEmbedding_inverted_WithExoPromptTuning_init.
    change (projector_init "two_layer_mlp" 2 1 1 1
              (inv_draw_fc1 (const_inv_exo_draw 1))
              (inv_draw_fc2 (const_inv_exo_draw 1)))
      with (ok (Some (mlp_projector 2 1 1 1 (const_linear_draw 1)
                        (const_linear_draw 1)))).
    cbn [bind ok]. rewrite Dropout_init_ok by lra. reflexivity. }
  eexists. eexists. eexists. eexists.
  split; [reflexivity |]. split; [reflexivity |]. split; [reflexivity |].
  split; [reflexivity |]. split; [reflexivity |].
  intros [_ H]. specialize (H 0 0 1).
  specialize (H ltac:(cbv; lia) ltac:(cbv; lia) ltac:(cbv; lia)).
  unfold sinusoid in H. cbn [Nat.even INR] in H.
  rewrite Rmult_0_l, cos_0 in H.
  match type of H with
  | ?a = (?b + 1)%R => change a with b in H; revert H; generalize b
  end.
  intros a Ha. lra.
Qed.

(** ** Concrete runs *)

(** Three time steps of one channel: the first output sees the last input
    as its left neighbour, the last output sees the first input as its
    right neighbour. *)
Example TokenEmbedding_wraps_around (w : nat -> nat -> nat -> R)
  (x0 x1 x2 : R) :
  let x := mkT3 1 3 1 (fun _ l _ => match l with
                                    | 0 => x0
                                    | 1 => x1
                                    | _ => x2
                                    end) in
  let left := w 0 0 0 in
  let centre := w 0 0 1 in
  let right := w 0 0 2 in
  exists y,
    TokenEmbedding_forward (TokenEmbedding_init [2; 1; 0] 1 1 w) x = ok y /\
    get3 y 0 0 0 = (left * x2 + centre * x0 + right * x1)%R /\
    get3 y 0 2 0 = (left * x1 + centre * x2 + right * x0)%R.
Proof.
  cbv zeta. eexists. split; [reflexivity |].
  cbn [permute021 get3 dim0 dim1 dim2 Rsum TokenEmbedding_init tokenConv
       Conv1d_init conv_weight in_channels kernel_size conv_padding].
  split; cbn; ring.
Qed.

(** The first row of the positional table is [0, 1, 0, 1, ...]. *)
Example PositionalEmbedding_first_row (m : PositionalEmbedding) :
  PositionalEmbedding_init 4 default_max_len = ok m ->
  get3 (pe m) 0 0 0 = 0%R /\ get3 (pe m) 0 0 1 = 1%R /\
  get3 (pe m) 0 0 2 = 0%R /\ get3 (pe m) 0 0 3 = 1%R.
Proof.
  intros H. destruct (PositionalEmbedding_init_inv _ _ _ H) as (_ & _ & Hg).
  rewrite !Hg by (unfold default_max_len; lia).
  unfold sinusoid. cbn [Nat.even INR]. rewrite !Rmult_0_l, sin_0, cos_0.
  repeat split; reflexivity.
Qed.

(** Truncation is toward zero. *)
Example Rtrunc_examples :
  Rtrunc (7 / 2) = 3%Z /\ Rtrunc (- (7 / 2)) = (-3)%Z.
Proof.
  split.
  - replace (7 / 2)%R with (IZR 3 + 1 / 2)%R by lra.
    apply Rtrunc_frac; [lia | lra].
  - unfold Rtrunc. destruct (Rle_dec 0 (- (7 / 2))) as [H | _]; [lra |].
    rewrite Ropp_involutive.
    rewrite <- (Int_part_spec (7 / 2) 3) by lra. reflexivity.
Qed.

(** * Further properties of the modules *)

(** ** Construction of the sinusoidal tables *)

Lemma setitem_cols2_raise (dst : Tensor2 R) (start : nat) (src : Tensor2 R) :
  expandable (cols2 src) ((cols2 dst + 1 - start) / 2) = false ->
  setitem_cols2 dst start src = raise RuntimeError.
Proof.
  intros H. unfold setitem_cols2. rewrite H, andb_false_r. reflexivity.
Qed.

Lemma expandable_half_false (d : nat) :
  d <> 0 -> d_model_ok d = false ->
  expandable ((d + 1) / 2) ((d + 1 - 1) / 2) = false.
Proof.
  intros Hd H.
  destruct (expandable ((d + 1) / 2) ((d + 1 - 1) / 2)) eqn:E;
    [| reflexivity].
  rewrite (expandable_half_inv _ Hd E) in H. discriminate H.
Qed.

Lemma d_model_ok_odd (d : nat) :
  Nat.odd d = true -> 3 <= d -> d <> 0 /\ d_model_ok d = false.
Proof.
  intros Ho H3. split; [lia |]. unfold d_model_ok.
  rewrite <- Nat.negb_odd, Ho. cbn [negb orb].
  destruct (Nat.eqb_spec d 1) as [-> | _]; [lia |].
  apply andb_false_r.
Qed.

Lemma PositionalEmbedding_init_odd (d_model max_len : nat) :
  d_model <> 0 -> d_model_ok d_model = false ->
  PositionalEmbedding_init d_model max_len = raise RuntimeError.
Proof.
  intros Hd H. unfold PositionalEmbedding_init.
  destruct (div_term_ok _ Hd) as (dt & -> & Hlen). cbn [bind ok].
  edestruct (setitem_cols2_ok (zeros2 max_len d_model) 0
               (map2d sin (mul_col_row (arange_col max_len) dt)))
    as (w0 & -> & Hr0 & Hc0).
  { apply expandable_refl. }
  { cbn [map2d mul_col_row cols2 zeros2]. rewrite Hlen, Nat.sub_0_r.
    apply expandable_refl. }
  cbn [bind ok]. rewrite setitem_cols2_raise; [reflexivity |].
  cbn [map2d mul_col_row cols2]. rewrite Hlen, Hc0.
  apply expandable_half_false; assumption.
Qed.

Lemma FixedEmbedding_init_odd (c_in d_model : nat) :
  d_model <> 0 -> d_model_ok d_model = false ->
  FixedEmbedding_init c_in d_model = raise RuntimeError.
Proof.
  intros Hd H. unfold FixedEmbedding_init.
  destruct (div_term_ok _ Hd) as (dt & -> & Hlen). cbn [bind ok].
  edestruct (setitem_cols2_ok (zeros2 c_in d_model) 0
               (map2d sin (mul_col_row (arange_col c_in) dt)))
    as (w0 & -> & Hr0 & Hc0).
  { apply expandable_refl. }
  { cbn [map2d mul_col_row cols2 zeros2]. rewrite Hlen, Nat.sub_0_r.
    apply expandable_refl. }
  cbn [bind ok]. rewrite setitem_cols2_raise; [reflexivity |].
  cbn [map2d mul_col_row cols2]. rewrite Hlen, Hc0.
  apply expandable_half_false; assumption.
Qed.

(** X1. [PositionalEmbedding.__init__] divides by [d_model] and assigns
    the cosines to the odd columns: it raises [ZeroDivisionError] for
    [d_model = 0], it raises the [RuntimeError] of the slice assignment
    for an odd [d_model >= 3], and it builds a table of shape
    [1, max_len, d_model] for every other width. *)
Theorem PositionalEmbedding_init_cases (d_model max_len : nat) :
  (d_model = 0 ->
   PositionalEmbedding_init d_model max_len = raise ZeroDivisionError) /\
  (Nat.odd d_model = true -> 3 <= d_model ->
   PositionalEmbedding_init d_model max_len = raise RuntimeError) /\
  (d_model = 1 \/ (Nat.even d_model = true /\ 2 <= d_model) ->
   exists m, PositionalEmbedding_init d_model max_len = ok m /\
             shape3 (pe m) = (1, max_len, d_model)).
Proof.
  split; [| split].
  - intros ->. reflexivity.
  - intros Ho H3. destruct (d_model_ok_odd _ Ho H3) as [Hd Hf].
    apply PositionalEmbedding_init_odd; assumption.
  - intros H.
    assert (Hok : d_model_ok d_model = true).
    { unfold d_model_ok. destruct H as [-> | [He H2]]; [reflexivity |].
      rewrite He. destruct (Nat.eqb_spec d_model 0); [lia | reflexivity]. }
    destruct (PositionalEmbedding_init_ok d_model max_len Hok) as (m & Hm).
    exists m. split; [exact Hm |].
    apply (PositionalEmbedding_init_inv _ _ _ Hm).
Qed.

Lemma PositionalEmbedding_init_cases_witness :
  PositionalEmbedding_init 0 5000 = raise ZeroDivisionError /\
  PositionalEmbedding_init 7 5000 = raise RuntimeError /\
  exists m, PositionalEmbedding_init 8 5000 = ok m /\
            shape3 (pe m) = (1, 5000, 8).
Proof.
  split; [| split].
  - apply (proj1 (PositionalEmbedding_init_cases 0 5000)). reflexivity.
  - apply (proj1 (proj2 (PositionalEmbedding_init_cases 7 5000)));
      [reflexivity | lia].
  - apply (proj2 (proj2 (PositionalEmbedding_init_cases 8 5000))).
    right. split; [reflexivity | lia].
Defined.

(** ** FixedEmbedding *)

Lemma FixedEmbedding_init_table (c_in d_model : nat) (m : FixedEmbedding) :
  FixedEmbedding_init c_in d_model = ok m ->
  forall v c, v < c_in -> c < d_model ->
    get2 (emb_weight (emb m)) v c = sinusoid d_model v c.
Proof.
  unfold FixedEmbedding_init. intros H.
  bind_inv H as dt Hdt. apply div_term_inv in Hdt. destruct Hdt as [Hd ->].
  bind_inv H as w0 Hw0. apply setitem_cols2_inv in Hw0. subst w0.
  bind_inv H as w1 Hw1. apply setitem_cols2_inv in Hw1. subst w1.
  apply ok_inj in H. subst m.
  intros p c Hp Hc. pose proof (half_lt _ _ Hc) as Hk.
  unfold sinusoid, map2d, mul_col_row, arange_col, zeros2.
  cbn [emb emb_weight get2 rows2 cols2 len1 get1].
  destruct (Nat.leb_spec 1 c) as [H1 | H1].
  - rewrite odd_pred_mod by exact H1. rewrite <- Nat.negb_even.
    rewrite Nat.sub_0_r, even_mod.
    destruct (Nat.even c) eqn:He; cbn [negb andb Nat.leb].
    + rewrite !bidx_lt by assumption. reflexivity.
    + rewrite (odd_half _ He), !bidx_lt by assumption. reflexivity.
  - assert (c = 0) by lia. subst c. cbn [andb Nat.leb Nat.even].
    rewrite Nat.sub_0_r, even_mod. cbn [Nat.even].
    rewrite !bidx_lt by assumption. reflexivity.
Qed.

Lemma index_ok_lt (n : nat) (z : Z) :
  index_ok n z = true -> Z.to_nat z < n.
Proof.
  unfold index_ok. rewrite andb_true_iff, Z.leb_le, Z.ltb_lt. lia.
Qed.

Lemma Embedding_forward_ok (e : Embedding) (idx : Tensor2 Z) :
  (forall b l, b < rows2 idx -> l < cols2 idx ->
     index_ok (rows2 (emb_weight e)) (get2 idx b l) = true) ->
  Embedding_forward e idx =
  ok (mkT3 (rows2 idx) (cols2 idx) (cols2 (emb_weight e))
           (fun b l d => get2 (emb_weight e) (Z.to_nat (get2 idx b l)) d)).
Proof.
  intros H. unfold Embedding_forward.
  replace (all_upto (rows2 idx) _) with true; [reflexivity |].
  symmetry. apply all_upto_true. intros b Hb.
  apply all_upto_true. intros l Hl. apply H; assumption.
Qed.

Lemma Embedding_forward_bad (e : Embedding) (idx : Tensor2 Z) (b l : nat) :
  b < rows2 idx -> l < cols2 idx ->
  index_ok (rows2 (emb_weight e)) (get2 idx b l) = false ->
  Embedding_forward e idx = raise IndexError.
Proof.
  intros Hb Hl Hbad. unfold Embedding_forward.
  destruct (all_upto (rows2 idx) _) eqn:E; [| reflexivity].
  rewrite all_upto_true in E. specialize (E b Hb). cbv beta in E.
  rewrite all_upto_true in E. specialize (E l Hl). cbv beta in E.
  rewrite E in Hbad. discriminate Hbad.
Qed.

(** X2. [FixedEmbedding.forward] looks the indices up in the frozen
    sinusoidal table: for indices inside [0, c_in) the result has shape
    [batch, time, d_model] and holds, for the index [v], the sinusoid of
    position [v]; one index outside this range, anywhere in the input,
    makes the whole call raise [IndexError]. *)
Theorem FixedEmbedding_forward_spec (c_in d_model : nat)
  (m : FixedEmbedding) (idx : Tensor2 Z) :
  FixedEmbedding_init c_in d_model = ok m ->
  ((forall b l, b < rows2 idx -> l < cols2 idx ->
      index_ok c_in (get2 idx b l) = true) ->
   exists y,
     FixedEmbedding_forward m idx = ok y /\
     shape3 y = (rows2 idx, cols2 idx, d_model) /\
     forall b l c, b < rows2 idx -> l < cols2 idx -> c < d_model ->
       get3 y b l c = sinusoid d_model (Z.to_nat (get2 idx b l)) c) /\
  (forall b l, b < rows2 idx -> l < cols2 idx ->
     index_ok c_in (get2 idx b l) = false ->
     FixedEmbedding_forward m idx = raise IndexError).
Proof.
  intros Hinit. pose proof (FixedEmbedding_init_inv _ _ _ Hinit) as Hs.
  unfold shape2 in Hs. injection Hs as Hr Hc.
  unfold FixedEmbedding_forward. split.
  - intros Hidx. rewrite Embedding_forward_ok
      by (intros b l Hb Hl; rewrite Hr; apply Hidx; assumption).
    eexists. split; [reflexivity |]. split.
    + unfold shape3. cbn [dim0 dim1 dim2]. rewrite Hc. reflexivity.
    + intros b l c Hb Hl Hcd. cbn [get3].
      apply (FixedEmbedding_init_table _ _ _ Hinit); [| exact Hcd].
      apply index_ok_lt. apply Hidx; assumption.
  - intros b l Hb Hl Hbad.
    apply (Embedding_forward_bad _ _ b l Hb Hl). rewrite Hr. exact Hbad.
Qed.

Lemma FixedEmbedding_forward_spec_witness :
  exists m,
    FixedEmbedding_init 13 4 = ok m /\
    (exists y, FixedEmbedding_forward m (mkT2 1 2 (fun _ l => Z.of_nat l))
               = ok y /\ shape3 y = (1, 2, 4)) /\
    FixedEmbedding_forward m (mkT2 1 2 (fun _ l => 13%Z))
    = raise IndexError.
Proof.
  destruct (FixedEmbedding_init_ok 13 4 eq_refl) as (m & Hm & _).
  exists m. split; [exact Hm |]. split.
  - destruct (proj1 (FixedEmbedding_forward_spec 13 4 m
                       (mkT2 1 2 (fun _ l => Z.of_nat l)) Hm))
      as (y & Hy & Hs & _).
    + intros b l Hb Hl. cbn [rows2 cols2 get2] in *.
      unfold index_ok. apply andb_true_iff. rewrite Z.leb_le, Z.ltb_lt. lia.
    + exists y. split; [exact Hy | exact Hs].
  - apply (proj2 (FixedEmbedding_forward_spec 13 4 m
                    (mkT2 1 2 (fun _ l => 13%Z)) Hm) 0 0);
      [cbn; lia | cbn; lia | reflexivity].
Defined.

(** X3. The table of a [FixedEmbedding] and the table of a
    [PositionalEmbedding] of the same width hold the same rows: the vector
    of the calendar value [v] is the positional vector of position [v]. *)
Theorem FixedEmbedding_rows_are_positional_rows (c_in d_model max_len : nat)
  (fe : FixedEmbedding) (pos : PositionalEmbedding) :
  FixedEmbedding_init c_in d_model = ok fe ->
  PositionalEmbedding_init d_model max_len = ok pos ->
  forall v c, v < c_in -> v < max_len -> c < d_model ->
    get2 (emb_weight (emb fe)) v c = get3 (pe pos) 0 v c.
Proof.
  intros Hf Hp v c Hv Hv' Hc.
  rewrite (FixedEmbedding_init_table _ _ _ Hf) by assumption.
  destruct (PositionalEmbedding_init_inv _ _ _ Hp) as (_ & _ & Hg).
  rewrite Hg by assumption. reflexivity.
Qed.

Lemma FixedEmbedding_rows_are_positional_rows_witness :
  exists fe pos,
    FixedEmbedding_init 24 4 = ok fe /\
    PositionalEmbedding_init 4 default_max_len = ok pos /\
    get2 (emb_weight (emb fe)) 23 3 = get3 (pe pos) 0 23 3.
Proof.
  destruct (FixedEmbedding_init_ok 24 4 eq_refl) as (fe & Hf & _).
  destruct (PositionalEmbedding_init_ok 4 default_max_len eq_refl)
    as (pos & Hp).
  exists fe, pos. split; [exact Hf |]. split; [exact Hp |].
  apply (FixedEmbedding_rows_are_positional_rows 24 4 default_max_len
           fe pos Hf Hp); unfold default_max_len; lia.
Defined.

(** ** TokenEmbedding *)

Lemma Rsum_plus (n : nat) (f g : nat -> R) :
  Rsum n (fun i => f i + g i)%R = (Rsum n f + Rsum n g)%R.
Proof.
  induction n as [| n IH]; simpl; [ring | rewrite IH; ring].
Qed.

Lemma Rsum_scal (n : nat) (a : R) (f : nat -> R) :
  Rsum n (fun i => a * f i)%R = (a * Rsum n f)%R.
Proof.
  induction n as [| n IH]; simpl; [ring | rewrite IH; ring].
Qed.

Lemma rotate_index (l k s L : nat) :
  1 <= L ->
  ((l + k + L - 1) mod L + s) mod L = ((l + s) mod L + k + L - 1) mod L.
Proof.
  intros HL. rewrite Nat.Div0.add_mod_idemp_l.
  replace ((l + s) mod L + k + L - 1) with ((l + s) mod L + (k + L - 1))
    by lia.
  rewrite Nat.Div0.add_mod_idemp_l. f_equal. lia.
Qed.

Lemma circular_conv_rotate (w : nat -> nat -> nat -> R) (x : Tensor3 R)
  (s c_in L b l o : nat) :
  dim1 x = L -> 1 <= L ->
  circular_conv w (rotate s x) c_in L b l o =
  circular_conv w x c_in L b ((l + s) mod L) o.
Proof.
  intros H1 HL. unfold circular_conv, rotate. cbn [get3].
  apply Rsum_ext. intros c _. apply Rsum_ext. intros k _.
  rewrite H1, rotate_index by exact HL. reflexivity.
Qed.

(** X4. The circular convolution of [TokenEmbedding] commutes with the
    rotation of the sequence: embedding the sequence rotated by [s] time
    steps gives the embedded sequence rotated by [s] time steps. *)
Theorem TokenEmbedding_forward_rotate (torch_version : Version)
  (c_in d_model : nat) (r : nat -> nat -> nat -> R) (x : Tensor3 R)
  (B L s : nat) :
  version_ge torch_version [1; 5; 0] = true ->
  1 <= d_model ->
  shape3 x = (B, L, c_in) ->
  1 <= L ->
  exists y y',
    TokenEmbedding_forward
      (TokenEmbedding_init torch_version c_in d_model r) x = ok y /\
    TokenEmbedding_forward
      (TokenEmbedding_init torch_version c_in d_model r) (rotate s x)
    = ok y' /\
    teq3 y' (rotate s y).
Proof.
  intros Hv Hd Hs HL.
  destruct (TokenEmbedding_forward_channels torch_version c_in d_model r x B L
              Hv Hd Hs HL) as (y & Hy & Hsy & Hgy).
  destruct (TokenEmbedding_forward_channels torch_version c_in d_model r
              (rotate s x) B L Hv Hd Hs HL) as (y' & Hy' & Hsy' & Hgy').
  exists y, y'. split; [exact Hy |]. split; [exact Hy' |].
  unfold shape3 in Hs, Hsy, Hsy'.
  injection Hs as _ HxL _. injection Hsy as Hy0 Hy1 Hy2.
  injection Hsy' as Hy0' Hy1' Hy2'.
  split.
  - unfold shape3, rotate. cbn [dim0 dim1 dim2]. congruence.
  - intros b l o Hb Hl Ho. rewrite Hy0' in Hb. rewrite Hy1' in Hl.
    rewrite Hy2' in Ho.
    assert (Ho' : o < d_model) by (destruct (c_in =? 0); lia).
    unfold rotate at 1. cbn [get3]. rewrite Hy1.
    rewrite Hgy' by assumption.
    rewrite Hgy; [| exact Hb | apply Nat.mod_upper_bound; lia | exact Ho'].
    apply circular_conv_rotate; assumption.
Qed.

Lemma TokenEmbedding_forward_rotate_witness :
  let m := TokenEmbedding_init [2; 1; 0] 1 2 (fun _ _ k => INR k) in
  let x := mkT3 1 4 1 (fun _ l _ => INR l) in
  exists y y',
    TokenEmbedding_forward m x = ok y /\
    TokenEmbedding_forward m (rotate 1 x) = ok y' /\
    teq3 y' (rotate 1 y).
Proof.
  cbv zeta.
  apply (TokenEmbedding_forward_rotate [2; 1; 0] 1 2 (fun _ _ k => INR k)
           (mkT3 1 4 1 (fun _ l _ => INR l)) 1 4 1);
    [reflexivity | lia | reflexivity | lia].
Defined.

Lemma circular_conv_axpy (w : nat -> nat -> nat -> R) (a : R)
  (x x' : Tensor3 R) (c_in L b l o : nat) :
  circular_conv w (axpy a x x') c_in L b l o =
  (a * circular_conv w x c_in L b l o
   + circular_conv w x' c_in L b l o)%R.
Proof.
  unfold circular_conv, axpy. cbn [get3].
  rewrite <- Rsum_scal, <- Rsum_plus. apply Rsum_ext. intros c _.
  rewrite <- Rsum_scal, <- Rsum_plus. apply Rsum_ext. intros k _.
  ring.
Qed.

(** X5. [TokenEmbedding] has no bias and is a linear map of the sequence:
    the embedding of [a * x + x'] is [a] times the embedding of [x] plus
    the embedding of [x']. *)
Theorem TokenEmbedding_forward_linear (torch_version : Version)
  (c_in d_model : nat) (r : nat -> nat -> nat -> R) (a : R)
  (x x' : Tensor3 R) (B L : nat) :
  version_ge torch_version [1; 5; 0] = true ->
  1 <= d_model ->
  shape3 x = (B, L, c_in) ->
  shape3 x' = (B, L, c_in) ->
  1 <= L ->
  exists y y' z,
    TokenEmbedding_forward
      (TokenEmbedding_init torch_version c_in d_model r) x = ok y /\
    TokenEmbedding_forward
      (TokenEmbedding_init torch_version c_in d_model r) x' = ok y' /\
    TokenEmbedding_forward
      (TokenEmbedding_init torch_version c_in d_model r) (axpy a x x')
    = ok z /\
    teq3 z (axpy a y y').
Proof.
  intros Hv Hd Hs Hs' HL.
  destruct (TokenEmbedding_forward_channels torch_version c_in d_model r x B L
              Hv Hd Hs HL) as (y & Hy & Hsy & Hgy).
  destruct (TokenEmbedding_forward_channels torch_version c_in d_model r x' B L
              Hv Hd Hs' HL) as (y' & Hy' & Hsy' & Hgy').
  destruct (TokenEmbedding_forward_channels torch_version c_in d_model r
              (axpy a x x') B L Hv Hd Hs HL) as (z & Hz & Hsz & Hgz).
  exists y, y', z. repeat (split; [assumption |]).
  unfold shape3 in Hsy, Hsz.
  injection Hsy as Hy0 Hy1 Hy2. injection Hsz as Hz0 Hz1 Hz2.
  split.
  - unfold shape3, axpy. cbn [dim0 dim1 dim2]. congruence.
  - intros b l o Hb Hl Ho. rewrite Hz0 in Hb. rewrite Hz1 in Hl.
    rewrite Hz2 in Ho.
    assert (Ho' : o < d_model) by (destruct (c_in =? 0); lia).
    unfold axpy at 1. cbn [get3].
    rewrite Hgz, Hgy, Hgy' by assumption.
    apply circular_conv_axpy.
Qed.

Lemma TokenEmbedding_forward_linear_witness :
  let m := TokenEmbedding_init [2; 1; 0] 1 2 (fun _ _ k => INR k) in
  let x := mkT3 1 4 1 (fun _ l _ => INR l) in
  let x' := mkT3 1 4 1 (fun _ _ _ => 1%R) in
  exists y y' z,
    TokenEmbedding_forward m x = ok y /\
    TokenEmbedding_forward m x' = ok y' /\
    TokenEmbedding_forward m (axpy 2 x x') = ok z /\
    teq3 z (axpy 2 y y').
Proof.
  cbv zeta.
  apply (TokenEmbedding_forward_linear [2; 1; 0] 1 2 (fun _ _ k => INR k)
           2%R (mkT3 1 4 1 (fun _ l _ => INR l))
           (mkT3 1 4 1 (fun _ _ _ => 1%R)) 1 4);
    [reflexivity | lia | reflexivity | reflexivity | lia].
Defined.



(** X7. On a sequence of one time step with at least one channel, the
    wrap-around makes the sample its own left and right neighbour: every
    output channel is the sum of the three kernel taps times the sample,
    summed over the channels. *)
Theorem TokenEmbedding_forward_single_step (torch_version : Version)
  (c_in d_model : nat) (r : nat -> nat -> nat -> R) (x : Tensor3 R)
  (B : nat) :
  version_ge torch_version [1; 5; 0] = true ->
  1 <= d_model ->
  shape3 x = (B, 1, c_in) ->
  1 <= c_in ->
  exists y,
    TokenEmbedding_forward
      (TokenEmbedding_init torch_version c_in d_model r) x = ok y /\
    shape3 y = (B, 1, d_model) /\
    forall b o, b < B -> o < d_model ->
      get3 y b 0 o =
      Rsum c_in (fun c =>
        (r o c 0%nat + r o c 1%nat + r o c 2%nat) * get3 x b 0%nat c)%R.
Proof.
  intros Hv Hd Hs Hc.
  destruct (TokenEmbedding_forward_ok torch_version c_in d_model r x B 1
              Hv Hd Hs (le_n 1) Hc) as (y & Hy & Hsy & Hgy).
  exists y. split; [exact Hy |]. split; [exact Hsy |].
  intros b o Hb Ho. rewrite Hgy by (assumption || lia).
  unfold circular_conv. apply Rsum_ext. intros c _.
  cbn [Rsum]. rewrite !Nat.mod_1_r. ring.
Qed.

Lemma TokenEmbedding_forward_single_step_witness :
  exists y,
    TokenEmbedding_forward
      (TokenEmbedding_init [2; 1; 0] 2 3 (fun _ _ k => INR k))
      (mkT3 1 1 2 (fun _ _ c => INR c)) = ok y /\
    shape3 y = (1, 1, 3).
Proof.
  destruct (TokenEmbedding_forward_single_step [2; 1; 0] 2 3
              (fun _ _ k => INR k) (mkT3 1 1 2 (fun _ _ c => INR c)) 1
              eq_refl ltac:(lia) eq_refl ltac:(lia)) as (y & Hy & Hs & _).
  exists y. split; [exact Hy | exact Hs].
Defined.

(** ** TemporalEmbedding *)

Lemma raise_inj (A : Type) (e e' : exn) : @raise A e = raise e' -> e = e'.
Proof. intros H. injection H as ->. reflexivity. Qed.

Lemma field_lookup_cases (e : Embed) (x : Tensor3 R) (k : nat) :
  (exists t, field_lookup e (long3 x) k = ok t /\
             shape3 t = (dim0 x, dim1 x, cols2 (Embed_table e))) \/
  field_lookup e (long3 x) k = raise IndexError.
Proof.
  unfold field_lookup, select2. cbn [long3 dim0 dim1 dim2].
  destruct (k <? dim2 x); [| right; reflexivity].
  cbn [bind ok]. rewrite Embed_forward_table. unfold Embedding_forward.
  cbn [emb_weight rows2 cols2].
  destruct (all_upto (dim0 x) _).
  - left. eexists. split; reflexivity.
  - right. reflexivity.
Qed.

Ltac lookup_step e x k t Hst :=
  destruct (field_lookup_cases e x k) as [(t & -> & Hst) | ->];
  [ cbn [bind ok]
  | cbn [bind raise];
    let e0 := fresh "e" in
    let He := fresh "He" in
    intros e0 He; apply raise_inj in He; symmetry; exact He ].

Lemma TemporalEmbedding_forward_error (d_model : nat)
  (embed_type freq : string) (r : TemporalDraw) (m : TemporalEmbedding)
  (x : Tensor3 R) :
  TemporalEmbedding_init d_model embed_type freq r = ok m ->
  forall e, TemporalEmbedding_forward m x = raise e -> e = IndexError.
Proof.
  intros Hinit.
  destruct (TemporalEmbedding_init_inv _ _ _ _ _ Hinit)
    as (Hh & Hw & Hd & Hmo & Hmi).
  unfold shape2 in Hh, Hw, Hd, Hmo.
  injection Hh as Hh0 Hh1. injection Hw as Hw0 Hw1.
  injection Hd as Hd0 Hd1. injection Hmo as Hmo0 Hmo1.
  unfold TemporalEmbedding_forward.
  destruct (minute_embed m) as [e |] eqn:Eminute.
  - destruct Hmi as [Hf He]. unfold shape2 in He. injection He as He0 He1.
    lookup_step e x 4 t4 Ht4.
    lookup_step (hour_embed m) x 3 t3 Ht3.
    lookup_step (weekday_embed m) x 2 t2 Ht2.
    lookup_step (day_embed m) x 1 t1 Ht1.
    lookup_step (month_embed m) x 0 t0 Ht0.
    add3_step Hs1 Hg1.
    { congruence. }
    add3_step Hs2 Hg2.
    { congruence. }
    add3_step Hs3 Hg3.
    { congruence. }
    add3_step Hs4 Hg4.
    { congruence. }
    intros e0 He0'. discriminate He0'.
  - cbn [bind ok].
    lookup_step (hour_embed m) x 3 t3 Ht3.
    lookup_step (weekday_embed m) x 2 t2 Ht2.
    lookup_step (day_embed m) x 1 t1 Ht1.
    lookup_step (month_embed m) x 0 t0 Ht0.
    add3_step Hs1 Hg1.
    { congruence. }
    add3_step Hs2 Hg2.
    { congruence. }
    add3_step Hs3 Hg3.
    { congruence. }
    intros e0 He0'. discriminate He0'.
Qed.

(** X8. The only exception [TemporalEmbedding.forward] raises is
    [IndexError]: on a tensor that is not a calendar tensor of the
    frequency (a column is missing, or a truncated value is outside its
    table) the call raises [IndexError], and on a calendar tensor it
    returns. *)
Theorem TemporalEmbedding_forward_raises_IndexError (d_model : nat)
  (embed_type freq : string) (r : TemporalDraw) (m : TemporalEmbedding)
  (x : Tensor3 R) :
  TemporalEmbedding_init d_model embed_type freq r = ok m ->
  (forall e, TemporalEmbedding_forward m x = raise e -> e = IndexError) /\
  (~ calendar_tensor freq x ->
   TemporalEmbedding_forward m x = raise IndexError) /\
  (calendar_tensor freq x ->
   exists y, TemporalEmbedding_forward m x = ok y).
Proof.
  intros Hinit. split; [| split].
  - apply (TemporalEmbedding_forward_error _ _ _ _ _ _ Hinit).
  - intros Hn.
    destruct (TemporalEmbedding_forward m x) as [e | y] eqn:E.
    + rewrite (TemporalEmbedding_forward_error _ _ _ _ _ _ Hinit e E).
      reflexivity.
    + exfalso. apply Hn.
      apply (TemporalEmbedding_forward_inv _ _ _ _ _ _ _ Hinit E).
  - intros Hc.
    destruct (TemporalEmbedding_forward_ok _ _ _ _ _ _ Hinit Hc)
      as (y & Hy & _).
    exists y. exact Hy.
Qed.

Lemma TemporalEmbedding_forward_raises_IndexError_witness :
  let learned n := EmbedLearned (Embedding_init n 2 (fun _ _ => 1%R)) in
  let m := mkTemporalEmbedding None (learned hour_size) (learned weekday_size)
             (learned day_size) (learned month_size) in
  let x := mkT3 1 1 4 (fun _ _ _ => 13%R) in
  TemporalEmbedding_init 2 "learned" "h" (const_temporal_draw 1) = ok m /\
  TemporalEmbedding_forward m x = raise IndexError.
Proof.
  cbv zeta. split; [reflexivity |].
  refine (proj1 (proj2 (TemporalEmbedding_forward_raises_IndexError 2
            "learned" "h" (const_temporal_draw 1) _
            (mkT3 1 1 4 (fun _ _ _ => 13%R)) eq_refl)) _).
  intros [_ Hval]. destruct (Hval 0 0) as (Hmonth & _); [cbn; lia .. |].
  cbn [get3] in Hmonth.
  replace 13%R with (IZR 13) in Hmonth by reflexivity.
  rewrite Rtrunc_IZR in Hmonth. discriminate Hmonth.
Defined.

Lemma Embed_init_fixed_table (n d_model : nat) (r : nat -> nat -> R)
  (e : Embed) :
  Embed_init "fixed" n d_model r = ok e ->
  forall v c, v < n -> c < d_model ->
    get2 (Embed_table e) v c = sinusoid d_model v c.
Proof.
  unfold Embed_init. cbn [String.eqb Ascii.eqb Bool.eqb]. intros H.
  bind_inv H as m Hm. apply ok_inj in H. subst e. cbn [Embed_table].
  apply (FixedEmbedding_init_table _ _ _ Hm).
Qed.

Lemma Embed_init_learned_table (embed_type : string) (n d_model : nat)
  (r : nat -> nat -> R) (e : Embed) :
  String.eqb embed_type "fixed" = false ->
  Embed_init embed_type n d_model r = ok e ->
  Embed_table e = mkT2 n d_model r.
Proof.
  unfold Embed_init. intros -> H. apply ok_inj in H. subst e. reflexivity.
Qed.

Lemma TemporalEmbedding_init_parts (d_model : nat)
  (embed_type freq : string) (r : TemporalDraw) (m : TemporalEmbedding) :
  TemporalEmbedding_init d_model embed_type freq r = ok m ->
  Embed_init embed_type hour_size d_model (draw_hour r)
  = ok (hour_embed m) /\
  Embed_init embed_type weekday_size d_model (draw_weekday r)
  = ok (weekday_embed m) /\
  Embed_init embed_type day_size d_model (draw_day r)
  = ok (day_embed m) /\
  Embed_init embed_type month_size d_model (draw_month r)
  = ok (month_embed m) /\
  match minute_embed m with
  | Some e => String.eqb freq "t" = true /\
              Embed_init embed_type minute_size d_model (draw_minute r)
              = ok e
  | None => String.eqb freq "t" = false
  end.
Proof.
  unfold TemporalEmbedding_init. intros H.
  bind_inv H as mi Hmi. bind_inv H as h Hh. bind_inv H as w Hw.
  bind_inv H as d Hd. bind_inv H as mo Hmo.
  apply ok_inj in H. subst m. cbn [hour_embed weekday_embed day_embed
                                   month_embed minute_embed].
  repeat (split; [assumption |]).
  destruct (String.eqb freq "t").
  - bind_inv Hmi as e He. apply ok_inj in Hmi. subst mi.
    split; [reflexivity | exact He].
  - apply ok_inj in Hmi. subst mi. reflexivity.
Qed.

Lemma sinusoid_bound (d_model p c : nat) :
  (-1 <= sinusoid d_model p c <= 1)%R.
Proof.
  unfold sinusoid. destruct (Nat.even c); [apply SIN_bound | apply COS_bound].
Qed.

Lemma TemporalEmbedding_fixed_value (d_model : nat) (freq : string)
  (r : TemporalDraw) (m : TemporalEmbedding) (x : Tensor3 R) :
  TemporalEmbedding_init d_model "fixed" freq r = ok m ->
  calendar_tensor freq x ->
  exists y,
    TemporalEmbedding_forward m x = ok y /\
    shape3 y = (dim0 x, dim1 x, d_model) /\
    forall b l c, b < dim0 x -> l < dim1 x -> c < d_model ->
      let field k := Z.to_nat (Rtrunc (get3 x b l k)) in
      get3 y b l c =
      (sinusoid d_model (field 0%nat) c + sinusoid d_model (field 1%nat) c
       + sinusoid d_model (field 2%nat) c + sinusoid d_model (field 3%nat) c
       + (if String.eqb freq "t" then sinusoid d_model (field 4%nat) c
          else 0))%R.
Proof.
  intros Hinit Hcal.
  destruct (TemporalEmbedding_forward_ok _ _ _ _ _ _ Hinit Hcal)
    as (y & Hy & Hs & Hg).
  destruct (TemporalEmbedding_init_parts _ _ _ _ _ Hinit)
    as (Hh & Hw & Hd & Hmo & Hmi).
  exists y. split; [exact Hy |]. split; [exact Hs |].
  intros b l c Hb Hl Hc. cbv zeta.
  destruct Hcal as [_ Hval].
  destruct (Hval b l Hb Hl) as (V0 & V1 & V2 & V3 & V4).
  destruct (Hg b l c Hb Hl Hc) as [Gt Gf]. cbv zeta in Gt, Gf.
  unfold lookup in Gt, Gf.
  rewrite (Embed_init_fixed_table _ _ _ _ Hh) in Gt, Gf
    by (try apply index_ok_lt; assumption).
  rewrite (Embed_init_fixed_table _ _ _ _ Hw) in Gt, Gf
    by (try apply index_ok_lt; assumption).
  rewrite (Embed_init_fixed_table _ _ _ _ Hd) in Gt, Gf
    by (try apply index_ok_lt; assumption).
  rewrite (Embed_init_fixed_table _ _ _ _ Hmo) in Gt, Gf
    by (try apply index_ok_lt; assumption).
  destruct (String.eqb freq "t") eqn:Ef.
  - destruct (Gt eq_refl) as (e & He & ->).
    rewrite He in Hmi. destruct Hmi as [_ Hmi].
    rewrite (Embed_init_fixed_table _ _ _ _ Hmi)
      by (try apply index_ok_lt; auto).
    reflexivity.
  - destruct (Gf eq_refl) as [_ ->]. ring.
Qed.

(** X9. With [embed_type = "fixed"], [TemporalEmbedding.forward] does not
    depend on any drawn parameter: on a calendar tensor, the output at a
    time step is the sum of the sinusoids whose positions are the month,
    day, weekday and hour of the step (and the minute for the frequency
    "t"). *)
Theorem TemporalEmbedding_fixed_forward (d_model : nat) (freq : string)
  (r : TemporalDraw) (m : TemporalEmbedding) (x : Tensor3 R) :
  TemporalEmbedding_init d_model "fixed" freq r = ok m ->
  calendar_tensor freq x ->
  exists y,
    TemporalEmbedding_forward m x = ok y /\
    shape3 y = (dim0 x, dim1 x, d_model) /\
    forall b l c, b < dim0 x -> l < dim1 x -> c < d_model ->
      let field k := Z.to_nat (Rtrunc (get3 x b l k)) in
      get3 y b l c =
      (sinusoid d_model (field 0%nat) c + sinusoid d_model (field 1%nat) c
       + sinusoid d_model (field 2%nat) c + sinusoid d_model (field 3%nat) c
       + (if String.eqb freq "t" then sinusoid d_model (field 4%nat) c
          else 0))%R.
Proof. exact (TemporalEmbedding_fixed_value d_model freq r m x). Qed.

Lemma calendar_tensor_unit :
  calendar_tensor "h" (mkT3 1 1 4 (fun _ _ k => IZR (Z.of_nat (k + 1)))).
Proof.
  split; [cbn; lia |]. intros b l _ _. cbn [get3].
  rewrite !Rtrunc_IZR. repeat split; try reflexivity.
  intros H. discriminate H.
Qed.

Lemma TemporalEmbedding_fixed_forward_witness :
  exists m y,
    TemporalEmbedding_init 2 "fixed" "h" (const_temporal_draw 1) = ok m /\
    TemporalEmbedding_forward m
      (mkT3 1 1 4 (fun _ _ k => IZR (Z.of_nat (k + 1)))) = ok y /\
    shape3 y = (1, 1, 2).
Proof.
  destruct (TemporalEmbedding_init_ok 2 "fixed" "h" (const_temporal_draw 1)
              eq_refl) as (m & Hm).
  destruct (TemporalEmbedding_fixed_forward 2 "h" (const_temporal_draw 1) m
              (mkT3 1 1 4 (fun _ _ k => IZR (Z.of_nat (k + 1)))) Hm
              calendar_tensor_unit) as (y & Hy & Hs & _).
  exists m, y. split; [exact Hm |]. split; [exact Hy | exact Hs].
Defined.

(** X10. With [embed_type = "fixed"], every element of the output of
    [TemporalEmbedding.forward] lies between minus and plus the number of
    tables that are summed: 4, or 5 for the frequency "t". *)
Theorem TemporalEmbedding_fixed_bounded (d_model : nat) (freq : string)
  (r : TemporalDraw) (m : TemporalEmbedding) (x : Tensor3 R) :
  TemporalEmbedding_init d_model "fixed" freq r = ok m ->
  calendar_tensor freq x ->
  exists y,
    TemporalEmbedding_forward m x = ok y /\
    forall b l c, b < dim0 x -> l < dim1 x -> c < d_model ->
      (Rabs (get3 y b l c) <= INR (temporal_fields freq))%R.
Proof.
  intros Hinit Hcal.
  destruct (TemporalEmbedding_fixed_value _ _ _ _ _ Hinit Hcal)
    as (y & Hy & _ & Hg).
  exists y. split; [exact Hy |].
  intros b l c Hb Hl Hc. rewrite (Hg b l c Hb Hl Hc). cbv zeta.
  pose proof (sinusoid_bound d_model (Z.to_nat (Rtrunc (get3 x b l 0))) c).
  pose proof (sinusoid_bound d_model (Z.to_nat (Rtrunc (get3 x b l 1))) c).
  pose proof (sinusoid_bound d_model (Z.to_nat (Rtrunc (get3 x b l 2))) c).
  pose proof (sinusoid_bound d_model (Z.to_nat (Rtrunc (get3 x b l 3))) c).
  pose proof (sinusoid_bound d_model (Z.to_nat (Rtrunc (get3 x b l 4))) c).
  unfold temporal_fields. apply Rabs_le.
  destruct (String.eqb freq "t").
  - replace (INR 5) with 5%R by (cbn; ring). lra.
  - replace (INR 4) with 4%R by (cbn; ring). lra.
Qed.

Lemma TemporalEmbedding_fixed_bounded_witness :
  exists m y,
    TemporalEmbedding_init 2 "fixed" "h" (const_temporal_draw 1) = ok m /\
    TemporalEmbedding_forward m
      (mkT3 1 1 4 (fun _ _ k => IZR (Z.of_nat (k + 1)))) = ok y /\
    (Rabs (get3 y 0 0 0) <= 4)%R.
Proof.
  destruct (TemporalEmbedding_init_ok 2 "fixed" "h" (const_temporal_draw 1)
              eq_refl) as (m & Hm).
  destruct (TemporalEmbedding_fixed_bounded 2 "h" (const_temporal_draw 1) m
              (mkT3 1 1 4 (fun _ _ k => IZR (Z.of_nat (k + 1)))) Hm
              calendar_tensor_unit) as (y & Hy & Hb).
  exists m, y. split; [exact Hm |]. split; [exact Hy |].
  replace 4%R with (INR (temporal_fields "h")) by (cbn; ring).
  apply Hb; cbn; lia.
Defined.

(** ** TimeFeatureEmbedding *)

(** X11. [TimeFeatureEmbedding.forward] is a linear map without bias of
    the last axis: the module expects exactly [freq_map[freq]] features,
    returns a tensor of shape [batch, time, d_model] whose elements are
    the weighted sums of the features, and raises on any other number of
    features. *)
Theorem TimeFeatureEmbedding_forward_spec (d_model : nat)
  (embed_type freq : string) (r : LinearDraw) (m : TimeFeatureEmbedding)
  (x : Tensor3 R) :
  TimeFeatureEmbedding_init d_model embed_type freq r = ok m ->
  exists width,
    dict_get freq_map freq = ok width /\
    (dim2 x = width ->
     exists y,
       TimeFeatureEmbedding_forward m x = ok y /\
       shape3 y = (dim0 x, dim1 x, d_model) /\
       forall b l o, b < dim0 x -> l < dim1 x -> o < d_model ->
         get3 y b l o =
         Rsum width (fun i => get3 x b l i * draw_weight r o i)%R) /\
    (dim2 x <> width ->
     TimeFeatureEmbedding_forward m x = raise RuntimeError).
Proof.
  unfold TimeFeatureEmbedding_init. intros H.
  bind_inv H as width Hw. apply ok_inj in H. subst m.
  exists width. split; [exact Hw |].
  unfold TimeFeatureEmbedding_forward, Linear_forward3, Linear_init.
  cbn [embed in_features out_features].
  destruct (Nat.eqb_spec (dim2 x) width) as [He | Hne]; split.
  - intros _. eexists. split; [reflexivity |]. split; [reflexivity |].
    intros b l o _ _ _. cbn [get3]. unfold affine, bias_at.
    cbn [in_features lin_weight lin_bias get2]. apply Rplus_0_r.
  - intros Hne. contradiction.
  - intros He. contradiction.
  - intros _. reflexivity.
Qed.

Lemma TimeFeatureEmbedding_forward_spec_witness :
  exists m,
    TimeFeatureEmbedding_init 2 "timeF" "h" (const_linear_draw 1) = ok m /\
    (exists y, TimeFeatureEmbedding_forward m (mkT3 1 2 4 (fun _ _ _ => 1%R))
               = ok y /\ shape3 y = (1, 2, 2)) /\
    TimeFeatureEmbedding_forward m (mkT3 1 2 5 (fun _ _ _ => 1%R))
    = raise RuntimeError.
Proof.
  eexists. split; [reflexivity |].
  destruct (TimeFeatureEmbedding_forward_spec 2 "timeF" "h"
              (const_linear_draw 1) _ (mkT3 1 2 4 (fun _ _ _ => 1%R))
              eq_refl) as (w4 & Hw4 & Hok4 & _).
  destruct (TimeFeatureEmbedding_forward_spec 2 "timeF" "h"
              (const_linear_draw 1) _ (mkT3 1 2 5 (fun _ _ _ => 1%R))
              eq_refl) as (w5 & Hw5 & _ & Hbad5).
  apply ok_inj in Hw4. apply ok_inj in Hw5. subst w4 w5. split.
  - destruct (Hok4 eq_refl) as (y & Hy & Hs & _).
    exists y. split; [exact Hy | exact Hs].
  - apply Hbad5. cbn [dim2]. lia.
Defined.

(** ** DataEmbedding and DataEmbedding_wo_pos *)

Lemma add3_raise_dim1 (x y : Tensor3 R) :
  bdim (dim1 x) (dim1 y) = None -> add3 x y = raise RuntimeError.
Proof.
  intros H. unfold add3. rewrite H.
  destruct (bdim (dim0 x) (dim0 y)); reflexivity.
Qed.

Lemma add3_cases (x y : Tensor3 R) :
  (exists z, add3 x y = ok z) \/ add3 x y = raise RuntimeError.
Proof.
  unfold add3.
  destruct (bdim (dim0 x) (dim0 y)); [| right; reflexivity].
  destruct (bdim (dim1 x) (dim1 y)); [| right; reflexivity].
  destruct (bdim (dim2 x) (dim2 y)); [| right; reflexivity].
  left. eexists. reflexivity.
Qed.

Lemma bdim_long (L : nat) :
  default_max_len < L -> bdim L default_max_len = None.
Proof.
  intros H. unfold bdim.
  destruct (Nat.eqb_spec L default_max_len) as [E | _]; [lia |].
  destruct (Nat.eqb_spec L 1) as [E | _];
    [unfold default_max_len in H; lia |].
  destruct (Nat.eqb_spec default_max_len 1) as [E | _];
    [unfold default_max_len in E; lia | reflexivity].
Qed.

Lemma DataEmbedding_init_inv (tv : Version) (c_in d_model : nat)
  (embed_type freq : string) (p : R) (r : DataDraw) (m : DataEmbedding) :
  DataEmbedding_init tv c_in d_model embed_type freq p r = ok m ->
  exists pos tm,
    PositionalEmbedding_init d_model default_max_len = ok pos /\
    TemporalModule_init d_model embed_type freq (data_draw_temporal r)
      (data_draw_timeF r) = ok tm /\
    (0 <= p <= 1)%R /\
    m = mkDataEmbedding (TokenEmbedding_init tv c_in d_model (data_draw_conv r))
          pos tm (mkDropout p).
Proof.
  unfold DataEmbedding_init. intros H.
  bind_inv H as pos Hpos. bind_inv H as tm Htm.
  bind_inv H as dr Hdr. apply Dropout_init_inv in Hdr.
  destruct Hdr as [-> Hp].
  apply ok_inj in H. subst m. exists pos, tm.
  repeat (split; [assumption |]). reflexivity.
Qed.

Lemma DataEmbedding_wo_pos_init_inv (tv : Version) (c_in d_model : nat)
  (embed_type freq : string) (p : R) (r : DataDraw)
  (m : DataEmbedding_wo_pos) :
  DataEmbedding_wo_pos_init tv c_in d_model embed_type freq p r = ok m ->
  exists pos tm,
    PositionalEmbedding_init d_model default_max_len = ok pos /\
    TemporalModule_init d_model embed_type freq (data_draw_temporal r)
      (data_draw_timeF r) = ok tm /\
    (0 <= p <= 1)%R /\
    m = mkDataEmbedding_wo_pos
          (TokenEmbedding_init tv c_in d_model (data_draw_conv r))
          pos tm (mkDropout p).
Proof.
  unfold DataEmbedding_wo_pos_init. intros H.
  bind_inv H as pos Hpos. bind_inv H as tm Htm.
  bind_inv H as dr Hdr. apply Dropout_init_inv in Hdr.
  destruct Hdr as [-> Hp].
  apply ok_inj in H. subst m. exists pos, tm.
  repeat (split; [assumption |]). reflexivity.
Qed.

Section PlainEmbeddings.

Variables (tv : Version) (c_in d_model : nat) (embed_type freq : string).
Variables (p : R) (r : DataDraw).
Variables (mode : Mode) (x : Tensor3 R) (x_mark : option (Tensor3 R)).
Variables (B L : nat).

Hypothesis torch_version_ok : version_ge tv [1; 5; 0] = true.
Hypothesis shape_x : shape3 x = (B, L, c_in).
Hypothesis length_pos : 1 <= L.
Hypothesis shape_mark :
  forall xm, x_mark = Some xm ->
    dim0 xm = B /\ dim1 xm = L /\ temporal_input embed_type freq xm.

(** The sum of the value and the temporal embedding, which both modules
    compute first. *)
Lemma value_plus_temporal (pos : PositionalEmbedding) (tm : TemporalModule) :
  PositionalEmbedding_init d_model default_max_len = ok pos ->
  TemporalModule_init d_model embed_type freq (data_draw_temporal r)
    (data_draw_timeF r) = ok tm ->
  1 <= c_in ->
  exists v,
    TokenEmbedding_forward
      (TokenEmbedding_init tv c_in d_model (data_draw_conv r)) x = ok v /\
    shape3 v = (B, L, d_model) /\
    (forall b l d, b < B -> l < L -> d < d_model ->
       get3 v b l d = circular_conv (data_draw_conv r) x c_in L b l d) /\
    forall xm, x_mark = Some xm ->
      exists t s,
        TemporalModule_forward tm xm = ok t /\
        add3 v t = ok s /\
        shape3 s = (B, L, d_model) /\
        forall b l d, b < B -> l < L -> d < d_model ->
          get3 s b l d =
          (circular_conv (data_draw_conv r) x c_in L b l d
           + temporal_value tm xm b l d)%R.
Proof.
  intros Hpos Htm Hcin.
  destruct (PositionalEmbedding_init_inv _ _ _ Hpos) as (Hd0 & _ & _).
  destruct (TokenEmbedding_forward_ok tv c_in d_model (data_draw_conv r) x
              B L torch_version_ok ltac:(lia) shape_x length_pos Hcin)
    as (v & Hv & Hsv & Hgv).
  exists v. split; [exact Hv |]. split; [exact Hsv |].
  split; [exact Hgv |].
  intros xm Hxm. destruct (shape_mark xm Hxm) as (M0 & M1 & Hin).
  destruct (TemporalModule_forward_ok _ _ _ _ _ _ _ Htm Hin)
    as (t & Ht & Hst).
  destruct (add3_same v t) as (s & Hs & Hss & Hsg).
  { rewrite Hsv, Hst. congruence. }
  exists t, s. split; [exact Ht |]. split; [exact Hs |].
  split; [congruence |].
  unfold shape3 in Hsv. injection Hsv as V0 V1 V2.
  intros b l d Hb Hl Hd. rewrite Hsg by lia. rewrite Hgv by assumption.
  rewrite (temporal_value_ok _ _ _ _ _ _ Ht). reflexivity.
Qed.

Lemma DataEmbedding_forward_ok (m : DataEmbedding) :
  DataEmbedding_init tv c_in d_model embed_type freq p r = ok m ->
  L <= default_max_len ->
  1 <= c_in ->
  exists pre,
    DataEmbedding_forward m mode x x_mark
    = ok (Dropout_forward (de_dropout m) mode pre) /\
    shape3 pre = (B, L, d_model) /\
    forall b l d, b < B -> l < L -> d < d_model ->
      get3 pre b l d =
      (circular_conv (data_draw_conv r) x c_in L b l d
       + match x_mark with
         | None => 0
         | Some xm => temporal_value (de_temporal_embedding m) xm b l d
         end
       + sinusoid d_model l d)%R.
Proof.
  intros Hinit Hmax Hcin.
  destruct (DataEmbedding_init_inv _ _ _ _ _ _ _ _ Hinit)
    as (pos & tm & Hpos & Htm & _ & ->).
  destruct (value_plus_temporal pos tm Hpos Htm Hcin)
    as (v & Hv & Hsv & Hgv & Hmark).
  destruct (PositionalEmbedding_init_inv _ _ _ Hpos) as (Hd0 & Hps & Hpg).
  unfold shape3 in Hps. injection Hps as P0 P1 P2.
  pose proof shape_x as Hx. unfold shape3 in Hx. injection Hx as X0 X1 X2.
  unfold DataEmbedding_forward.
  cbn [de_value_embedding de_position_embedding de_temporal_embedding
       de_dropout].
  rewrite Hv.
  destruct x_mark as [xm |]; cbn [bind ok].
  - destruct (Hmark xm eq_refl) as (t & s & Ht & Hs & Hss & Hsg).
    rewrite Ht. cbn [bind ok]. rewrite Hs. cbn [bind ok].
    unfold shape3 in Hss. injection Hss as S0 S1 S2.
    destruct (add3_row s (PositionalEmbedding_forward pos x))
      as (z & Hz & Hzs & Hzg).
    { exact P0. }
    { cbn [PositionalEmbedding_forward dim1]. rewrite P1, X1, S1. lia. }
    { cbn [PositionalEmbedding_forward dim2]. rewrite P2. congruence. }
    rewrite Hz. cbn [bind ok]. exists z. split; [reflexivity |].
    rewrite Hzs. unfold shape3. split; [congruence |].
    intros b l d Hb Hl Hd. rewrite Hzg by lia.
    cbn [get3 PositionalEmbedding_forward]. rewrite Hpg, Hsg by lia.
    reflexivity.
  - unfold shape3 in Hsv. injection Hsv as V0 V1 V2.
    destruct (add3_row v (PositionalEmbedding_forward pos x))
      as (z & Hz & Hzs & Hzg).
    { exact P0. }
    { cbn [PositionalEmbedding_forward dim1]. rewrite P1, X1, V1. lia. }
    { cbn [PositionalEmbedding_forward dim2]. rewrite P2. congruence. }
    rewrite Hz. cbn [bind ok]. exists z. split; [reflexivity |].
    rewrite Hzs. unfold shape3. split; [congruence |].
    intros b l d Hb Hl Hd. rewrite Hzg by lia.
    cbn [get3 PositionalEmbedding_forward]. rewrite Hpg, Hgv by lia.
    rewrite Rplus_0_r. reflexivity.
Qed.

Lemma DataEmbedding_forward_long (m : DataEmbedding) :
  DataEmbedding_init tv c_in d_model embed_type freq p r = ok m ->
  default_max_len < L ->
  DataEmbedding_forward m mode x x_mark = raise RuntimeError.
Proof.
  intros Hinit Hlong.
  destruct (DataEmbedding_init_inv _ _ _ _ _ _ _ _ Hinit)
    as (pos & tm & Hpos & Htm & _ & ->).
  destruct (PositionalEmbedding_init_inv _ _ _ Hpos) as (Hd0 & Hps & Hpg).
  unfold shape3 in Hps. injection Hps as P0 P1 P2.
  destruct (TokenEmbedding_forward_channels tv c_in d_model (data_draw_conv r)
              x B L torch_version_ok ltac:(lia) shape_x length_pos)
    as (v & Hv & Hsv & _).
  unfold shape3 in Hsv. injection Hsv as V0 V1 V2.
  pose proof shape_x as Hx. unfold shape3 in Hx. injection Hx as X0 X1 X2.
  assert (Hpe : forall s : Tensor3 R, dim1 s = L ->
                  add3 s (PositionalEmbedding_forward pos x)
                  = raise RuntimeError).
  { intros s Hs. apply add3_raise_dim1.
    cbn [PositionalEmbedding_forward dim1]. rewrite P1, X1, Hs.
    rewrite Nat.min_r by lia. apply bdim_long. exact Hlong. }
  unfold DataEmbedding_forward.
  cbn [de_value_embedding de_position_embedding de_temporal_embedding
       de_dropout].
  rewrite Hv.
  destruct x_mark as [xm |]; cbn [bind ok].
  - destruct (shape_mark xm eq_refl) as (M0 & M1 & Hin).
    destruct (TemporalModule_forward_ok _ _ _ _ _ _ _ Htm Hin)
      as (t & -> & Hst).
    unfold shape3 in Hst. injection Hst as T0 T1 T2.
    cbn [bind ok].
    destruct (add3_cases v t) as [(s & Hs) | ->]; [| reflexivity].
    rewrite Hs. cbn [bind ok].
    destruct (add3_inv _ _ _ Hs) as (_ & H1 & _).
    rewrite V1, T1, M1, bdim_same in H1.
    rewrite Hpe; [reflexivity | congruence].
  - rewrite Hpe by exact V1. reflexivity.
Qed.

Lemma DataEmbedding_wo_pos_forward_ok (m : DataEmbedding_wo_pos) :
  DataEmbedding_wo_pos_init tv c_in d_model embed_type freq p r = ok m ->
  1 <= c_in ->
  exists pre,
    DataEmbedding_wo_pos_forward m mode x x_mark
    = ok (Dropout_forward (wp_dropout m) mode pre) /\
    shape3 pre = (B, L, d_model) /\
    forall b l d, b < B -> l < L -> d < d_model ->
      get3 pre b l d =
      (circular_conv (data_draw_conv r) x c_in L b l d
       + match x_mark with
         | None => 0
         | Some xm => temporal_value (wp_temporal_embedding m) xm b l d
         end)%R.
Proof.
  intros Hinit Hcin.
  destruct (DataEmbedding_wo_pos_init_inv _ _ _ _ _ _ _ _ Hinit)
    as (pos & tm & Hpos & Htm & _ & ->).
  destruct (value_plus_temporal pos tm Hpos Htm Hcin)
    as (v & Hv & Hsv & Hgv & Hmark).
  unfold DataEmbedding_wo_pos_forward.
  cbn [wp_value_embedding wp_position_embedding wp_temporal_embedding
       wp_dropout].
  rewrite Hv.
  destruct x_mark as [xm |]; cbn [bind ok].
  - destruct (Hmark xm eq_refl) as (t & s & Ht & Hs & Hss & Hsg).
    rewrite Ht. cbn [bind ok]. rewrite Hs. cbn [bind ok].
    exists s. split; [reflexivity |]. split; [exact Hss | exact Hsg].
  - exists v. split; [reflexivity |]. split; [exact Hsv |].
    intros b l d Hb Hl Hd. rewrite Hgv by assumption.
    rewrite Rplus_0_r. reflexivity.
Qed.

End PlainEmbeddings.

Lemma DataEmbedding_init_ok (tv : Version) (c_in d_model : nat)
  (embed_type freq : string) (p : R) (r : DataDraw) :
  (0 <= p <= 1)%R ->
  d_model_ok d_model = true ->
  (String.eqb embed_type "timeF" = true -> in_list freq freq_codes = true) ->
  exists m, DataEmbedding_init tv c_in d_model embed_type freq p r = ok m.
Proof.
  intros Hp Hd Hf. unfold DataEmbedding_init.
  destruct (PositionalEmbedding_init_ok d_model default_max_len Hd)
    as (pos & ->).
  destruct (TemporalModule_init_ok d_model embed_type freq
              (data_draw_temporal r) (data_draw_timeF r) Hd Hf) as (tm & ->).
  rewrite (Dropout_init_ok _ Hp). cbn [bind ok]. eexists. reflexivity.
Qed.

Lemma DataEmbedding_wo_pos_init_ok (tv : Version) (c_in d_model : nat)
  (embed_type freq : string) (p : R) (r : DataDraw) :
  (0 <= p <= 1)%R ->
  d_model_ok d_model = true ->
  (String.eqb embed_type "timeF" = true -> in_list freq freq_codes = true) ->
  exists m,
    DataEmbedding_wo_pos_init tv c_in d_model embed_type freq p r = ok m.
Proof.
  intros Hp Hd Hf. unfold DataEmbedding_wo_pos_init.
  destruct (PositionalEmbedding_init_ok d_model default_max_len Hd)
    as (pos & ->).
  destruct (TemporalModule_init_ok d_model embed_type freq
              (data_draw_temporal r) (data_draw_timeF r) Hd Hf) as (tm & ->).
  rewrite (Dropout_init_ok _ Hp). cbn [bind ok]. eexists. reflexivity.
Qed.

(** X12. [DataEmbedding.forward], on a sequence of shape
    [batch, L, c_in] with [1 <= c_in] and [1 <= L <= 5000] (and a calendar
    input of the same batch and length, if one is given), returns the
    dropout of a tensor of shape [batch, L, d_model]: the circular
    convolution of the sequence, plus the temporal embedding of the
    calendar input, plus the sinusoid of the position. *)
Theorem DataEmbedding_forward_spec (tv : Version) (c_in d_model : nat)
  (embed_type freq : string) (p : R) (r : DataDraw) (m : DataEmbedding)
  (mode : Mode) (x : Tensor3 R) (x_mark : option (Tensor3 R)) (B L : nat) :
  DataEmbedding_init tv c_in d_model embed_type freq p r = ok m ->
  version_ge tv [1; 5; 0] = true ->
  shape3 x = (B, L, c_in) ->
  1 <= c_in ->
  1 <= L -> L <= default_max_len ->
  (forall xm, x_mark = Some xm ->
     dim0 xm = B /\ dim1 xm = L /\ temporal_input embed_type freq xm) ->
  exists pre,
    DataEmbedding_forward m mode x x_mark
    = ok (Dropout_forward (de_dropout m) mode pre) /\
    shape3 pre = (B, L, d_model) /\
    forall b l d, b < B -> l < L -> d < d_model ->
      get3 pre b l d =
      (circular_conv (data_draw_conv r) x c_in L b l d
       + match x_mark with
         | None => 0
         | Some xm => temporal_value (de_temporal_embedding m) xm b l d
         end
       + sinusoid d_model l d)%R.
Proof.
  intros Hinit Hv Hx Hcin HL Hmax Hmark.
  exact (DataEmbedding_forward_ok tv c_in d_model embed_type freq p r mode
           x x_mark B L Hv Hx HL Hmark m Hinit Hmax Hcin).
Qed.

Lemma DataEmbedding_forward_spec_witness :
  let x := mkT3 1 2 1 (fun _ l _ => INR l) in
  let x_mark := Some (mkT3 1 2 4 (fun _ _ _ => 0%R)) in
  exists m y,
    DataEmbedding_init [2; 1; 0] 1 2 "timeF" "h" (1 / 10)
      (const_data_draw 1) = ok m /\
    DataEmbedding_forward m Eval x x_mark = ok y /\
    shape3 y = (1, 2, 2).
Proof.
  cbv zeta.
  destruct (DataEmbedding_init_ok [2; 1; 0] 1 2 "timeF" "h" (1 / 10)
              (const_data_draw 1)) as (m & Hm);
    [lra | reflexivity | reflexivity |].
  destruct (DataEmbedding_forward_spec [2; 1; 0] 1 2 "timeF" "h" (1 / 10)
              (const_data_draw 1) m Eval (mkT3 1 2 1 (fun _ l _ => INR l))
              (Some (mkT3 1 2 4 (fun _ _ _ => 0%R))) 1 2 Hm eq_refl eq_refl)
    as (pre & Hy & Hs & _).
  - lia.
  - lia.
  - unfold default_max_len. lia.
  - intros xm Hxm. injection Hxm as <-.
    split; [reflexivity |]. split; reflexivity.
  - exists m, pre. split; [exact Hm |]. split; [exact Hy | exact Hs].
Defined.

(** X13. The positional table of [DataEmbedding] has 5000 rows: on a
    well-shaped sequence of more than 5000 time steps,
    [DataEmbedding.forward] raises the [RuntimeError] of the addition of
    the positional embedding. *)
Theorem DataEmbedding_forward_long_sequence (tv : Version)
  (c_in d_model : nat) (embed_type freq : string) (p : R) (r : DataDraw)
  (m : DataEmbedding) (mode : Mode) (x : Tensor3 R)
  (x_mark : option (Tensor3 R)) (B L : nat) :
  DataEmbedding_init tv c_in d_model embed_type freq p r = ok m ->
  version_ge tv [1; 5; 0] = true ->
  shape3 x = (B, L, c_in) ->
  default_max_len < L ->
  (forall xm, x_mark = Some xm ->
     dim0 xm = B /\ dim1 xm = L /\ temporal_input embed_type freq xm) ->
  DataEmbedding_forward m mode x x_mark = raise RuntimeError.
Proof.
  intros Hinit Hv Hx Hlong Hmark.
  exact (DataEmbedding_forward_long tv c_in d_model embed_type freq p r mode
           x x_mark B L Hv Hx ltac:(lia) Hmark m Hinit Hlong).
Qed.

Lemma DataEmbedding_forward_long_sequence_witness :
  exists m,
    DataEmbedding_init [2; 1; 0] 1 2 "timeF" "h" (1 / 10)
      (const_data_draw 1) = ok m /\
    DataEmbedding_forward m Eval (mkT3 1 (default_max_len + 1) 1 (fun _ l _ => INR l)) None
    = raise RuntimeError.
Proof.
  destruct (DataEmbedding_init_ok [2; 1; 0] 1 2 "timeF" "h" (1 / 10)
              (const_data_draw 1)) as (m & Hm);
    [lra | reflexivity | reflexivity |].
  exists m. split; [exact Hm |].
  apply (DataEmbedding_forward_long_sequence [2; 1; 0] 1 2 "timeF" "h"
           (1 / 10) (const_data_draw 1) m Eval
           (mkT3 1 (default_max_len + 1) 1 (fun _ l _ => INR l)) None 1 (default_max_len + 1) Hm eq_refl
           eq_refl).
  - unfold default_max_len. lia.
  - intros xm Hxm. discriminate Hxm.
Defined.

(** X14. [DataEmbedding_wo_pos.forward], on a sequence of shape
    [batch, L, c_in] with [1 <= c_in] and [1 <= L] (and a calendar input
    of the same batch and length, if one is given), returns the dropout
    of a tensor of shape [batch, L, d_model]: the circular convolution of
    the sequence plus the temporal embedding of the calendar input.  No
    positional term is added and the length is not bounded by the
    positional table. *)
Theorem DataEmbedding_wo_pos_forward_spec (tv : Version)
  (c_in d_model : nat) (embed_type freq : string) (p : R) (r : DataDraw)
  (m : DataEmbedding_wo_pos) (mode : Mode) (x : Tensor3 R)
  (x_mark : option (Tensor3 R)) (B L : nat) :
  DataEmbedding_wo_pos_init tv c_in d_model embed_type freq p r = ok m ->
  version_ge tv [1; 5; 0] = true ->
  shape3 x = (B, L, c_in) ->
  1 <= c_in ->
  1 <= L ->
  (forall xm, x_mark = Some xm ->
     dim0 xm = B /\ dim1 xm = L /\ temporal_input embed_type freq xm) ->
  exists pre,
    DataEmbedding_wo_pos_forward m mode x x_mark
    = ok (Dropout_forward (wp_dropout m) mode pre) /\
    shape3 pre = (B, L, d_model) /\
    forall b l d, b < B -> l < L -> d < d_model ->
      get3 pre b l d =
      (circular_conv (data_draw_conv r) x c_in L b l d
       + match x_mark with
         | None => 0
         | Some xm => temporal_value (wp_temporal_embedding m) xm b l d
         end)%R.
Proof.
  intros Hinit Hv Hx Hcin HL Hmark.
  exact (DataEmbedding_wo_pos_forward_ok tv c_in d_model embed_type freq p r
           mode x x_mark B L Hv Hx HL Hmark m Hinit Hcin).
Qed.

Lemma DataEmbedding_wo_pos_forward_spec_witness :
  exists m y,
    DataEmbedding_wo_pos_init [2; 1; 0] 1 2 "timeF" "h" (1 / 10)
      (const_data_draw 1) = ok m /\
    DataEmbedding_wo_pos_forward m Eval
      (mkT3 1 (default_max_len + 1) 1 (fun _ l _ => INR l)) None = ok y /\
    shape3 y = (1, default_max_len + 1, 2).
Proof.
  destruct (DataEmbedding_wo_pos_init_ok [2; 1; 0] 1 2 "timeF" "h" (1 / 10)
              (const_data_draw 1)) as (m & Hm);
    [lra | reflexivity | reflexivity |].
  destruct (DataEmbedding_wo_pos_forward_spec [2; 1; 0] 1 2 "timeF" "h"
              (1 / 10) (const_data_draw 1) m Eval
              (mkT3 1 (default_max_len + 1) 1 (fun _ l _ => INR l)) None 1 (default_max_len + 1) Hm eq_refl
              eq_refl)
    as (pre & Hy & Hs & _).
  - lia.
  - lia.
  - intros xm Hxm. discriminate Hxm.
  - exists m, pre. split; [exact Hm |]. split; [exact Hy | exact Hs].
Defined.

(** X15. In evaluation mode, for the same constructor arguments with
    [1 <= c_in] and the same drawn parameters, the output of
    [DataEmbedding] is the output of [DataEmbedding_wo_pos] plus the
    sinusoid of the position. *)
Theorem DataEmbedding_is_wo_pos_plus_positional (tv : Version)
  (c_in d_model : nat) (embed_type freq : string) (p : R) (r : DataDraw)
  (m : DataEmbedding) (m' : DataEmbedding_wo_pos) (x : Tensor3 R)
  (x_mark : option (Tensor3 R)) (B L : nat) :
  DataEmbedding_init tv c_in d_model embed_type freq p r = ok m ->
  DataEmbedding_wo_pos_init tv c_in d_model embed_type freq p r = ok m' ->
  version_ge tv [1; 5; 0] = true ->
  shape3 x = (B, L, c_in) ->
  1 <= c_in ->
  1 <= L -> L <= default_max_len ->
  (forall xm, x_mark = Some xm ->
     dim0 xm = B /\ dim1 xm = L /\ temporal_input embed_type freq xm) ->
  exists y y',
    DataEmbedding_forward m Eval x x_mark = ok y /\
    DataEmbedding_wo_pos_forward m' Eval x x_mark = ok y' /\
    shape3 y = shape3 y' /\
    forall b l d, b < B -> l < L -> d < d_model ->
      get3 y b l d = (get3 y' b l d + sinusoid d_model l d)%R.
Proof.
  intros Hinit Hinit' Hv Hx Hcin HL Hmax Hmark.
  destruct (DataEmbedding_forward_ok tv c_in d_model embed_type freq p r Eval
              x x_mark B L Hv Hx HL Hmark m Hinit Hmax Hcin)
    as (y & Hy & Hs & Hg).
  destruct (DataEmbedding_wo_pos_forward_ok tv c_in d_model embed_type freq
              p r Eval x x_mark B L Hv Hx HL Hmark m' Hinit' Hcin)
    as (y' & Hy' & Hs' & Hg').
  exists y, y'. split; [exact Hy |]. split; [exact Hy' |].
  split; [congruence |].
  intros b l d Hb Hl Hd. rewrite Hg, Hg' by assumption.
  destruct (DataEmbedding_init_inv _ _ _ _ _ _ _ _ Hinit)
    as (pos & tm & _ & Htm & _ & ->).
  destruct (DataEmbedding_wo_pos_init_inv _ _ _ _ _ _ _ _ Hinit')
    as (pos' & tm' & _ & Htm' & _ & ->).
  rewrite Htm in Htm'. apply ok_inj in Htm'. subst tm'.
  cbn [de_temporal_embedding wp_temporal_embedding]. reflexivity.
Qed.

Lemma DataEmbedding_is_wo_pos_plus_positional_witness :
  let x := mkT3 1 2 1 (fun _ l _ => INR l) in
  exists m m' y y',
    DataEmbedding_init [2; 1; 0] 1 2 "timeF" "h" (1 / 10)
      (const_data_draw 1) = ok m /\
    DataEmbedding_wo_pos_init [2; 1; 0] 1 2 "timeF" "h" (1 / 10)
      (const_data_draw 1) = ok m' /\
    DataEmbedding_forward m Eval x None = ok y /\
    DataEmbedding_wo_pos_forward m' Eval x None = ok y' /\
    get3 y 0 1 0 = (get3 y' 0 1 0 + sinusoid 2 1 0)%R.
Proof.
  cbv zeta.
  destruct (DataEmbedding_init_ok [2; 1; 0] 1 2 "timeF" "h" (1 / 10)
              (const_data_draw 1)) as (m & Hm);
    [lra | reflexivity | reflexivity |].
  destruct (DataEmbedding_wo_pos_init_ok [2; 1; 0] 1 2 "timeF" "h" (1 / 10)
              (const_data_draw 1)) as (m' & Hm');
    [lra | reflexivity | reflexivity |].
  destruct (DataEmbedding_is_wo_pos_plus_positional [2; 1; 0] 1 2 "timeF"
              "h" (1 / 10) (const_data_draw 1) m m'
              (mkT3 1 2 1 (fun _ l _ => INR l)) None 1 2 Hm Hm' eq_refl
              eq_refl)
    as (y & y' & Hy & Hy' & _ & Hg).
  - lia.
  - lia.
  - unfold default_max_len. lia.
  - intros xm Hxm. discriminate Hxm.
  - exists m, m', y, y'. repeat (split; [assumption |]).
    apply Hg; lia.
Defined.

(** X16. The constructor of [DataEmbedding_wo_pos] builds a positional
    table that [forward] never reads, and so has the conditions of the
    constructor of [DataEmbedding]: each of them succeeds exactly when the
    dropout probability is in [0, 1], the sinusoidal table of width
    [d_model] can be built, and, for [embed_type = "timeF"], the frequency
    is a key of the frequency map. *)
Theorem DataEmbedding_construction (tv : Version) (c_in d_model : nat)
  (embed_type freq : string) (p : R) (r : DataDraw) :
  let accepted :=
    (0 <= p <= 1)%R /\ d_model_ok d_model = true /\
    (String.eqb embed_type "timeF" = true ->
     in_list freq freq_codes = true) in
  ((exists m, DataEmbedding_init tv c_in d_model embed_type freq p r = ok m)
   <-> accepted) /\
  ((exists m,
       DataEmbedding_wo_pos_init tv c_in d_model embed_type freq p r = ok m)
   <-> accepted) /\
  (Nat.odd d_model = true -> 3 <= d_model ->
   DataEmbedding_wo_pos_init tv c_in d_model embed_type freq p r
   = raise RuntimeError).
Proof.
  cbv zeta. split; [| split].
  - split.
    + intros (m & Hm).
      destruct (DataEmbedding_init_inv _ _ _ _ _ _ _ _ Hm)
        as (pos & tm & Hpos & Htm & Hp & _).
      split; [exact Hp |]. split.
      * apply (PositionalEmbedding_init_d_model_ok _ _ _ Hpos).
      * apply (TemporalModule_init_freq _ _ _ _ _ _ Htm).
    + intros (Hp & Hd & Hf). apply DataEmbedding_init_ok; assumption.
  - split.
    + intros (m & Hm).
      destruct (DataEmbedding_wo_pos_init_inv _ _ _ _ _ _ _ _ Hm)
        as (pos & tm & Hpos & Htm & Hp & _).
      split; [exact Hp |]. split.
      * apply (PositionalEmbedding_init_d_model_ok _ _ _ Hpos).
      * apply (TemporalModule_init_freq _ _ _ _ _ _ Htm).
    + intros (Hp & Hd & Hf). apply DataEmbedding_wo_pos_init_ok; assumption.
  - intros Ho H3. destruct (d_model_ok_odd _ Ho H3) as [Hd Hf].
    unfold DataEmbedding_wo_pos_init.
    rewrite (PositionalEmbedding_init_odd _ _ Hd Hf). reflexivity.
Qed.

Lemma DataEmbedding_construction_witness :
  (exists m, DataEmbedding_wo_pos_init [2; 1; 0] 7 512 "timeF" "h" (1 / 10)
               (const_data_draw 0) = ok m) /\
  DataEmbedding_wo_pos_init [2; 1; 0] 7 511 "timeF" "h" (1 / 10)
    (const_data_draw 0) = raise RuntimeError.
Proof.
  split.
  - apply (proj1 (proj2 (DataEmbedding_construction [2; 1; 0] 7 512 "timeF"
                           "h" (1 / 10) (const_data_draw 0)))).
    split; [lra |]. split; [reflexivity | intros _; reflexivity].
  - apply (proj2 (proj2 (DataEmbedding_construction [2; 1; 0] 7 511 "timeF"
                           "h" (1 / 10) (const_data_draw 0))));
      [reflexivity | lia].
Defined.

(** ** DataEmbedding_inverted *)

Lemma DataEmbedding_inverted_init_inv (c_in d_model : nat)
  (embed_type freq : string) (p : R) (r : LinearDraw)
  (m : DataEmbedding_inverted) :
  DataEmbedding_inverted_init c_in d_model embed_type freq p r = ok m ->
  m = mkInverted (Linear_init c_in d_model true r) (mkDropout p).
Proof.
  unfold DataEmbedding_inverted_init. intros H.
  bind_inv H as dr Hdr. apply Dropout_init_inv in Hdr. destruct Hdr as [-> _].
  apply ok_inj in H. subst m. reflexivity.
Qed.

Lemma DataEmbedding_inverted_forward_ok (c_in d_model : nat)
  (embed_type freq : string) (p : R) (r : LinearDraw)
  (m : DataEmbedding_inverted) (mode : Mode) (x : Tensor3 R)
  (x_mark : option (Tensor3 R)) (B V : nat) :
  DataEmbedding_inverted_init c_in d_model embed_type freq p r = ok m ->
  shape3 x = (B, c_in, V) ->
  (forall xm, x_mark = Some xm -> dim0 xm = B /\ dim1 xm = c_in) ->
  exists pre,
    DataEmbedding_inverted_forward m mode x x_mark
    = ok (Dropout_forward (di_dropout m) mode pre) /\
    shape3 pre = (B, V + mark_features x_mark, d_model) /\
    forall b l o, b < B -> l < V + mark_features x_mark -> o < d_model ->
      get3 pre b l o =
      affine (Linear_init c_in d_model true r) (variate_row x x_mark b l) o.
Proof.
  intros Hinit Hx Hmark.
  rewrite (DataEmbedding_inverted_init_inv _ _ _ _ _ _ _ Hinit).
  unfold shape3 in Hx. injection Hx as X0 X1 X2.
  unfold DataEmbedding_inverted_forward. cbn [di_value_embedding di_dropout].
  destruct x_mark as [xm |]; cbn [mark_features].
  - destruct (Hmark xm eq_refl) as (M0 & M1).
    rewrite cat1_ok by (cbn [permute021 dim0 dim2]; congruence).
    cbn [bind ok].
    rewrite Linear_forward3_ok
      by (cbn [permute021 dim0 dim1 dim2 Linear_init in_features];
          congruence).
    cbn [bind ok permute021 dim0 dim1 dim2 get3 Linear_init out_features].
    eexists. split; [reflexivity |].
    unfold shape3. cbn [dim0 dim1 dim2]. rewrite X0, X2.
    split; [reflexivity |].
    intros b l o Hb Hl Ho. cbn [get3].
    apply affine_ext. intros i Hi. unfold variate_row. rewrite X2.
    reflexivity.
  - rewrite Linear_forward3_ok
      by (cbn [permute021 dim0 dim1 dim2 Linear_init in_features];
          congruence).
    cbn [bind ok permute021 dim0 dim1 dim2 get3 Linear_init out_features].
    eexists. split; [reflexivity |].
    unfold shape3. cbn [dim0 dim1 dim2]. rewrite X0, X2, Nat.add_0_r.
    split; [reflexivity |].
    intros b l o Hb Hl Ho. cbn [get3].
    apply affine_ext. intros i Hi. unfold variate_row. rewrite X2.
    destruct (Nat.ltb_spec l V) as [_ | Hge]; [reflexivity | lia].
Qed.

(** X17. [DataEmbedding_inverted.forward] embeds every variate as one
    token: on a series of shape [batch, T, V] with [T = c_in] (and a
    calendar input of [F] features with the same batch and length) it
    returns the dropout of a tensor of shape [batch, V + F, d_model],
    whose row [l] is the affine map of the whole series of variate [l],
    or of calendar feature [l - V]; for [T <> c_in] it raises. *)
Theorem DataEmbedding_inverted_forward_spec (c_in d_model : nat)
  (embed_type freq : string) (p : R) (r : LinearDraw)
  (m : DataEmbedding_inverted) (mode : Mode) (x : Tensor3 R)
  (x_mark : option (Tensor3 R)) (B T V : nat) :
  DataEmbedding_inverted_init c_in d_model embed_type freq p r = ok m ->
  shape3 x = (B, T, V) ->
  (forall xm, x_mark = Some xm -> dim0 xm = B /\ dim1 xm = T) ->
  (T = c_in ->
   exists pre,
     DataEmbedding_inverted_forward m mode x x_mark
     = ok (Dropout_forward (di_dropout m) mode pre) /\
     shape3 pre = (B, V + mark_features x_mark, d_model) /\
     forall b l o, b < B -> l < V + mark_features x_mark -> o < d_model ->
       get3 pre b l o =
       (Rsum c_in (fun t => variate_row x x_mark b l t * draw_weight r o t)
        + draw_bias r o)%R) /\
  (T <> c_in ->
   DataEmbedding_inverted_forward m mode x x_mark = raise RuntimeError).
Proof.
  intros Hinit Hx Hmark. split.
  - intros ->.
    exact (DataEmbedding_inverted_forward_ok c_in d_model embed_type freq p r
             m mode x x_mark B V Hinit Hx Hmark).
  - intros Hne.
    rewrite (DataEmbedding_inverted_init_inv _ _ _ _ _ _ _ Hinit).
    unfold shape3 in Hx. injection Hx as X0 X1 X2.
    unfold DataEmbedding_inverted_forward.
    cbn [di_value_embedding di_dropout].
    destruct x_mark as [xm |].
    + destruct (Hmark xm eq_refl) as (M0 & M1).
      rewrite cat1_ok by (cbn [permute021 dim0 dim2]; congruence).
      cbn [bind ok]. unfold Linear_forward3.
      cbn [permute021 dim0 dim1 dim2 Linear_init in_features].
      rewrite X1. destruct (Nat.eqb_spec T c_in); [contradiction |].
      reflexivity.
    + unfold Linear_forward3.
      cbn [permute021 dim0 dim1 dim2 Linear_init in_features].
      rewrite X1. destruct (Nat.eqb_spec T c_in); [contradiction |].
      reflexivity.
Qed.

Lemma DataEmbedding_inverted_forward_spec_witness :
  let m := mkInverted (Linear_init 2 3 true (const_linear_draw 1))
                      (mkDropout (1 / 10)) in
  let x_mark := Some (mkT3 1 2 4 (fun _ _ _ => 0%R)) in
  (exists y, DataEmbedding_inverted_forward m Eval
               (mkT3 1 2 5 (fun _ t _ => INR t)) x_mark = ok y /\
             shape3 y = (1, 9, 3)) /\
  DataEmbedding_inverted_forward m Eval
    (mkT3 1 3 5 (fun _ t _ => INR t)) None = raise RuntimeError.
Proof.
  cbv zeta.
  assert (Hm : DataEmbedding_inverted_init 2 3 "fixed" "h" (1 / 10)
                 (const_linear_draw 1)
               = ok (mkInverted (Linear_init 2 3 true (const_linear_draw 1))
                       (mkDropout (1 / 10)))).
  { unfold DataEmbedding_inverted_init.
    rewrite Dropout_init_ok by lra. reflexivity. }
  split.
  - destruct (proj1 (DataEmbedding_inverted_forward_spec 2 3 "fixed" "h"
                       (1 / 10) (const_linear_draw 1) _ Eval
                       (mkT3 1 2 5 (fun _ t _ => INR t))
                       (Some (mkT3 1 2 4 (fun _ _ _ => 0%R))) 1 2 5 Hm
                       eq_refl
                       ltac:(intros xm Hxm; injection Hxm as <-;
                             split; reflexivity))
                eq_refl) as (y & Hy & Hs & _).
    exists y. split; [exact Hy | exact Hs].
  - apply (proj2 (DataEmbedding_inverted_forward_spec 2 3 "fixed" "h"
                    (1 / 10) (const_linear_draw 1) _ Eval
                    (mkT3 1 3 5 (fun _ t _ => INR t)) None 1 3 5 Hm eq_refl
                    ltac:(intros xm Hxm; discriminate Hxm))).
    lia.
Defined.

(** X18. Under [two_layer_mlp] and in evaluation mode,
    [DataEmbedding_inverted_WithExoPromptTuning] extends
    [DataEmbedding_inverted] with the same value embedding: its output is
    the output of the plain module followed, along the token axis, by
    [num_virtual_tokens] more rows. *)
Theorem inverted_prompt_tuning_extends_inverted (c_in d_model : nat)
  (embed_type freq embed_type' freq' : string) (p : R)
  (nvt exo_dim hidden : nat) (r : InvExoDraw)
  (m : DataEmbedding_inverted_WithExoPromptTuning)
  (m' : DataEmbedding_inverted) (x : Tensor3 R)
  (x_mark : option (Tensor3 R)) (exo_prompt : Tensor2 R) (B V : nat) :
  DataEmbedding_inverted_WithExoPromptTuning_init c_in d_model embed_type
    freq p "two_layer_mlp" nvt exo_dim hidden r = ok m ->
  DataEmbedding_inverted_init c_in d_model embed_type' freq' p
    (inv_draw_value r) = ok m' ->
  shape3 x = (B, c_in, V) ->
  shape2 exo_prompt = (B, exo_dim) ->
  1 <= nvt ->
  (forall xm, x_mark = Some xm -> dim0 xm = B /\ dim1 xm = c_in) ->
  exists y y',
    DataEmbedding_inverted_WithExoPromptTuning_forward m Eval x x_mark
      exo_prompt = ok y /\
    DataEmbedding_inverted_forward m' Eval x x_mark = ok y' /\
    shape3 y = (dim0 y', dim1 y' + nvt, dim2 y') /\
    forall b l o, b < dim0 y' -> l < dim1 y' -> o < dim2 y' ->
      get3 y b l o = get3 y' b l o.
Proof.
  intros Hinit Hinit' Hx Hexo Hn Hmark.
  destruct (InvExo_forward_mlp c_in d_model embed_type freq p nvt exo_dim
              hidden r Eval x x_mark exo_prompt B V Hx Hexo Hmark m Hinit Hn)
    as (y & Hy & Hs & Hg).
  destruct (DataEmbedding_inverted_forward_ok c_in d_model embed_type' freq'
              p (inv_draw_value r) m' Eval x x_mark B V Hinit' Hx Hmark)
    as (y' & Hy' & Hs' & Hg').
  cbn [Dropout_forward] in Hy, Hy'.
  exists y, y'. split; [exact Hy |]. split; [exact Hy' |].
  unfold shape3 in Hs'. injection Hs' as S0 S1 S2.
  rewrite S0, S1, S2. split; [exact Hs |].
  intros b l o Hb Hl Ho. rewrite Hg, Hg' by lia.
  destruct (Nat.ltb_spec l (V + mark_features x_mark)) as [_ | Hge];
    [| lia].
  destruct (InvExo_init_inv _ _ _ _ _ _ _ _ _ _ _ Hinit)
    as (proj & _ & ->).
  reflexivity.
Qed.

Lemma inverted_prompt_tuning_extends_inverted_witness :
  let x := mkT3 1 2 3 (fun _ t _ => INR t) in
  let exo_prompt := mkT2 1 1 (fun _ _ => 1%R) in
  exists m m' y y',
    DataEmbedding_inverted_WithExoPromptTuning_init 2 2 "fixed" "h" (1 / 10)
      "two_layer_mlp" 4 1 1 (const_inv_exo_draw 1) = ok m /\
    DataEmbedding_inverted_init 2 2 "fixed" "h" (1 / 10)
      (const_linear_draw 1) = ok m' /\
    DataEmbedding_inverted_WithExoPromptTuning_forward m Eval x None
      exo_prompt = ok y /\
    DataEmbedding_inverted_forward m' Eval x None = ok y' /\
    shape3 y = (dim0 y', dim1 y' + 4, dim2 y').
Proof.
  cbv zeta.
  destruct (InvExo_init_ok 2 2 "fixed" "h" (1 / 10) "two_layer_mlp" 4 1 1
              (const_inv_exo_draw 1)) as (m & Hm); [reflexivity | lra |].
  assert (Hm' : DataEmbedding_inverted_init 2 2 "fixed" "h" (1 / 10)
                  (const_linear_draw 1)
                = ok (mkInverted (Linear_init 2 2 true (const_linear_draw 1))
                        (mkDropout (1 / 10)))).
  { unfold DataEmbedding_inverted_init.
    rewrite Dropout_init_ok by lra. reflexivity. }
  destruct (inverted_prompt_tuning_extends_inverted 2 2 "fixed" "h" "fixed"
              "h" (1 / 10) 4 1 1 (const_inv_exo_draw 1) m _
              (mkT3 1 2 3 (fun _ t _ => INR t)) None
              (mkT2 1 1 (fun _ _ => 1%R)) 1 3 Hm Hm' eq_refl eq_refl)
    as (y & y' & Hy & Hy' & Hs & _).
  - lia.
  - intros xm Hxm. discriminate Hxm.
  - exists m. eexists. exists y, y'.
    split; [exact Hm |]. split; [exact Hm' |].
    split; [exact Hy |]. split; [exact Hy' | exact Hs].
Defined.

(** ** Prompts the modules reject *)

Lemma projector_init_mlp (d_model nvt exo_dim hidden : nat)
  (r1 r2 : LinearDraw) (proj : option Sequential) :
  projector_init "two_layer_mlp" d_model nvt exo_dim hidden r1 r2 = ok proj ->
  proj = Some (mlp_projector d_model nvt exo_dim hidden r1 r2).
Proof.
  intros H.
  change (projector_init "two_layer_mlp" d_model nvt exo_dim hidden r1 r2)
    with (ok (Some (mlp_projector d_model nvt exo_dim hidden r1 r2))) in H.
  apply ok_inj in H. symmetry. exact H.
Qed.

Lemma prepare_prompt_mlp_no_tokens (s : Sequential) (exo_prompt : Tensor2 R)
  (l : nat) :
  exists e, prepare_prompt "two_layer_mlp" (Some s) 0 exo_prompt l = raise e.
Proof.
  unfold prepare_prompt.
  change (in_list "two_layer_mlp" ["brute_concat"%string]) with false.
  change (in_list "two_layer_mlp" ["two_layer_mlp"%string]) with true.
  cbv iota.
  destruct (Sequential_forward s exo_prompt) as [e | t]; cbn [bind].
  - exists e. reflexivity.
  - exists ZeroDivisionError. reflexivity.
Qed.

Lemma prepare_prompt_mlp_bad_width (d_model nvt exo_dim hidden : nat)
  (r1 r2 : LinearDraw) (exo_prompt : Tensor2 R) (l : nat) :
  cols2 exo_prompt <> exo_dim ->
  prepare_prompt "two_layer_mlp"
    (Some (mlp_projector d_model nvt exo_dim hidden r1 r2)) nvt exo_prompt l
  = raise RuntimeError.
Proof.
  intros Hne. unfold prepare_prompt.
  change (in_list "two_layer_mlp" ["brute_concat"%string]) with false.
  change (in_list "two_layer_mlp" ["two_layer_mlp"%string]) with true.
  cbv iota. unfold Sequential_forward, mlp_projector, Linear_forward2.
  cbn [fc1 fc2 Linear_init in_features].
  destruct (Nat.eqb_spec (cols2 exo_prompt) exo_dim); [contradiction |].
  reflexivity.
Qed.

(** X19. With [num_virtual_tokens = 0] the policy [two_layer_mlp] builds
    modules that cannot be applied: the constructors accept the value,
    and [forward] raises on every input, in both prompt-tuned modules. *)
Theorem two_layer_mlp_needs_a_virtual_token :
  (forall tv c_in d_model embed_type freq p exo_dim hidden r m,
      DataEmbeddingWithExoPromptTuning_init tv c_in d_model embed_type freq p
        "two_layer_mlp" 0 exo_dim hidden r = ok m ->
      forall mode x x_mark exo_prompt,
      exists e,
        DataEmbeddingWithExoPromptTuning_forward m mode x x_mark exo_prompt
        = raise e) /\
  (forall c_in d_model embed_type freq p exo_dim hidden r m,
      DataEmbedding_inverted_WithExoPromptTuning_init c_in d_model embed_type
        freq p "two_layer_mlp" 0 exo_dim hidden r = ok m ->
      forall mode x x_mark exo_prompt,
      exists e,
        DataEmbedding_inverted_WithExoPromptTuning_forward m mode x x_mark
          exo_prompt = raise e) /\
  (forall c_in d_model embed_type freq p exo_dim hidden r,
      (0 <= p <= 1)%R ->
      exists m,
        DataEmbedding_inverted_WithExoPromptTuning_init c_in d_model
          embed_type freq p "two_layer_mlp" 0 exo_dim hidden r = ok m).
Proof.
  split; [| split].
  - intros tv c_in d_model embed_type freq p exo_dim hidden r m Hinit
      mode x x_mark exo_prompt.
    destruct (Exo_init_inv _ _ _ _ _ _ _ _ _ _ _ _ Hinit)
      as (proj & pos & tm & Hproj & _ & _ & ->).
    apply projector_init_mlp in Hproj. subst proj.
    unfold DataEmbeddingWithExoPromptTuning_forward.
    cbn [prompt_tuning_type num_virtual_tokens exo_prompt_projector].
    destruct (prepare_prompt_mlp_no_tokens
                (mlp_projector d_model 0 exo_dim hidden (draw_fc1 r)
                   (draw_fc2 r)) exo_prompt (dim1 x)) as (e & ->).
    exists e. reflexivity.
  - intros c_in d_model embed_type freq p exo_dim hidden r m Hinit
      mode x x_mark exo_prompt.
    destruct (InvExo_init_inv _ _ _ _ _ _ _ _ _ _ _ Hinit)
      as (proj & Hproj & ->).
    apply projector_init_mlp in Hproj. subst proj.
    unfold DataEmbedding_inverted_WithExoPromptTuning_forward.
    cbn [inv_prompt_tuning_type inv_num_virtual_tokens
         inv_exo_prompt_projector].
    destruct (prepare_prompt_mlp_no_tokens
                (mlp_projector d_model 0 exo_dim hidden (inv_draw_fc1 r)
                   (inv_draw_fc2 r)) exo_prompt
                (dim1 (permute021 x))) as (e & ->).
    exists e. reflexivity.
  - intros c_in d_model embed_type freq p exo_dim hidden r Hp.
    apply InvExo_init_ok; [reflexivity | exact Hp].
Qed.

Lemma two_layer_mlp_needs_a_virtual_token_witness :
  exists m e,
    DataEmbedding_inverted_WithExoPromptTuning_init 2 2 "fixed" "h" (1 / 10)
      "two_layer_mlp" 0 1 1 (const_inv_exo_draw 1) = ok m /\
    DataEmbedding_inverted_WithExoPromptTuning_forward m Eval
      (mkT3 1 2 3 (fun _ t _ => INR t)) None (mkT2 1 1 (fun _ _ => 1%R))
    = raise e.
Proof.
  destruct (proj2 (proj2 two_layer_mlp_needs_a_virtual_token) 2 2
              "fixed"%string "h"%string (1 / 10)%R 1 1
              (const_inv_exo_draw 1)) as (m & Hm); [lra |].
  destruct (proj1 (proj2 two_layer_mlp_needs_a_virtual_token) 2 2
              "fixed"%string
              "h"%string (1 / 10)%R 1 1 (const_inv_exo_draw 1) m Hm Eval
              (mkT3 1 2 3 (fun _ t _ => INR t)) None
              (mkT2 1 1 (fun _ _ => 1%R))) as (e & He).
  exists m, e. split; [exact Hm | exact He].
Defined.

(** X20. Under [two_layer_mlp] the prompt is projected before anything
    else is computed: a prompt whose width is not [exo_prompt_dim] makes
    [forward] raise [RuntimeError] in both prompt-tuned modules, whatever
    the series and the calendar input are. *)
Theorem two_layer_mlp_rejects_prompt_width :
  (forall tv c_in d_model embed_type freq p nvt exo_dim hidden r m mode
          x x_mark exo_prompt,
      DataEmbeddingWithExoPromptTuning_init tv c_in d_model embed_type freq p
        "two_layer_mlp" nvt exo_dim hidden r = ok m ->
      cols2 exo_prompt <> exo_dim ->
      DataEmbeddingWithExoPromptTuning_forward m mode x x_mark exo_prompt
      = raise RuntimeError) /\
  (forall c_in d_model embed_type freq p nvt exo_dim hidden r m mode
          x x_mark exo_prompt,
      DataEmbedding_inverted_WithExoPromptTuning_init c_in d_model embed_type
        freq p "two_layer_mlp" nvt exo_dim hidden r = ok m ->
      cols2 exo_prompt <> exo_dim ->
      DataEmbedding_inverted_WithExoPromptTuning_forward m mode x x_mark
        exo_prompt = raise RuntimeError).
Proof.
  split.
  - intros tv c_in d_model embed_type freq p nvt exo_dim hidden r m mode
      x x_mark exo_prompt Hinit Hne.
    destruct (Exo_init_inv _ _ _ _ _ _ _ _ _ _ _ _ Hinit)
      as (proj & pos & tm & Hproj & _ & _ & ->).
    apply projector_init_mlp in Hproj. subst proj.
    unfold DataEmbeddingWithExoPromptTuning_forward.
    cbn [prompt_tuning_type num_virtual_tokens exo_prompt_projector].
    rewrite prepare_prompt_mlp_bad_width by exact Hne. reflexivity.
  - intros c_in d_model embed_type freq p nvt exo_dim hidden r m mode
      x x_mark exo_prompt Hinit Hne.
    destruct (InvExo_init_inv _ _ _ _ _ _ _ _ _ _ _ Hinit)
      as (proj & Hproj & ->).
    apply projector_init_mlp in Hproj. subst proj.
    unfold DataEmbedding_inverted_WithExoPromptTuning_forward.
    cbn [inv_prompt_tuning_type inv_num_virtual_tokens
         inv_exo_prompt_projector].
    rewrite prepare_prompt_mlp_bad_width by exact Hne. reflexivity.
Qed.

Lemma two_layer_mlp_rejects_prompt_width_witness :
  exists m,
    DataEmbedding_inverted_WithExoPromptTuning_init 2 2 "fixed" "h" (1 / 10)
      "two_layer_mlp" 4 3 1 (const_inv_exo_draw 1) = ok m /\
    DataEmbedding_inverted_WithExoPromptTuning_forward m Eval
      (mkT3 1 2 3 (fun _ t _ => INR t)) None (mkT2 1 2 (fun _ _ => 1%R))
    = raise RuntimeError.
Proof.
  destruct (InvExo_init_ok 2 2 "fixed" "h" (1 / 10) "two_layer_mlp" 4 3 1
              (const_inv_exo_draw 1)) as (m & Hm); [reflexivity | lra |].
  exists m. split; [exact Hm |].
  apply (proj2 two_layer_mlp_rejects_prompt_width 2 2 "fixed"%string
           "h"%string (1 / 10)%R 4 3 1 (const_inv_exo_draw 1) m Eval
           (mkT3 1 2 3 (fun _ t _ => INR t)) None
           (mkT2 1 2 (fun _ _ => 1%R)) Hm).
  cbn [cols2]. lia.
Defined.


Lemma cat1_channel_mismatch (a b : Tensor3 R) :
  dim2 a <> dim2 b -> cat1 a b = raise RuntimeError.
Proof.
  intros H. unfold cat1.
  destruct (Nat.eqb_spec (dim2 a) (dim2 b)); [contradiction |].
  rewrite andb_false_r. reflexivity.
Qed.






(** ** The prompt-tuned embedding and the plain embedding *)

(** X22. The virtual tokens count against the 5000 rows of the positional
    table: under [two_layer_mlp], on well-shaped inputs with
    [num_virtual_tokens + L > 5000],
    [DataEmbeddingWithExoPromptTuning.forward] raises [RuntimeError]. *)
Theorem virtual_tokens_shorten_the_longest_sequence (tv : Version)
  (c_in d_model : nat) (embed_type freq : string) (p : R)
  (nvt exo_dim hidden : nat) (r : ExoDraw)
  (m : DataEmbeddingWithExoPromptTuning) (mode : Mode) (x : Tensor3 R)
  (x_mark : option (Tensor3 R)) (exo_prompt : Tensor2 R) (B L : nat) :
  DataEmbeddingWithExoPromptTuning_init tv c_in d_model embed_type freq p
    "two_layer_mlp" nvt exo_dim hidden r = ok m ->
  version_ge tv [1; 5; 0] = true ->
  shape3 x = (B, L, c_in) ->
  shape2 exo_prompt = (B, exo_dim) ->
  1 <= L -> 1 <= nvt ->
  default_max_len < nvt + L ->
  DataEmbeddingWithExoPromptTuning_forward m mode x x_mark exo_prompt
  = raise RuntimeError.
Proof.
  intros Hinit Hv Hx Hexo HL Hn Hlong.
  destruct (Exo_init_inv _ _ _ _ _ _ _ _ _ _ _ _ Hinit)
    as (proj & pos & tm & Hproj & Hpos & Htm & ->).
  apply projector_init_mlp in Hproj. subst proj.
  destruct (PositionalEmbedding_init_inv _ _ _ Hpos) as (Hd0 & Hps & Hpg).
  unfold shape3 in Hps. injection Hps as P0 P1 P2.
  unfold shape2 in Hexo. injection Hexo as E0 E1.
  destruct (TokenEmbedding_forward_channels tv c_in d_model (draw_conv r) x
              B L Hv ltac:(lia) Hx HL) as (Tk & HTk & HsTk & _).
  unfold shape3 in HsTk. injection HsTk as K0 K1 K2.
  change (in_list "two_layer_mlp" ["brute_concat"%string]) with false.
  cbn [negb]. cbv iota.
  unfold DataEmbeddingWithExoPromptTuning_forward.
  cbn [prompt_tuning_type num_virtual_tokens exo_prompt_projector
       value_embedding position_embedding temporal_embedding dropout].
  rewrite prepare_prompt_mlp by assumption. cbn [bind ok].
  change (in_list "two_layer_mlp" ["brute_concat"%string]) with false.
  cbn [negb]. cbv iota. rewrite HTk. cbn [bind ok as_rank3 zeros_like_prompt].
  destruct (Nat.eqb_spec c_in 0) as [Hz | Hnz].
  - rewrite cat1_channel_mismatch by (cbn [dim2]; lia).
    destruct x_mark; reflexivity.
  - rewrite cat1_ok by (cbn [dim0 dim2]; congruence).
    cbn [bind ok dim0 dim1 dim2].
    destruct x_mark as [xm |];
      (rewrite add3_raise_dim1; [reflexivity |];
       cbn [PositionalEmbedding_forward dim1]; rewrite P1, K1;
       rewrite Nat.min_r by lia; apply bdim_long; exact Hlong).
Qed.

Lemma virtual_tokens_shorten_the_longest_sequence_witness :
  exists m,
    DataEmbeddingWithExoPromptTuning_init [2; 1; 0] 1 2 "timeF" "h" (1 / 10)
      "two_layer_mlp" 10 1 1 (const_exo_draw 1) = ok m /\
    DataEmbeddingWithExoPromptTuning_forward m Eval
      (mkT3 1 (default_max_len - 5) 1 (fun _ l _ => INR l)) None
      (mkT2 1 1 (fun _ _ => 1%R)) = raise RuntimeError.
Proof.
  destruct (Exo_init_ok [2; 1; 0] 1 2 "timeF" "h" (1 / 10) "two_layer_mlp"
              10 1 1 (const_exo_draw 1)) as (m & Hm);
    [reflexivity | lra | reflexivity | reflexivity |].
  exists m. split; [exact Hm |].
  apply (virtual_tokens_shorten_the_longest_sequence [2; 1; 0] 1 2 "timeF"
           "h" (1 / 10) 10 1 1 (const_exo_draw 1) m Eval
           (mkT3 1 (default_max_len - 5) 1 (fun _ l _ => INR l)) None
           (mkT2 1 1 (fun _ _ => 1%R)) 1 (default_max_len - 5) Hm eq_refl
           eq_refl eq_refl);
    unfold default_max_len; lia.
Defined.

(** X23. Under [two_layer_mlp] and in evaluation mode, for a series with
    at least one channel, the rows of the real time steps in the output
    of [DataEmbeddingWithExoPromptTuning] are the rows of [DataEmbedding]
    for the same drawn parameters, with the sinusoid of position [l]
    replaced by the sinusoid of position [num_virtual_tokens + l]. *)
Theorem prompt_tuning_shifts_positions (tv : Version) (c_in d_model : nat)
  (embed_type freq : string) (p : R) (nvt exo_dim hidden : nat)
  (r : ExoDraw) (m : DataEmbeddingWithExoPromptTuning) (m' : DataEmbedding)
  (x : Tensor3 R) (x_mark : option (Tensor3 R)) (exo_prompt : Tensor2 R)
  (B L : nat) :
  DataEmbeddingWithExoPromptTuning_init tv c_in d_model embed_type freq p
    "two_layer_mlp" nvt exo_dim hidden r = ok m ->
  DataEmbedding_init tv c_in d_model embed_type freq p
    (mkDataDraw (draw_conv r) (draw_temporal r) (draw_timeF r)) = ok m' ->
  version_ge tv [1; 5; 0] = true ->
  shape3 x = (B, L, c_in) ->
  shape2 exo_prompt = (B, exo_dim) ->
  1 <= c_in ->
  1 <= L -> 1 <= nvt -> nvt + L <= default_max_len ->
  (forall xm, x_mark = Some xm ->
     dim0 xm = B /\ dim1 xm = L /\ temporal_input embed_type freq xm) ->
  exists y y',
    DataEmbeddingWithExoPromptTuning_forward m Eval x x_mark exo_prompt
    = ok y /\
    DataEmbedding_forward m' Eval x x_mark = ok y' /\
    forall b l d, b < B -> l < L -> d < d_model ->
      (get3 y b (nvt + l) d - sinusoid d_model (nvt + l) d =
       get3 y' b l d - sinusoid d_model l d)%R.
Proof.
  intros Hinit Hinit' Hv Hx Hexo Hcin HL Hn Hmax Hmark.
  destruct (Exo_forward_mlp tv c_in d_model embed_type freq p nvt exo_dim
              hidden r Eval x x_mark exo_prompt B L Hv Hx Hexo HL Hmark m
              Hinit Hn Hmax Hcin) as (y & Hy & Hs & Hg).
  destruct (DataEmbedding_forward_ok tv c_in d_model embed_type freq p
              (mkDataDraw (draw_conv r) (draw_temporal r) (draw_timeF r))
              Eval x x_mark B L Hv Hx HL Hmark m' Hinit' ltac:(lia) Hcin)
    as (y' & Hy' & Hs' & Hg').
  cbn [Dropout_forward] in Hy, Hy'.
  exists y, y'. split; [exact Hy |]. split; [exact Hy' |].
  intros b l d Hb Hl Hd. rewrite Hg, Hg' by lia.
  destruct (Nat.ltb_spec (nvt + l) nvt) as [Hlt | _]; [lia |].
  replace (nvt + l - nvt) with l by lia.
  destruct (Exo_init_inv _ _ _ _ _ _ _ _ _ _ _ _ Hinit)
    as (proj & pos & tm & _ & _ & Htm & ->).
  destruct (DataEmbedding_init_inv _ _ _ _ _ _ _ _ Hinit')
    as (pos' & tm' & _ & Htm' & _ & ->).
  cbn [data_draw_temporal data_draw_timeF] in Htm'.
  rewrite Htm in Htm'. apply ok_inj in Htm'. subst tm'.
  cbn [temporal_embedding de_temporal_embedding data_draw_conv].
  ring.
Qed.

Lemma prompt_tuning_shifts_positions_witness :
  let x := mkT3 1 2 1 (fun _ l _ => INR l) in
  let exo_prompt := mkT2 1 1 (fun _ _ => 1%R) in
  exists m m' y y',
    DataEmbeddingWithExoPromptTuning_init [2; 1; 0] 1 2 "timeF" "h" (1 / 10)
      "two_layer_mlp" 3 1 1 (const_exo_draw 1) = ok m /\
    DataEmbedding_init [2; 1; 0] 1 2 "timeF" "h" (1 / 10)
      (const_data_draw 1) = ok m' /\
    DataEmbeddingWithExoPromptTuning_forward m Eval x None exo_prompt
    = ok y /\
    DataEmbedding_forward m' Eval x None = ok y' /\
    (get3 y 0 4 0 - sinusoid 2 4 0 = get3 y' 0 1 0 - sinusoid 2 1 0)%R.
Proof.
  cbv zeta.
  destruct (Exo_init_ok [2; 1; 0] 1 2 "timeF" "h" (1 / 10) "two_layer_mlp"
              3 1 1 (const_exo_draw 1)) as (m & Hm);
    [reflexivity | lra | reflexivity | reflexivity |].
  destruct (DataEmbedding_init_ok [2; 1; 0] 1 2 "timeF" "h" (1 / 10)
              (const_data_draw 1)) as (m' & Hm');
    [lra | reflexivity | reflexivity |].
  destruct (prompt_tuning_shifts_positions [2; 1; 0] 1 2 "timeF" "h"
              (1 / 10) 3 1 1 (const_exo_draw 1) m m'
              (mkT3 1 2 1 (fun _ l _ => INR l)) None
              (mkT2 1 1 (fun _ _ => 1%R)) 1 2 Hm Hm' eq_refl eq_refl eq_refl)
    as (y & y' & Hy & Hy' & Hg).
  - lia.
  - lia.
  - lia.
  - unfold default_max_len. lia.
  - intros xm Hxm. discriminate Hxm.
  - exists m, m', y, y'. repeat (split; [assumption |]).
    apply (Hg 0 1 0); lia.
Defined.

(** ** PatchEmbedding *)

Lemma patch_cover (T len step pad t : nat) :
  1 <= step -> step <= len -> step <= pad -> len <= T + pad -> t < T ->
  exists i j,
    i < (T + pad - len) / step + 1 /\ j < len /\ i * step + j = t.
Proof.
  intros Hs Hsl Hsp Hlen Ht.
  pose proof (Nat.div_mod_eq t step) as Et.
  pose proof (Nat.mod_upper_bound t step ltac:(lia)) as Mt.
  pose proof (Nat.div_mod_eq (T + pad - len) step) as En.
  pose proof (Nat.mod_upper_bound (T + pad - len) step ltac:(lia)) as Mn.
  set (n := (T + pad - len) / step) in *.
  set (q := t / step) in *.
  destruct (Nat.le_gt_cases q n) as [Hq | Hq].
  - exists q, (t mod step). split; [lia |]. split; [lia | nia].
  - exists n, (t - n * step).
    assert (n * step <= t) by nia.
    split; [lia |]. split; [nia | lia].
Qed.

(** X24. When the stride is at most the patch length and at most the
    padding, the patches of [PatchEmbedding] leave out no time step:
    every sample of the series is an element of some patch. *)
Theorem PatchEmbedding_patches_cover_the_series (len step pad : nat)
  (x : Tensor3 R) (u : Tensor4 R) :
  (xp <- replication_pad_right pad x ;; unfold_last xp len step) = ok u ->
  1 <= step -> step <= len -> step <= pad ->
  forall t, t < dim2 x ->
    exists i j, i < d4_2 u /\ j < d4_3 u /\ i * step + j = t /\
      forall b v, get4 u b v i j = get3 x b v t.
Proof.
  intros H Hs Hsl Hsp t Ht.
  bind_inv H as xp Hxp. unfold replication_pad_right in Hxp.
  destruct ((dim1 x =? 0) || (dim2 x =? 0)); [discriminate Hxp |].
  apply ok_inj in Hxp. subst xp.
  unfold unfold_last in H. cbn [dim0 dim1 dim2 get3] in H.
  destruct (Nat.ltb_spec (dim2 x + pad) len) as [Hlt | Hge];
    [discriminate H |].
  destruct (step =? 0); [discriminate H |].
  apply ok_inj in H. subst u. cbn [d4_2 d4_3 get4].
  destruct (patch_cover (dim2 x) len step pad t Hs Hsl Hsp Hge Ht)
    as (i & j & Hi & Hj & Hij).
  exists i, j. repeat (split; [assumption |]).
  intros b v. rewrite Hij, Nat.min_l by lia. reflexivity.
Qed.

Lemma PatchEmbedding_patches_cover_the_series_witness :
  let x := mkT3 1 1 20 (fun _ _ t => INR t) in
  exists u i j,
    (xp <- replication_pad_right 8 x ;; unfold_last xp 16 8) = ok u /\
    i < d4_2 u /\ j < d4_3 u /\ i * 8 + j = 19.
Proof.
  cbv zeta. eexists.
  destruct (PatchEmbedding_patches_cover_the_series 16 8 8
              (mkT3 1 1 20 (fun _ _ t => INR t)) _ eq_refl
              ltac:(lia) ltac:(lia) ltac:(lia) 19 ltac:(cbn; lia))
    as (i & j & Hi & Hj & Hij & _).
  exists i, j. split; [reflexivity |].
  split; [exact Hi |]. split; [exact Hj | exact Hij].
Defined.

(** ** Tokens of the inverted embedding *)



(** ** What [brute_concat] never reads *)

Lemma projector_init_brute (d_model nvt exo_dim hidden : nat)
  (r1 r2 : LinearDraw) (proj : option Sequential) :
  projector_init "brute_concat" d_model nvt exo_dim hidden r1 r2 = ok proj ->
  proj = None.
Proof.
  intros H.
  change (projector_init "brute_concat" d_model nvt exo_dim hidden r1 r2)
    with (@ok (option Sequential) None) in H.
  apply ok_inj in H. symmetry. exact H.
Qed.

(** X26. Under [brute_concat] the number of virtual tokens, the hidden
    size of the projector and the values drawn for the projector play no
    part: two modules that differ only in them return the same result, or
    raise the same exception, on every input. *)
Theorem brute_concat_ignores_projector_settings :
  (forall tv c_in d_model embed_type freq p nvt nvt' exo_dim hidden hidden'
          r r' m m',
      DataEmbeddingWithExoPromptTuning_init tv c_in d_model embed_type freq p
        "brute_concat" nvt exo_dim hidden r = ok m ->
      DataEmbeddingWithExoPromptTuning_init tv c_in d_model embed_type freq p
        "brute_concat" nvt' exo_dim hidden' r' = ok m' ->
      draw_conv r = draw_conv r' ->
      draw_temporal r = draw_temporal r' ->
      draw_timeF r = draw_timeF r' ->
      forall mode x x_mark exo_prompt,
        DataEmbeddingWithExoPromptTuning_forward m mode x x_mark exo_prompt
        = DataEmbeddingWithExoPromptTuning_forward m' mode x x_mark
            exo_prompt) /\
  (forall c_in d_model embed_type freq p nvt nvt' exo_dim hidden hidden'
          r r' m m',
      DataEmbedding_inverted_WithExoPromptTuning_init c_in d_model embed_type
        freq p "brute_concat" nvt exo_dim hidden r = ok m ->
      DataEmbedding_inverted_WithExoPromptTuning_init c_in d_model embed_type
        freq p "brute_concat" nvt' exo_dim hidden' r' = ok m' ->
      inv_draw_value r = inv_draw_value r' ->
      forall mode x x_mark exo_prompt,
        DataEmbedding_inverted_WithExoPromptTuning_forward m mode x x_mark
          exo_prompt
        = DataEmbedding_inverted_WithExoPromptTuning_forward m' mode x x_mark
            exo_prompt).
Proof.
  split.
  - intros tv c_in d_model embed_type freq p nvt nvt' exo_dim hidden hidden'
      r r' m m' Hinit Hinit' Hc Ht Hf mode x x_mark exo_prompt.
    destruct (Exo_init_inv _ _ _ _ _ _ _ _ _ _ _ _ Hinit)
      as (proj & pos & tm & Hproj & Hpos & Htm & ->).
    destruct (Exo_init_inv _ _ _ _ _ _ _ _ _ _ _ _ Hinit')
      as (proj' & pos' & tm' & Hproj' & Hpos' & Htm' & ->).
    apply projector_init_brute in Hproj, Hproj'. subst proj proj'.
    rewrite Hpos in Hpos'. apply ok_inj in Hpos'. subst pos'.
    rewrite <- Ht, <- Hf, Htm in Htm'. apply ok_inj in Htm'. subst tm'.
    rewrite <- Hc.
    unfold DataEmbeddingWithExoPromptTuning_forward.
    cbn [prompt_tuning_type num_virtual_tokens exo_prompt_projector
         value_embedding position_embedding temporal_embedding dropout].
    rewrite !prepare_prompt_brute. reflexivity.
  - intros c_in d_model embed_type freq p nvt nvt' exo_dim hidden hidden'
      r r' m m' Hinit Hinit' Hv mode x x_mark exo_prompt.
    destruct (InvExo_init_inv _ _ _ _ _ _ _ _ _ _ _ Hinit)
      as (proj & Hproj & ->).
    destruct (InvExo_init_inv _ _ _ _ _ _ _ _ _ _ _ Hinit')
      as (proj' & Hproj' & ->).
    apply projector_init_brute in Hproj, Hproj'. subst proj proj'.
    rewrite <- Hv.
    unfold DataEmbedding_inverted_WithExoPromptTuning_forward.
    cbn [inv_prompt_tuning_type inv_num_virtual_tokens
         inv_exo_prompt_projector inv_value_embedding inv_dropout].
    rewrite !prepare_prompt_brute. reflexivity.
Qed.

Lemma brute_concat_ignores_projector_settings_witness :
  exists m m',
    DataEmbedding_inverted_WithExoPromptTuning_init 2 2 "fixed" "h" (1 / 10)
      "brute_concat" 10 3 512 (const_inv_exo_draw 1) = ok m /\
    DataEmbedding_inverted_WithExoPromptTuning_init 2 2 "fixed" "h" (1 / 10)
      "brute_concat" 0 3 1
      (mkInvExoDraw (const_linear_draw 0) (const_linear_draw 0)
         (const_linear_draw 1)) = ok m' /\
    DataEmbedding_inverted_WithExoPromptTuning_forward m Eval
      (mkT3 1 2 3 (fun _ t _ => INR t)) None (mkT2 1 3 (fun _ _ => 1%R))
    = DataEmbedding_inverted_WithExoPromptTuning_forward m' Eval
        (mkT3 1 2 3 (fun _ t _ => INR t)) None (mkT2 1 3 (fun _ _ => 1%R)).
Proof.
  destruct (InvExo_init_ok 2 2 "fixed" "h" (1 / 10) "brute_concat" 10 3 512
              (const_inv_exo_draw 1)) as (m & Hm); [reflexivity | lra |].
  destruct (InvExo_init_ok 2 2 "fixed" "h" (1 / 10) "brute_concat" 0 3 1
              (mkInvExoDraw (const_linear_draw 0) (const_linear_draw 0)
                 (const_linear_draw 1))) as (m' & Hm');
    [reflexivity | lra |].
  exists m, m'. split; [exact Hm |]. split; [exact Hm' |].
  apply (proj2 brute_concat_ignores_projector_settings 2 2 "fixed"%string
           "h"%string (1 / 10)%R 10 0 3 512 1 (const_inv_exo_draw 1)
           (mkInvExoDraw (const_linear_draw 0) (const_linear_draw 0)
              (const_linear_draw 1)) m m' Hm Hm' eq_refl).
Defined.

(** ** Construction of the temporal embedding *)

Lemma FixedEmbedding_init_d_model_ok (c_in d_model : nat)
  (m : FixedEmbedding) :
  FixedEmbedding_init c_in d_model = ok m -> d_model_ok d_model = true.
Proof.
  intros H. destruct (d_model_ok d_model) eqn:E; [reflexivity |].
  destruct (Nat.eq_dec d_model 0) as [-> | Hd].
  - discriminate H.
  - rewrite (FixedEmbedding_init_odd c_in d_model Hd E) in H. discriminate H.
Qed.

(** X27. [TemporalEmbedding.__init__] checks neither the frequency nor,
    for learned tables, the width: for [d_model >= 1] it succeeds exactly
    when [embed_type] is not "fixed" or the sinusoidal table of width
    [d_model] can be built ([d_model] even, or 1). *)
Theorem TemporalEmbedding_construction (d_model : nat)
  (embed_type freq : string) (r : TemporalDraw) :
  1 <= d_model ->
  ((exists m, TemporalEmbedding_init d_model embed_type freq r = ok m)
   <-> (String.eqb embed_type "fixed" = true ->
        Nat.even d_model = true \/ d_model = 1)).
Proof.
  intros Hd. split.
  - intros (m & Hm) Hfix.
    destruct (TemporalEmbedding_init_parts _ _ _ _ _ Hm) as (Hh & _).
    unfold Embed_init in Hh. rewrite Hfix in Hh.
    bind_inv Hh as f Hf. apply FixedEmbedding_init_d_model_ok in Hf.
    unfold d_model_ok in Hf. apply andb_true_iff in Hf.
    destruct Hf as [_ Hf]. apply orb_true_iff in Hf.
    destruct Hf as [He | H1]; [left; exact He |].
    right. apply Nat.eqb_eq. exact H1.
  - intros H. destruct (String.eqb embed_type "fixed") eqn:Hfix.
    + apply TemporalEmbedding_init_ok. unfold d_model_ok.
      destruct (Nat.eqb_spec d_model 0) as [E | _]; [lia |]. cbn [negb andb].
      destruct (H eq_refl) as [-> | ->]; [reflexivity |].
      apply orb_true_r.
    + unfold TemporalEmbedding_init, Embed_init. rewrite Hfix.
      destruct (String.eqb freq "t"); cbn [bind ok]; eexists; reflexivity.
Qed.

Lemma TemporalEmbedding_construction_witness :
  (exists m, TemporalEmbedding_init 7 "learned" "15min"
               (const_temporal_draw 0) = ok m) /\
  ~ (exists m, TemporalEmbedding_init 7 "fixed" "h"
                 (const_temporal_draw 0) = ok m).
Proof.
  split.
  - apply (proj2 (TemporalEmbedding_construction 7 "learned" "15min"
                    (const_temporal_draw 0) ltac:(lia))).
    intros H. discriminate H.
  - intros H.
    destruct (proj1 (TemporalEmbedding_construction 7 "fixed" "h"
                       (const_temporal_draw 0) ltac:(lia)) H eq_refl)
      as [He | H1]; [discriminate He | lia].
Defined.
